(** * DXF-Import: the geometry fidelity resolver and the tessellation engine

    A shallow embedding of [importer.get_hifi_geometry], of
    [geometry_to_line.py] ([lines_to_points], [arc_to_lines],
    [ellipse_to_arcs], [convert_to]), of the dispatch of
    [importer.import_file] and of the comparison [importer_tests.py] checks
    results with, followed by the properties proved about them.

    Python values are modelled as the code uses them:
    - a [float] is an IEEE binary64 number, Rocq's primitive [float];
    - an [int] is a [Z];
    - a geometry item [(name, [tuple, ...])] is a pair of a string and a list
      of lists of floats;
    - a raised exception is the [Raise] case of [result];
    - [logging.warning] appends to a list of messages. *)

From Stdlib Require Import ZArith List Ascii String Bool Lia.
From Stdlib Require Import Floats DecimalString.
Import ListNotations.

Set Warnings "-inexact-float".

Local Open Scope string_scope.
Local Open Scope Z_scope.

(** ** Exceptions and results *)

(** The exceptions the modelled code can raise. [InvalidUnits u] is the
    source's [Exception('Invalid Units {}', units)]. *)
Inductive exn : Type :=
| InvalidUnits (units : string)
| ZeroDivisionError
| TypeError
| ValueError
| OverflowError
| IndexError
| UnboundLocalError (name : string)
| RecursionError.

Inductive result (A : Type) : Type :=
| Ok (a : A)
| Raise (e : exn).

Arguments Ok {A} a.
Arguments Raise {A} e.

Definition bind {A B : Type} (r : result A) (k : A -> result B) : result B :=
  match r with
  | Ok a => k a
  | Raise e => Raise e
  end.

Declare Scope py_scope.
Delimit Scope py_scope with py.
Notation "x <- r ;; k" := (bind r (fun x => k))
  (at level 61, r at next level, right associativity) : py_scope.
Local Open Scope py_scope.

(** A loop [for x in xs: body] over a state that may raise. *)
Fixpoint for_each {S X : Type} (body : S -> X -> result S) (xs : list X) (s : S)
  : result S :=
  match xs with
  | [] => Ok s
  | x :: rest => s' <- body s x ;; for_each body rest s'
  end.

(** ** Logging

    A computation that may call [logging.warning] before it returns or
    raises: the messages logged so far go in and come out. *)
Definition logged (A : Type) : Type := list string -> list string * result A.

Definition lret {A : Type} (a : A) : logged A := fun log => (log, Ok a).

Definition lbind {A B : Type} (c : logged A) (k : A -> logged B) : logged B :=
  fun log =>
    match c log with
    | (log', Ok a) => k a log'
    | (log', Raise e) => (log', Raise e)
    end.

Definition lift {A : Type} (r : result A) : logged A := fun log => (log, r).

Definition warning (msg : string) : logged unit :=
  fun log => ((log ++ [msg])%list, Ok tt).

Notation "x <~ c ;; k" := (lbind c (fun x => k))
  (at level 61, c at next level, right associativity) : py_scope.

Fixpoint lfor_each {S X : Type} (body : S -> X -> logged S) (xs : list X) (s : S)
  : logged S :=
  match xs with
  | [] => lret s
  | x :: rest => s' <~ body s x ;; lfor_each body rest s'
  end.

(** ** Python numbers *)

(** [num_segments] is declared [float] and called with an [int]; the code
    also rebinds it to a float. A number is one or the other. *)
Inductive pynum : Type :=
| PyInt (n : Z)
| PyFloat (f : float).

(** [float(n)] for an int [n]: the nearest binary64 (ties to even), and
    [OverflowError] from the first magnitude that rounds past the largest
    finite float. *)
Definition nearest_float (n : Z) : float :=
  SF2Prim (binary_normalize prec emax n 0 false).

Definition float_int_bound : Z := 2 ^ 1024 - 2 ^ 970.

Definition float_of_int (n : Z) : result float :=
  if Z.abs n <? float_int_bound then Ok (nearest_float n)
  else Raise OverflowError.

(** [int(x)] for a float [x]: truncation toward zero. *)
Definition int_of_float (x : float) : result Z :=
  match Prim2SF x with
  | S754_zero _ => Ok 0
  | S754_infinity _ => Raise OverflowError
  | S754_nan => Raise ValueError
  | S754_finite s m e =>
      let v := if 0 <=? e then Z.pos m * 2 ^ e else Z.pos m / 2 ^ (- e) in
      Ok (if s then - v else v)
  end.

Definition to_float (v : pynum) : result float :=
  match v with
  | PyInt n => float_of_int n
  | PyFloat f => Ok f
  end.

(** [if v:] on a number. *)
Definition truthy (v : pynum) : bool :=
  match v with
  | PyInt n => negb (n =? 0)
  | PyFloat f => negb (f =? 0)%float
  end.

Definition float_truthy (f : float) : bool := negb (f =? 0)%float.

(** [v > k] for a small int literal [k] (exact on both kinds). *)
Definition py_gt (v : pynum) (k : Z) : bool :=
  match v with
  | PyInt n => k <? n
  | PyFloat f =>
      match float_of_int k with
      | Ok fk => (fk <? f)%float
      | Raise _ => false
      end
  end.

(** [a / b] on floats: Python raises on a zero divisor of either sign. *)
Definition fdiv (a b : float) : result float :=
  if (b =? 0)%float then Raise ZeroDivisionError else Ok (a / b)%float.

(** [a / v] with a float [a]: the int is converted first. *)
Definition truediv (a : float) (v : pynum) : result float :=
  b <- to_float v ;; fdiv a b.

(** [a / b] on two ints, [b] non-zero: the exact quotient rounded once to
    the nearest binary64. The quotient is taken with 60 bits or more and
    one sticky bit for a remainder, which is enough to round it as the
    exact value. *)
Definition int_div_float (a b : Z) : float :=
  let negative := xorb (a <? 0) (b <? 0) in
  let k := Z.max 0 (Z.log2 (Z.abs b) - Z.log2 (Z.abs a) + 60) in
  let q := (Z.abs a * 2 ^ k) / Z.abs b in
  let sticky := if (Z.abs a * 2 ^ k) mod Z.abs b =? 0 then 0 else 1 in
  let mantissa := 2 * q + sticky in
  SF2Prim (binary_normalize prec emax
             (if negative then - mantissa else mantissa) (- (k + 1)) negative).

(** [k / v] with an int literal [k]. *)
Definition int_truediv (k : Z) (v : pynum) : result float :=
  match v with
  | PyInt n =>
      if n =? 0 then Raise ZeroDivisionError
      else
        let f := int_div_float k n in
        if is_infinity f then Raise OverflowError else Ok f
  | PyFloat f => a <- float_of_int k ;; fdiv a f
  end.

(** [k * v] and [v + k] with an int literal [k]. *)
Definition py_mul_int (k : Z) (v : pynum) : result pynum :=
  match v with
  | PyInt n => Ok (PyInt (k * n))
  | PyFloat f => a <- float_of_int k ;; Ok (PyFloat (a * f)%float)
  end.

Definition py_add_int (v : pynum) (k : Z) : result pynum :=
  match v with
  | PyInt n => Ok (PyInt (n + k))
  | PyFloat f => a <- float_of_int k ;; Ok (PyFloat (f + a)%float)
  end.

(** [range(0, stop)]: the ints below [stop]; a float is refused. *)
Definition py_range (stop : pynum) : result (list Z) :=
  match stop with
  | PyInt n => Ok (map Z.of_nat (seq 0 (Z.to_nat n)))
  | PyFloat _ => Raise TypeError
  end.

(** [l[i]] with Python's negative indices. *)
Definition py_index {A : Type} (l : list A) (i : Z) : result A :=
  let len := Z.of_nat (List.length l) in
  let j := if i <? 0 then i + len else i in
  if (j <? 0) || (len <=? j) then Raise IndexError
  else match nth_error l (Z.to_nat j) with
       | Some a => Ok a
       | None => Raise IndexError
       end.

(** [l[v]] where the index may have become a float. *)
Definition py_index_num {A : Type} (l : list A) (v : pynum) : result A :=
  match v with
  | PyInt n => py_index l n
  | PyFloat _ => Raise TypeError
  end.

(** [str(n)] as an f-string prints it, and the f-string [f'TAG:{n}']. *)
Definition str_of_int (n : Z) : string := NilZero.string_of_int (Z.to_int n).
Definition item_name (tag : string) (n : Z) : string :=
  String.append tag (String.append ":" (str_of_int n)).

(** ** The [math] module *)

Definition math_pi : float := 3.141592653589793%float.

(** [math.radians] and [math.degrees] multiply by a constant. *)
Definition math_radians (x : float) : float := (x * (math_pi / 180))%float.
Definition math_degrees (x : float) : float := (x * (180 / math_pi))%float.

(** [math.sqrt]: IEEE square root, [ValueError] below zero. *)
Definition math_sqrt (x : float) : result float :=
  if (x <? 0)%float then Raise ValueError else Ok (PrimFloat.sqrt x).

(** The functions that come from the C library, as Python exposes them: a
    float, or a raised [ValueError] / [OverflowError]. *)
Record MathModule : Type := {
  math_cos : float -> result float;
  math_sin : float -> result float;
  math_atan2 : float -> float -> result float;
  math_pow : float -> float -> result float
}.

(** ** importer.py: [get_hifi_geometry] *)

Definition geometries : list string :=
  ["POINT"; "LINE"; "ARC"; "ELLIPSE"; "SPLINE"; "LWPOLYLINE"].

(** [x in l] on a list of strings. *)
Definition str_in (x : string) (l : list string) : bool :=
  existsb (String.eqb x) l.

(** [l.index(x)]: position of the first occurrence, [ValueError] if none. *)
Fixpoint list_index (x : string) (l : list string) : result Z :=
  match l with
  | [] => Raise ValueError
  | y :: rest =>
      if String.eqb y x then Ok 0
      else i <- list_index x rest ;; Ok (i + 1)
  end.

(** [range(start, -1, -1)]: [start, start-1, ..., 0]. *)
Definition range_down (start : Z) : list Z :=
  rev (map Z.of_nat (seq 0 (Z.to_nat (start + 1)))).

(** The final loop: the first kind below [geometry] that is allowed. *)
Fixpoint first_allowed (indices : list Z) (allowedtypes : list string)
  : result (option string) :=
  match indices with
  | [] => Ok None
  | index :: rest =>
      g <- py_index geometries index ;;
      if str_in g allowedtypes then Ok (Some g)
      else first_allowed rest allowedtypes
  end.

(** The result is a kind name, or [None] for the source's empty list [[]]
    ("No geometry was found"). *)
Definition get_hifi_geometry (geometry : string) (allowedtypes : list string)
  : result (option string) :=
  let generic :=
    i <- list_index geometry geometries ;;
    first_allowed (range_down (i - 1)) allowedtypes in
  let lwpolyline :=
    if String.eqb geometry "LWPOLYLINE" then
      if str_in "ARC" allowedtypes && str_in "LINE" allowedtypes then
        Ok (Some "ARC")
      else if negb (str_in "ARC" allowedtypes) && str_in "LINE" allowedtypes then
        Ok (Some "LINE")
      else if str_in "POINT" allowedtypes then
        Ok (Some "POINT")
      else generic
    else generic in
  if String.eqb geometry "SPLINE" then
    if str_in "LINE" allowedtypes then Ok (Some "LINE")
    else if str_in "POINT" allowedtypes then Ok (Some "POINT")
    else lwpolyline
  else lwpolyline.

(** ** geometry_to_line.py: tables and types *)

(** [10**k] is an int converted to float at the product; every power below
    is a binary64 value except [10**23], which rounds as its literal. *)
Definition CONVERSION_FACTORS : list float :=
  [ 1.0;
    3.9370079 * 100000;
    3.2808399 * 1000000;
    6.2137119 * 10000000000;
    1.0 * 1000;
    1.0 * 10000;
    1.0 * 1000000;
    1.0 * 1000000000;
    39.37007874015748;
    39.37007874015748 * 1000;
    1.093613 * 1000000;
    1.0 * 10000;
    1.0 * 1000;
    1.0;
    1.0 * 100000;
    1.0 * 10000000;
    1.0 * 100000000;
    1.0 * 1e15;
    6.6845871226706 * 1e18;
    1.0570008340246 * 1e22;
    3.2407792700054 * 1e23;
    3.2808399 * 1000000;
    3.9370079 * 100000;
    1.093613 * 1000000;
    6.2137119 * 10000000000 ]%float.

Definition UNIT_TABLE : list string :=
  [ "in"; "ft"; "mi"; "mm"; "cm"; "m"; "km"; "ui"; "mil"; "yd"; "a"; "nm";
    "um"; "dm"; "dam"; "hm"; "gm"; "au"; "ly"; "pc"; "usft"; "usin"; "usyd";
    "usmi" ].

Definition NUM_SEGMENTS : Z := 10.

Definition TGeometryItem : Type := string * list (list float).
Definition TGeometryList : Type := list TGeometryItem.

(** The block every stage runs first inside its loop:
    [CONVERSION_FACTORS[UNIT_TABLE.index(units)+1]], or the raised
    [Exception('Invalid Units {}', units)]. *)
Definition unit_factor (units : string) : result float :=
  if str_in units UNIT_TABLE then
    i <- list_index units UNIT_TABLE ;;
    py_index CONVERSION_FACTORS (i + 1)
  else Raise (InvalidUnits units).

(** Reading a local that may not have been assigned yet. *)
Definition read_local (name : string) (v : option float) : result float :=
  match v with
  | Some x => Ok x
  | None => Raise (UnboundLocalError name)
  end.

(** ** [lines_to_points] *)

(** The locals that live across the iterations of the loop over lines. *)
Record lines_state : Type := {
  ls_points : TGeometryList;
  ls_point_index : Z;
  ls_num_segments : pynum;
  ls_segment_length : float;
  ls_x_difference : option float
}.

(** The [if num_segments: ... elif segment_length: ... else: ...] block:
    the new [num_segments], [segment_length] and [x_difference]. *)
Definition lines_segmentation (start_point end_point : list float)
    (conversion_factor : float) (st : lines_state)
  : result (pynum * float * option float) :=
  if truthy (ls_num_segments st) then
    e0 <- py_index end_point 0 ;;
    s0 <- py_index start_point 0 ;;
    x_difference <- truediv (e0 - s0)%float (ls_num_segments st) ;;
    Ok (ls_num_segments st, ls_segment_length st, Some x_difference)
  else if float_truthy (ls_segment_length st) then
    let segment_length := (ls_segment_length st * conversion_factor)%float in
    s1 <- py_index start_point 1 ;;
    e1 <- py_index end_point 1 ;;
    num_segments <- fdiv (s1 - e1)%float segment_length ;;
    Ok (PyFloat num_segments, segment_length, ls_x_difference st)
  else
    e0 <- py_index end_point 0 ;;
    s0 <- py_index start_point 0 ;;
    x_difference <- truediv (e0 - s0)%float (PyInt NUM_SEGMENTS) ;;
    Ok (PyInt NUM_SEGMENTS, ls_segment_length st, Some x_difference).

(** One pass of [for index in range(0,num_segments)]. *)
Definition emit_point (start_point end_point : list float)
    (x_difference : option float) (slope y_intercept : float)
    (acc : TGeometryList * Z) (index : Z) : result (TGeometryList * Z) :=
  let '(points, point_index) := acc in
  s0 <- py_index start_point 0 ;;
  xd <- read_local "x_difference" x_difference ;;
  fi <- float_of_int index ;;
  s0' <- py_index start_point 0 ;;
  e0 <- py_index end_point 0 ;;
  let direction := if (0 <? s0' - e0)%float then 1%float else (-1)%float in
  let x := (s0 + xd * fi * direction)%float in
  let y := (x * slope + y_intercept)%float in
  Ok ((points ++ [(item_name "POINT" point_index, [[x; y; 0%float]])])%list,
      point_index + 1).

(** The body of [for line in given_lines]. *)
Definition lines_body (units : string) (st : lines_state) (line : TGeometryItem)
  : result lines_state :=
  let values := snd line in
  start_point <- py_index values 0 ;;
  end_point <- py_index values 1 ;;
  conversion_factor <- unit_factor units ;;
  seg <- lines_segmentation start_point end_point conversion_factor st ;;
  let '(num_segments, segment_length, x_difference) := seg in
  s1 <- py_index start_point 1 ;;
  e1 <- py_index end_point 1 ;;
  s0 <- py_index start_point 0 ;;
  e0 <- py_index end_point 0 ;;
  slope <- fdiv (s1 - e1)%float (s0 - e0)%float ;;
  let y_intercept := (s1 - slope * s0)%float in
  indices <- py_range num_segments ;;
  acc <- for_each (emit_point start_point end_point x_difference slope y_intercept)
           indices (ls_points st, ls_point_index st) ;;
  Ok {| ls_points := fst acc;
        ls_point_index := snd acc;
        ls_num_segments := num_segments;
        ls_segment_length := segment_length;
        ls_x_difference := x_difference |}.

Definition lines_to_points (given_lines : TGeometryList) (num_segments : pynum)
    (segment_length : float) (units : string) : result TGeometryList :=
  st <- for_each (lines_body units) given_lines
          {| ls_points := [];
             ls_point_index := 0;
             ls_num_segments := num_segments;
             ls_segment_length := segment_length;
             ls_x_difference := None |} ;;
  Ok (ls_points st).

(** ** [arc_to_lines] *)

(** The locals that live across the iterations of the loop over arcs. *)
Record arcs_state : Type := {
  as_lines : TGeometryList;
  as_line_index : Z;
  as_num_segments : pynum
}.

(** The [if num_segments > 2: ... elif segment_length > 0: ... else: ...]
    block: the new [num_segments] and [segment_angle]. *)
Definition arc_segmentation (degree radius conversion_factor : float)
    (num_segments : pynum) (segment_length : float) : result (pynum * float) :=
  if py_gt num_segments 2 then
    segment_angle <- truediv degree num_segments ;;
    Ok (num_segments, segment_angle)
  else if (0 <? segment_length)%float then
    q <- fdiv (segment_length * conversion_factor)%float
              (radius * 2 * math_pi)%float ;;
    let segment_angle := (q * 360)%float in
    r <- fdiv degree segment_angle ;;
    n <- int_of_float r ;;
    Ok (PyInt n, segment_angle)
  else
    segment_angle <- truediv degree (PyInt NUM_SEGMENTS) ;;
    Ok (PyInt NUM_SEGMENTS, segment_angle).

(** [tuple([conversion_factor * x for x in p])]. *)
Definition scale (conversion_factor : float) (p : list float) : list float :=
  map (fun x => (conversion_factor * x)%float) p.

Section WithMath.

Variable m : MathModule.

(** One pass of [for index in range(0, num_segments+1)]. *)
Definition arc_point (center : list float)
    (radius start_angle segment_angle conversion_factor : float)
    (points : list (list float)) (index : Z) : result (list (list float)) :=
  fi <- float_of_int index ;;
  let angle := (start_angle + segment_angle * fi)%float in
  c <- math_cos m (math_radians angle) ;;
  x <- fdiv (radius * c)%float conversion_factor ;;
  s <- math_sin m (math_radians angle) ;;
  y <- fdiv (radius * s)%float conversion_factor ;;
  c0 <- py_index center 0 ;;
  c1 <- py_index center 1 ;;
  c2 <- py_index center 2 ;;
  Ok (points ++ [[(x + c0)%float; (y + c1)%float; c2]])%list.

(** One pass of [for index in range(0, num_segments)]. *)
Definition arc_line (conversion_factor : float) (points : list (list float))
    (acc : TGeometryList * Z) (index : Z) : result (TGeometryList * Z) :=
  let '(lines, line_index) := acc in
  p <- py_index points index ;;
  q <- py_index points (index + 1) ;;
  Ok ((lines ++ [(item_name "LINE" line_index,
                  [scale conversion_factor p; scale conversion_factor q])])%list,
      line_index + 1).

(** The [if end_angle - start_angle == 360:] block. *)
Definition arc_closing (conversion_factor start_angle end_angle : float)
    (num_segments : pynum) (points : list (list float))
    (acc : TGeometryList * Z) : result (TGeometryList * Z) :=
  let '(lines, line_index) := acc in
  if (end_angle - start_angle =? 360)%float then
    p <- py_index_num points num_segments ;;
    q <- py_index points 0 ;;
    Ok ((lines ++ [(item_name "LINE" line_index,
                    [scale conversion_factor p; scale conversion_factor q])])%list,
        line_index + 1)
  else Ok acc.

(** The body of [for arc in given_arcs]. *)
Definition arcs_body (segment_length : float) (units : string)
    (st : arcs_state) (arc : TGeometryItem) : result arcs_state :=
  let values := snd arc in
  center <- py_index values 0 ;;
  v1 <- py_index values 1 ;;
  radius <- py_index v1 0 ;;
  start_angle <- py_index v1 1 ;;
  end_angle <- py_index v1 2 ;;
  let degree := (end_angle - start_angle)%float in
  conversion_factor <- unit_factor units ;;
  seg <- arc_segmentation degree radius conversion_factor
           (as_num_segments st) segment_length ;;
  let '(num_segments, segment_angle) := seg in
  stop <- py_add_int num_segments 1 ;;
  indices <- py_range stop ;;
  points <- for_each
              (arc_point center radius start_angle segment_angle conversion_factor)
              indices [] ;;
  indices' <- py_range num_segments ;;
  acc <- for_each (arc_line conversion_factor points) indices'
           (as_lines st, as_line_index st) ;;
  acc' <- arc_closing conversion_factor start_angle end_angle num_segments
            points acc ;;
  Ok {| as_lines := fst acc';
        as_line_index := snd acc';
        as_num_segments := num_segments |}.

Definition arc_to_lines (given_arcs : TGeometryList) (num_segments : pynum)
    (segment_length : float) (units : string) : result TGeometryList :=
  st <- for_each (arcs_body segment_length units) given_arcs
          {| as_lines := []; as_line_index := 0;
             as_num_segments := num_segments |} ;;
  Ok (as_lines st).

(** ** [ellipse_to_arcs] *)

(** The locals that live across the iterations: [cx] and [cy] are function
    locals, unassigned until a fit first succeeds. *)
Record ellipse_state : Type := {
  es_arcs : TGeometryList;
  es_arc_index : Z;
  es_num_segments : pynum;
  es_cx : option float;
  es_cy : option float
}.

(** What the [if num_segments: ... elif segment_length: ... else: ...] block
    leaves: [continue] (skip this ellipse), or the [num_segments] and
    [angle] to go on with. *)
Inductive ellipse_plan : Type :=
| Skip
| Sample (num_segments : pynum) (angle : float).

Definition ellipse_segmentation (major_radius minor_radius conversion_factor : float)
    (num_segments : pynum) (segment_length : float) : logged ellipse_plan :=
  if truthy num_segments then
    q <~ lift (int_truediv 360 num_segments) ;;
    lret (Sample num_segments (q / 2)%float)
  else if float_truthy segment_length then
    r <~ lift (math_sqrt ((major_radius * major_radius
                           + minor_radius * minor_radius) / 2)%float) ;;
    let circumfrance := (2 * math_pi * r)%float in
    l <~ lift (fdiv segment_length conversion_factor) ;;
    if (circumfrance <? l)%float then
      _ <~ warning "Invalid segment_length: segment_length > circumfrance" ;;
      lret Skip
    else
      q <~ lift (fdiv segment_length circumfrance) ;;
      lret (Sample num_segments (q * 360)%float)
  else
    q <~ lift (int_truediv 360 (PyInt NUM_SEGMENTS)) ;;
    lret (Sample (PyInt NUM_SEGMENTS) (q / 2)%float).

(** One pass of [for index in range(0,2*num_segments)]. *)
Definition ellipse_point (center : list float)
    (major_radius minor_radius angle : float)
    (points : list (list float)) (index : Z) : result (list (list float)) :=
  fi <- float_of_int index ;;
  let theta := (fi * angle)%float in
  c <- math_cos m (math_radians theta) ;;
  pc <- math_pow m (minor_radius * c)%float 2%float ;;
  s <- math_sin m (math_radians theta) ;;
  ps <- math_pow m (major_radius * s)%float 2%float ;;
  d <- math_sqrt (pc + ps)%float ;;
  radius <- fdiv (major_radius * minor_radius)%float d ;;
  c' <- math_cos m (math_radians theta) ;;
  let x := (radius * c')%float in
  s' <- math_sin m (math_radians theta) ;;
  let y := (radius * s')%float in
  c0 <- py_index center 0 ;;
  c1 <- py_index center 1 ;;
  c2 <- py_index center 2 ;;
  Ok (points ++ [[(x + c0)%float; (y + c1)%float; c2]])%list.

(** The two assignments of the [try] block. *)
Definition fit_cx (p1x p1y p2x p2y p3x p3y : float) : result float :=
  a <- fdiv ((2 * p1y - 2 * p2y)
             * (p1x * p1x + p1y * p1y - p3x * p3x - p3y * p3y))%float
            (2 * p1y - 2 * p3y)%float ;;
  let numerator := ((p1x * p1x + p1y * p1y - p2x * p2x - p2y * p2y) - a)%float in
  b <- fdiv ((2 * p1y - 2 * p2y) * (2 * p1x - 2 * p3x))%float
            (2 * p1y - 2 * p3y)%float ;;
  fdiv numerator ((2 * p1x - 2 * p2x) - b)%float.

Definition fit_cy (cx p1x p1y p3x p3y : float) : result float :=
  a <- fdiv (p1x * p1x + p1y * p1y - p3x * p3x - p3y * p3y)%float
            (2 * p1y - 2 * p3y)%float ;;
  b <- fdiv (2 * p1x - 2 * p3x)%float (2 * p1y - 2 * p3y)%float ;;
  Ok (a - cx * b)%float.

(** [try: cx = ...; cy = ... except ZeroDivisionError: warning(...)]: the
    values of [cx] and [cy] after the statement. An assignment that raised
    leaves its variable as it was. *)
Definition fit_center (old_cx old_cy : option float)
    (p1x p1y p2x p2y p3x p3y : float) : logged (option float * option float) :=
  match fit_cx p1x p1y p2x p2y p3x p3y with
  | Ok cx =>
      match fit_cy cx p1x p1y p3x p3y with
      | Ok cy => lret (Some cx, Some cy)
      | Raise ZeroDivisionError =>
          _ <~ warning "Divide by zero error" ;; lret (Some cx, old_cy)
      | Raise e => lift (Raise e)
      end
  | Raise ZeroDivisionError =>
      _ <~ warning "Divide by zero error" ;; lret (old_cx, old_cy)
  | Raise e => lift (Raise e)
  end.

(** [(2*index+2) % len(points)]. *)
Definition py_mod (a b : Z) : result Z :=
  if b =? 0 then Raise ZeroDivisionError else Ok (a mod b).

(** The statements after the [try]: the arc built from [cx], [cy]. *)
Definition build_arc (conversion_factor : float) (cx cy : option float)
    (p1x p1y p3x p3y : float) (arc_index : Z) : result TGeometryItem :=
  cx1 <- read_local "cx" cx ;;
  px <- math_pow m (p1x - cx1)%float 2%float ;;
  cy1 <- read_local "cy" cy ;;
  py <- math_pow m (p1y - cy1)%float 2%float ;;
  radius <- math_sqrt (px + py)%float ;;
  a1 <- math_atan2 m (p1y - cy1)%float (p1x - cx1)%float ;;
  let start_angle := math_degrees a1 in
  a2 <- math_atan2 m (p3y - cy1)%float (p3x - cx1)%float ;;
  let end_angle := math_degrees a2 in
  x <- fdiv cx1 conversion_factor ;;
  y <- fdiv cy1 conversion_factor ;;
  r <- fdiv radius conversion_factor ;;
  Ok (item_name "ARC" arc_index, [[x; y; 0%float]; [r; start_angle; end_angle]]).

(** One pass of [for index in range(0,num_segments)]: the accumulator holds
    [arcs], [arc_index], [cx] and [cy]. *)
Definition ellipse_arc (conversion_factor : float) (points : list (list float))
    (acc : TGeometryList * Z * option float * option float) (index : Z)
  : logged (TGeometryList * Z * option float * option float) :=
  let '(arcs, arc_index, old_cx, old_cy) := acc in
  p1 <~ lift (py_index points (2 * index)) ;;
  p1x <~ lift (py_index p1 0) ;;
  p1y <~ lift (py_index p1 1) ;;
  p2 <~ lift (py_index points (2 * index + 1)) ;;
  p2x <~ lift (py_index p2 0) ;;
  p2y <~ lift (py_index p2 1) ;;
  i3 <~ lift (py_mod (2 * index + 2) (Z.of_nat (List.length points))) ;;
  p3 <~ lift (py_index points i3) ;;
  p3x <~ lift (py_index p3 0) ;;
  p3y <~ lift (py_index p3 1) ;;
  c <~ fit_center old_cx old_cy p1x p1y p2x p2y p3x p3y ;;
  let '(cx, cy) := c in
  arc <~ lift (build_arc conversion_factor cx cy p1x p1y p3x p3y arc_index) ;;
  lret ((arcs ++ [arc])%list, arc_index + 1, cx, cy).

(** The body of [for ellipse in given_ellipsis]. *)
Definition ellipse_body (segment_length : float) (units : string)
    (st : ellipse_state) (ellipse : TGeometryItem) : logged ellipse_state :=
  let values := snd ellipse in
  center <~ lift (py_index values 0) ;;
  v1 <~ lift (py_index values 1) ;;
  major_radius <~ lift (py_index v1 0) ;;
  v2 <~ lift (py_index values 2) ;;
  ratio <~ lift (py_index v2 0) ;;
  let minor_radius := (ratio * major_radius)%float in
  conversion_factor <~ lift (unit_factor units) ;;
  plan <~ ellipse_segmentation major_radius minor_radius conversion_factor
            (es_num_segments st) segment_length ;;
  match plan with
  | Skip => lret st
  | Sample num_segments angle =>
      stop <~ lift (py_mul_int 2 num_segments) ;;
      indices <~ lift (py_range stop) ;;
      points <~ lift (for_each
                        (ellipse_point center major_radius minor_radius angle)
                        indices []) ;;
      indices' <~ lift (py_range num_segments) ;;
      acc <~ lfor_each (ellipse_arc conversion_factor points) indices'
               (es_arcs st, es_arc_index st, es_cx st, es_cy st) ;;
      let '(arcs, arc_index, cx, cy) := acc in
      lret {| es_arcs := arcs;
              es_arc_index := arc_index;
              es_num_segments := num_segments;
              es_cx := cx;
              es_cy := cy |}
  end.

Definition ellipse_to_arcs (given_ellipsis : TGeometryList) (num_segments : pynum)
    (segment_length : float) (units : string) : logged TGeometryList :=
  st <~ lfor_each (ellipse_body segment_length units) given_ellipsis
          {| es_arcs := []; es_arc_index := 0;
             es_num_segments := num_segments;
             es_cx := None; es_cy := None |} ;;
  lret (es_arcs st).

(** ** [convert_to] *)

(** The recursion is on nothing structural, so the model counts calls down
    from [depth] and raises [RecursionError] at zero, as the interpreter
    does at its limit. The recursive calls pass three arguments: the rest
    take their defaults [0], [0], ['um']. The result is [None] where the
    source falls off the end of the function. *)
Fixpoint convert_to_depth (depth : nat)
    (given_geometry_type return_geometry_type : string)
    (given_geometry : TGeometryList) (num_segments : pynum)
    (min_length : float) (units : string) : logged (option TGeometryList) :=
  match depth with
  | O => lift (Raise RecursionError)
  | S depth' =>
      if String.eqb given_geometry_type return_geometry_type then
        lret (Some given_geometry)
      else if String.eqb given_geometry_type "LINE" then
        points <~ lift (lines_to_points given_geometry num_segments min_length units) ;;
        convert_to_depth depth' "POINT" return_geometry_type points
          (PyInt 0) 0%float "um"
      else if String.eqb given_geometry_type "ARC" then
        lines <~ lift (arc_to_lines given_geometry num_segments min_length units) ;;
        convert_to_depth depth' "LINE" return_geometry_type lines
          (PyInt 0) 0%float "um"
      else if String.eqb given_geometry_type "ELLIPSE" then
        arcs <~ ellipse_to_arcs given_geometry num_segments min_length units ;;
        convert_to_depth depth' "ARC" return_geometry_type arcs
          (PyInt 0) 0%float "um"
      else lret None
  end.

(** The interpreter's default limit, [sys.getrecursionlimit()]. *)
Definition recursion_limit : nat := 1000.

Definition convert_to := convert_to_depth recursion_limit.

End WithMath.

(** ** A runnable [math] module

    Series stand in for the C library where the model is run on concrete
    inputs; the theorems below hold for every [MathModule]. *)
Fixpoint taylor (n : nat) (k term acc x2 : float) : float :=
  match n with
  | O => acc
  | S n' =>
      let term' := (- term * x2 / ((k + 1) * (k + 2)))%float in
      taylor n' (k + 2)%float term' (acc + term')%float x2
  end.

Definition series_cos (x : float) : float := taylor 24 0 1 1 (x * x)%float.
Definition series_sin (x : float) : float := taylor 24 1 x x (x * x)%float.

Fixpoint gregory (n : nat) (k term acc t2 : float) : float :=
  match n with
  | O => acc
  | S n' =>
      let term' := (- term * t2)%float in
      gregory n' (k + 2)%float term' (acc + term' / (k + 2))%float t2
  end.

(** [atan] by two halvings of the angle and the series near zero. *)
Definition series_atan (t : float) : float :=
  let half u := (u / (1 + PrimFloat.sqrt (1 + u * u)))%float in
  let u := half (half t) in
  (4 * gregory 16 1 u u (u * u))%float.

Definition series_atan2 (y x : float) : float :=
  if (0 <? x)%float then series_atan (y / x)
  else if (x <? 0)%float then
    if (y <? 0)%float then (series_atan (y / x) - math_pi)%float
    else (series_atan (y / x) + math_pi)%float
  else if (0 <? y)%float then (math_pi / 2)%float
  else if (y <? 0)%float then (- (math_pi / 2))%float
  else 0%float.

(** Only squares are ever taken. *)
Definition series_math : MathModule := {|
  math_cos := fun x => Ok (series_cos x);
  math_sin := fun x => Ok (series_sin x);
  math_atan2 := fun y x => Ok (series_atan2 y x);
  math_pow := fun x y =>
    if (y =? 2)%float then Ok (x * x)%float else Raise ValueError
|}.

(** ** Sample geometry *)

Definition rising_line : TGeometryItem :=
  ("LINE:0", [[0; 0; 0]; [10; 10; 0]])%float.
Definition falling_line : TGeometryItem :=
  ("LINE:0", [[50000; 0; 0]; [0; 0; 0]])%float.
Definition vertical_line : TGeometryItem :=
  ("LINE:0", [[0; 0; 0]; [0; 10; 0]])%float.
Definition circle_arc : TGeometryItem :=
  ("ARC:0", [[0; 0; 0]; [20000; 0; 360]])%float.
Definition half_arc : TGeometryItem :=
  ("ARC:0", [[0; 0; 0]; [20000; -90; 90]])%float.
Definition raised_ellipse : TGeometryItem :=
  ("ELLIPSE:0", [[1; 2; 3]; [4; 0; 0]; [0.5]])%float.

Definition flat_ellipse : TGeometryItem :=
  ("ELLIPSE:0", [[0; 0; 0]; [4; 0; 0]; [0.5]])%float.
Definition far_ellipse : TGeometryItem :=
  ("ELLIPSE:1", [[0; 100; 0]; [4; 0; 0]; [0.5]])%float.
Definition origin_point : TGeometryItem :=
  ("POINT:0", [[0; 0; 0]])%float.

(** The z-coordinate of an item's first tuple: an arc's centre. *)
Definition center_z (item : TGeometryItem) : option float :=
  match snd item with
  | center :: _ => nth_error center 2
  | [] => None
  end.

Definition arcs_flat (arcs : TGeometryList) : Prop :=
  Forall (fun arc => center_z arc = Some 0%float) arcs.

(** What [ellipse_to_arcs] returns for [raised_ellipse] cut in two. *)
Definition raised_ellipse_arcs : TGeometryList :=
  Eval vm_compute in
    match snd (ellipse_to_arcs series_math [raised_ellipse] (PyInt 2) 0%float "um" [])
    with
    | Ok arcs => arcs
    | Raise _ => []
    end.

(** ** The adjacency chain of [convert_to] *)

(** The kinds a source reaches by the conversions [convert_to] implements:
    ELLIPSE to ARC to LINE to POINT. *)
Definition chain_below (source : string) : list string :=
  if String.eqb source "ELLIPSE" then ["ARC"; "LINE"; "POINT"]
  else if String.eqb source "ARC" then ["LINE"; "POINT"]
  else if String.eqb source "LINE" then ["POINT"]
  else [].

Definition reachable (source target : string) : bool :=
  String.eqb source target || str_in target (chain_below source).

(** The number of calls the longest chain from a kind takes. *)
Definition chain_depth (kind : string) : nat :=
  if String.eqb kind "LINE" then 2
  else if String.eqb kind "ARC" then 3
  else if String.eqb kind "ELLIPSE" then 4
  else 1.

(** ** Names for what the loop of [lines_to_points] computes *)

(** The point [emit_point] makes at index [i] of a line from [(x0, y0)] to
    [(x1, _)], with the [x_difference] and [slope] settled before the loop. *)
Definition sample_point (x0 y0 x1 x_difference slope : float) (i : nat)
  : TGeometryItem :=
  let direction := if (0 <? x0 - x1)%float then 1%float else (-1)%float in
  let x := (x0 + x_difference * nearest_float (Z.of_nat i) * direction)%float in
  (item_name "POINT" (Z.of_nat i),
   [[x; (x * slope + (y0 - slope * x0))%float; 0%float]]).

(** ** Names for what the loops of [arc_to_lines] compute *)

(** The angle [arc_point] samples at index [i]. *)
Definition sampled_angle (start_angle segment_angle : float) (i : Z) : float :=
  (start_angle + segment_angle * nearest_float i)%float.

(** The line [arc_line] makes of the points at [i] and [i+1]. *)
Definition chord (conversion_factor : float) (points : list (list float))
    (line_index : Z) (i : nat) : TGeometryItem :=
  (item_name "LINE" line_index,
   [scale conversion_factor (nth i points []);
    scale conversion_factor (nth (S i) points [])]).

(** The line the [if end_angle - start_angle == 360] block adds after [n]
    chords. *)
Definition closing_line (conversion_factor : float) (points : list (list float))
    (n : nat) : TGeometryItem :=
  (item_name "LINE" (Z.of_nat n),
   [scale conversion_factor (nth n points []);
    scale conversion_factor (nth 0 points [])]).

(** [n] chords in order, then the closing line. *)
Definition closed_polygon (conversion_factor : float) (points : list (list float))
    (n : nat) : TGeometryList :=
  (map (fun j => chord conversion_factor points (Z.of_nat j) j) (seq 0 n)
   ++ [closing_line conversion_factor points n])%list.

(** ** The shape of what the stages return *)

(** Items named [TAG:0], [TAG:1], ... in order, each with a payload of the
    given shape. *)
Definition well_numbered (tag : string) (shape : list (list float) -> Prop)
    (items : TGeometryList) : Prop :=
  forall i item, nth_error items i = Some item ->
    fst item = item_name tag (Z.of_nat i) /\ shape (snd item).

(** The accumulator of an inner loop: items well numbered, and the running
    index equal to their number. *)
Definition numbered_acc (tag : string) (shape : list (list float) -> Prop)
    (acc : TGeometryList * Z) : Prop :=
  well_numbered tag shape (fst acc) /\ snd acc = Z.of_nat (List.length (fst acc)).

(** A point: one tuple [(x, y, 0.0)]. *)
Definition point_shape (v : list (list float)) : Prop :=
  exists x y, v = [[x; y; 0%float]].

(** A line: two tuples of three coordinates. *)
Definition line_shape (v : list (list float)) : Prop :=
  exists p q, v = [p; q] /\ List.length p = 3%nat /\ List.length q = 3%nat.

(** An arc: a centre [(x, y, 0)] and a tuple [(radius, start, end)]. *)
Definition arc_shape (v : list (list float)) : Prop :=
  exists x y r s e, v = [[x; y; 0%float]; [r; s; e]].

(** The [num_segments] a stage works with when it was given [n] and no
    [segment_length]: [n] itself unless it is zero, then the default. *)
Definition effective_segments (n : Z) : Z :=
  if n =? 0 then NUM_SEGMENTS else n.

(** The [num_segments] [ellipse_to_arcs] works with when it was given [n]:
    [n] itself unless it is zero; then 0 when a [segment_length] was given
    (that branch computes an angle and no count), and the default
    otherwise. *)
Definition ellipse_segments (n : Z) (segment_length : float) : Z :=
  if n =? 0 then (if float_truthy segment_length then 0 else NUM_SEGMENTS)
  else n.

(** ** importer.py: [import_file] *)

(** [s.split(sep)] for a separator of one character: the pieces between
    the separators, empty ones included. *)
Fixpoint py_split (sep : ascii) (s : string) : list string :=
  match s with
  | EmptyString => [EmptyString]
  | String c rest =>
      if Ascii.eqb c sep then EmptyString :: py_split sep rest
      else match py_split sep rest with
           | piece :: more => String c piece :: more
           | [] => [String c EmptyString]
           end
  end.

(** [c.upper()] for an ASCII character. *)
Definition upper_char (c : ascii) : ascii :=
  let n := N_of_ascii c in
  if ((97 <=? n) && (n <=? 122))%N then ascii_of_N (n - 32) else c.

(** [s.upper()] where it works character by character, on ASCII strings;
    [None] for a string with a character outside ASCII, where [str.upper]
    follows the Unicode tables and is not modelled. *)
Fixpoint py_upper (s : string) : option string :=
  match s with
  | EmptyString => Some EmptyString
  | String c rest =>
      if (N_of_ascii c <? 128)%N then
        match py_upper rest with
        | Some upper => Some (String (upper_char c) upper)
        | None => None
        end
      else None
  end.

(** What [import_file] does once the file type is known: it returns what
    the importer it calls returns, or raises
    [Exception('Filetype Unknown')]. *)
Inductive import_outcome (R : Type) : Type :=
| Imported (r : R)
| FiletypeUnknown.

Arguments Imported {R} r.
Arguments FiletypeUnknown {R}.

Section ImportFile.

(** The three importers read files; they are taken as they are, with [R]
    for what a call of one of them gives. *)
Variable R : Type.
Variable import_dxf_file :
  string -> list string -> bool -> pynum -> float -> string -> R.
Variable import_csv_file :
  string -> list string -> string -> bool -> bool -> pynum -> float -> string -> R.
Variable import_txt_file : string -> string -> R.

(** [None] where the model of [str.upper] ends. *)
Definition import_file (filename : string) (allowedtypes : list string)
    (units : string) (header convert : bool) (num_segments : pynum)
    (segment_length : float) (segment_units : string)
  : option (result (import_outcome R)) :=
  match py_index (py_split "."%char filename) 1 with
  | Raise e => Some (Raise e)
  | Ok piece =>
      match py_upper piece with
      | None => None
      | Some file_type =>
          Some (Ok
            (if String.eqb file_type "DXF" then
               Imported (import_dxf_file filename allowedtypes convert
                           num_segments segment_length segment_units)
             else if String.eqb file_type "CSV" then
               Imported (import_csv_file filename allowedtypes units header
                           convert num_segments segment_length segment_units)
             else if String.eqb file_type "TXT" then
               Imported (import_txt_file filename units)
             else FiletypeUnknown))
      end
  end.

End ImportFile.

(** Whether a character occurs in a string. *)
Fixpoint has_char (c : ascii) (s : string) : bool :=
  match s with
  | EmptyString => false
  | String d rest => Ascii.eqb d c || has_char c rest
  end.

(** ** importer_tests.py: the comparison the tests check results with *)

Definition PRECISION : float := 0.001%float.

Definition within_a_percent (float1 float2 : float) : bool :=
  if (float1 =? 0)%float && (PRECISION <? abs (float2 - float1))%float then
    false
  else if (float2 =? 0)%float && (PRECISION <? abs (float1 - float2))%float then
    false
  else if negb (float1 =? 0)%float
          && (PRECISION <? abs ((float1 - float2) / float1))%float then
    false
  else true.

(** [for i in range(len(tuple1))] with its [return False] in the loop. *)
Fixpoint within_a_percent_loop (tuple1 tuple2 : list float) (indices : list Z)
  : result bool :=
  match indices with
  | [] => Ok true
  | i :: rest =>
      float1 <- py_index tuple1 i ;;
      float2 <- py_index tuple2 i ;;
      if negb (within_a_percent float1 float2) then Ok false
      else within_a_percent_loop tuple1 tuple2 rest
  end.

Definition within_a_percent_tuple (tuple1 tuple2 : list float) : result bool :=
  within_a_percent_loop tuple1 tuple2
    (map Z.of_nat (seq 0 (List.length tuple1))).

(** ** Names for counting what [arc_to_lines] returns *)

(** Whether the [if end_angle - start_angle == 360] block adds its line for
    this arc. *)
Definition closes (arc : TGeometryItem) : bool :=
  match snd arc with
  | _ :: (_ :: start_angle :: end_angle :: _) :: _ =>
      (end_angle - start_angle =? 360)%float
  | _ => false
  end.

Definition closing_lines (arcs : TGeometryList) : nat :=
  List.length (filter closes arcs).

(** ** What the stages read of an item *)

(** What [lines_to_points] reads of a line: x and y of its first two
    tuples. The name, the z coordinates and whatever follows are left
    out. *)
Definition plan_view (line : TGeometryItem) : TGeometryItem :=
  (EmptyString, map (firstn 2) (firstn 2 (snd line))).

(** What [ellipse_to_arcs] reads of an ellipse: the centre, the x
    coordinate of the end point of the major axis, and the ratio. The name
    and the y and z of the major axis are left out. *)
Definition axis_view (ellipse : TGeometryItem) : TGeometryItem :=
  (EmptyString,
   match snd ellipse with
   | center :: major_axis :: ratio :: _ =>
       [center; firstn 1 major_axis; firstn 1 ratio]
   | values => values
   end).

(** The same arc written in two units: the centre and the radius of the
    fit divided by one factor or the other, the name and the angles
    shared. *)
Definition rescaled (cf1 cf2 : float) (a1 a2 : TGeometryItem) : Prop :=
  exists name cx cy r start_angle end_angle,
    a1 = (name, [[cx / cf1; cy / cf1; 0]; [r / cf1; start_angle; end_angle]])%float /\
    a2 = (name, [[cx / cf2; cy / cf2; 0]; [r / cf2; start_angle; end_angle]])%float.

(** The modes of [ellipse_to_arcs] that work from a count: a count was
    given, or neither a count nor a [segment_length]. *)
Definition counted_mode (num_segments : pynum) (segment_length : float) : Prop :=
  truthy num_segments = true \/ float_truthy segment_length = false.

(** * Properties *)

Local Open Scope list_scope.

(** ** Numbers and units *)

(** The bound of [float_of_int] is where rounding first overflows. *)
Example float_int_bound_sharp :
  is_infinity (nearest_float float_int_bound) = true /\
  is_infinity (nearest_float (float_int_bound - 1)) = false /\
  is_infinity (nearest_float (- float_int_bound)) = true /\
  is_infinity (nearest_float (- float_int_bound + 1)) = false.
Proof. repeat split; vm_compute; reflexivity. Qed.

Lemma float_of_int_below (n k : Z) :
  0 <= k <= n -> (Z.abs n <? float_int_bound) = true ->
  float_of_int k = Ok (nearest_float k).
Proof.
  intros Hk Hn. unfold float_of_int.
  apply Z.ltb_lt in Hn.
  replace (Z.abs k <? float_int_bound) with true; [reflexivity|].
  symmetry. apply Z.ltb_lt. lia.
Qed.

Lemma float_of_int_ok_inv (n : Z) (f : float) :
  float_of_int n = Ok f ->
  (Z.abs n <? float_int_bound) = true /\ f = nearest_float n.
Proof.
  unfold float_of_int. destruct (Z.abs n <? float_int_bound); intros H.
  - inversion H. split; reflexivity.
  - discriminate.
Qed.

Ltac split_unit H :=
  repeat (apply orb_prop in H; destruct H as [H | H];
          [apply String.eqb_eq in H | ]).

(** Every unit of [UNIT_TABLE] has a factor, and no factor is zero. *)
Lemma unit_factor_recognized (units : string) :
  str_in units UNIT_TABLE = true ->
  exists cf, unit_factor units = Ok cf /\ (cf =? 0)%float = false.
Proof.
  intros H. unfold str_in, UNIT_TABLE in H. simpl in H.
  split_unit H; try discriminate H;
    subst units; eexists; split; vm_compute; reflexivity.
Qed.

Lemma unit_factor_unknown (units : string) :
  str_in units UNIT_TABLE = false ->
  unit_factor units = Raise (InvalidUnits units).
Proof. intros H. unfold unit_factor. rewrite H. reflexivity. Qed.

(** ** [get_hifi_geometry] *)

(** What a Spline source resolves to, for every allowed list: the special
    case first, then the walk below SPLINE in the rank list. *)
Lemma get_hifi_geometry_spline (allowedtypes : list string) :
  get_hifi_geometry "SPLINE" allowedtypes =
  Ok (if str_in "LINE" allowedtypes then Some "LINE"
      else if str_in "POINT" allowedtypes then Some "POINT"
      else if str_in "ELLIPSE" allowedtypes then Some "ELLIPSE"
      else if str_in "ARC" allowedtypes then Some "ARC"
      else None).
Proof.
  unfold get_hifi_geometry. simpl.
  destruct (str_in "LINE" allowedtypes); [reflexivity|].
  destruct (str_in "POINT" allowedtypes); [reflexivity|].
  destruct (str_in "ELLIPSE" allowedtypes); [reflexivity|].
  destruct (str_in "ARC" allowedtypes); reflexivity.
Qed.

(** What a Polyline source resolves to, for every allowed list. *)
Lemma get_hifi_geometry_lwpolyline (allowedtypes : list string) :
  get_hifi_geometry "LWPOLYLINE" allowedtypes =
  Ok (if str_in "ARC" allowedtypes && str_in "LINE" allowedtypes then Some "ARC"
      else if negb (str_in "ARC" allowedtypes) && str_in "LINE" allowedtypes
           then Some "LINE"
      else if str_in "POINT" allowedtypes then Some "POINT"
      else if str_in "SPLINE" allowedtypes then Some "SPLINE"
      else if str_in "ELLIPSE" allowedtypes then Some "ELLIPSE"
      else if str_in "ARC" allowedtypes then Some "ARC"
      else None).
Proof.
  unfold get_hifi_geometry. simpl.
  destruct (str_in "ARC" allowedtypes), (str_in "LINE" allowedtypes),
    (str_in "POINT" allowedtypes), (str_in "SPLINE" allowedtypes),
    (str_in "ELLIPSE" allowedtypes); reflexivity.
Qed.

(** The part of the Spline rule that holds: Line when allowed, else Point
    when allowed. *)
Lemma get_hifi_geometry_spline_line_point (allowedtypes : list string) :
  (str_in "LINE" allowedtypes = true ->
   get_hifi_geometry "SPLINE" allowedtypes = Ok (Some "LINE")) /\
  (str_in "LINE" allowedtypes = false -> str_in "POINT" allowedtypes = true ->
   get_hifi_geometry "SPLINE" allowedtypes = Ok (Some "POINT")).
Proof.
  rewrite get_hifi_geometry_spline. split.
  - intros ->. reflexivity.
  - intros -> ->. reflexivity.
Qed.

(** C1: with Arc the only allowed kind, a Spline source falls through its
    special case into the rank walk and resolves to Arc, not to no kind;
    with Ellipse alone it resolves to Ellipse. *)
Theorem spline_falls_through_to_arc :
  get_hifi_geometry "SPLINE" ["ARC"] = Ok (Some "ARC") /\
  get_hifi_geometry "SPLINE" ["ELLIPSE"] = Ok (Some "ELLIPSE").
Proof. split; reflexivity. Qed.

(** C2: with Arc the only allowed kind, a Polyline source falls through its
    special case into the rank walk and resolves to Arc, not to no kind;
    with Spline alone it resolves to Spline. The stated case
    [{Arc, Line}] does give Arc. *)
Theorem lwpolyline_falls_through_to_arc :
  get_hifi_geometry "LWPOLYLINE" ["ARC"] = Ok (Some "ARC") /\
  get_hifi_geometry "LWPOLYLINE" ["SPLINE"] = Ok (Some "SPLINE") /\
  get_hifi_geometry "LWPOLYLINE" ["ARC"; "LINE"] = Ok (Some "ARC").
Proof. repeat split; reflexivity. Qed.

(** ** [lines_to_points] *)

Lemma bind_ok {A B : Type} (r : result A) (k : A -> result B) (b : B) :
  bind r k = Ok b -> exists a, r = Ok a /\ k a = Ok b.
Proof. destruct r; simpl; intros H; [eauto | discriminate]. Qed.

Lemma for_each_app {S X : Type} (body : S -> X -> result S) (xs ys : list X) (s : S) :
  for_each body (xs ++ ys) s = (s' <- for_each body xs s ;; for_each body ys s').
Proof.
  revert s. induction xs as [|x xs IH]; intros s; simpl; [reflexivity|].
  destruct (body s x); simpl; [apply IH | reflexivity].
Qed.

(** With a non-zero [num_segments] the body of the loop never looks at the
    unit's factor. *)
Lemma lines_body_units (u1 u2 : string) (st : lines_state) (line : TGeometryItem) :
  str_in u1 UNIT_TABLE = true -> str_in u2 UNIT_TABLE = true ->
  truthy (ls_num_segments st) = true ->
  lines_body u1 st line = lines_body u2 st line.
Proof.
  intros H1 H2 Ht.
  destruct (unit_factor_recognized u1 H1) as [cf1 [E1 _]].
  destruct (unit_factor_recognized u2 H2) as [cf2 [E2 _]].
  unfold lines_body.
  destruct (py_index (snd line) 0) as [start_point|]; [simpl|reflexivity].
  destruct (py_index (snd line) 1) as [end_point|]; [simpl|reflexivity].
  rewrite E1, E2. simpl.
  unfold lines_segmentation. rewrite Ht. reflexivity.
Qed.

(** ... and leaves [num_segments] as it found it. *)
Lemma lines_body_num_segments (u : string) (st st' : lines_state) (line : TGeometryItem) :
  truthy (ls_num_segments st) = true ->
  lines_body u st line = Ok st' ->
  ls_num_segments st' = ls_num_segments st.
Proof.
  intros Ht H. unfold lines_body in H.
  repeat (apply bind_ok in H; destruct H as [? [? H]]).
  unfold lines_segmentation in *. rewrite Ht in *.
  repeat match goal with
         | E : bind _ _ = Ok _ |- _ => apply bind_ok in E; destruct E as [? [? E]]
         end.
  match goal with E : Ok _ = Ok x2 |- _ => inversion E; subst; clear E end.
  simpl in H.
  repeat (apply bind_ok in H; destruct H as [? [? H]]).
  inversion H. reflexivity.
Qed.

Lemma lines_loop_units (u1 u2 : string) (given_lines : TGeometryList) :
  str_in u1 UNIT_TABLE = true -> str_in u2 UNIT_TABLE = true ->
  forall st, truthy (ls_num_segments st) = true ->
    for_each (lines_body u1) given_lines st = for_each (lines_body u2) given_lines st.
Proof.
  intros H1 H2.
  induction given_lines as [|line rest IH]; intros st Ht; simpl; [reflexivity|].
  rewrite (lines_body_units u1 u2 st line H1 H2 Ht).
  destruct (lines_body u2 st line) as [st'|] eqn:E; simpl; [|reflexivity].
  apply IH. rewrite (lines_body_num_segments u2 st st' line Ht E). exact Ht.
Qed.

(** C9: with [num_segments > 0], [lines_to_points] gives the same outcome,
    the same list of points or the same exception, under any two units of
    [UNIT_TABLE]. *)
Theorem lines_to_points_units_irrelevant
    (given_lines : TGeometryList) (num_segments : Z) (segment_length : float)
    (u1 u2 : string) :
  0 < num_segments ->
  str_in u1 UNIT_TABLE = true -> str_in u2 UNIT_TABLE = true ->
  lines_to_points given_lines (PyInt num_segments) segment_length u1 =
  lines_to_points given_lines (PyInt num_segments) segment_length u2.
Proof.
  intros Hn H1 H2. unfold lines_to_points.
  rewrite (lines_loop_units u1 u2 given_lines H1 H2); [reflexivity|].
  simpl. apply negb_true_iff. apply Z.eqb_neq. lia.
Qed.

Lemma lines_to_points_units_irrelevant_witness :
  lines_to_points [falling_line; rising_line] (PyInt 3) 0%float "mm" =
  lines_to_points [falling_line; rising_line] (PyInt 3) 0%float "usft".
Proof.
  apply (lines_to_points_units_irrelevant [falling_line; rising_line] 3 0%float
           "mm" "usft"); [lia | reflexivity | reflexivity].
Defined.

Lemma fdiv_zero (a b : float) :
  (b =? 0)%float = true -> fdiv a b = Raise ZeroDivisionError.
Proof. intros H. unfold fdiv. rewrite H. reflexivity. Qed.

Lemma fdiv_raises (a b : float) (e : exn) :
  fdiv a b = Raise e -> e = ZeroDivisionError.
Proof.
  unfold fdiv. destruct (b =? 0)%float; intros H; inversion H; reflexivity.
Qed.

(** The slope's divisor is [start.x - end.x]: when it is zero the call
    raises [ZeroDivisionError] at the first such line, whatever the
    segmentation parameters, and returns none of the points made so far. *)
Lemma vertical_line_raises (name : string) (x0 y0 z0 x1 y1 z1 : float)
    (rest : TGeometryList) (num_segments : Z) (segment_length : float)
    (units : string) :
  str_in units UNIT_TABLE = true ->
  (Z.abs num_segments <? float_int_bound) = true ->
  (x0 - x1 =? 0)%float = true ->
  lines_to_points ((name, [[x0; y0; z0]; [x1; y1; z1]]) :: rest)
    (PyInt num_segments) segment_length units = Raise ZeroDivisionError.
Proof.
  intros Hu Hn Hx.
  destruct (unit_factor_recognized units Hu) as [cf [Ecf _]].
  unfold lines_to_points. simpl for_each. unfold lines_body at 1.
  simpl snd. change (py_index [[x0; y0; z0]; [x1; y1; z1]] 0) with (Ok [x0; y0; z0]).
  change (py_index [[x0; y0; z0]; [x1; y1; z1]] 1) with (Ok [x1; y1; z1]).
  simpl bind at 1. rewrite Ecf. simpl bind at 1.
  unfold lines_segmentation. simpl ls_num_segments. simpl ls_segment_length.
  simpl ls_x_difference.
  change (py_index [x0; y0; z0] 0) with (Ok x0).
  change (py_index [x0; y0; z0] 1) with (Ok y0).
  change (py_index [x1; y1; z1] 0) with (Ok x1).
  change (py_index [x1; y1; z1] 1) with (Ok y1).
  rewrite (fdiv_zero (y0 - y1) (x0 - x1) Hx).
  destruct (truthy (PyInt num_segments)).
  - simpl. unfold truediv, to_float, float_of_int. rewrite Hn. simpl.
    destruct (fdiv (x1 - x0) (nearest_float num_segments)) as [xd|e] eqn:E;
      simpl; [reflexivity|].
    apply fdiv_raises in E. subst e. reflexivity.
  - destruct (float_truthy segment_length).
    + simpl.
      destruct (fdiv (y0 - y1) (segment_length * cf)) as [n|e] eqn:E;
        simpl; [reflexivity|].
      apply fdiv_raises in E. subst e. reflexivity.
    + simpl.
      destruct (truediv (x1 - x0) (PyInt NUM_SEGMENTS)) as [xd|e] eqn:E;
        simpl; [reflexivity|].
      unfold truediv in E. simpl in E.
      apply fdiv_raises in E. subst e. reflexivity.
Qed.

(** C4: a vertical line makes [lines_to_points] raise [ZeroDivisionError]
    out of the call. Nothing catches it: the points of the lines before it
    are lost as well, and an arc whose chords include a vertical one cannot
    be converted to points. *)
Theorem vertical_line_division_by_zero :
  lines_to_points [vertical_line] (PyInt 2) 0%float "um"
    = Raise ZeroDivisionError /\
  lines_to_points [falling_line; vertical_line] (PyInt 2) 0%float "um"
    = Raise ZeroDivisionError /\
  convert_to series_math "ARC" "POINT" [half_arc] (PyInt 3) 0%float "um" []
    = ([], Raise ZeroDivisionError).
Proof. repeat split; vm_compute; reflexivity. Qed.

Lemma emit_point_loop (x0 y0 z0 x1 y1 z1 xd slope : float) (N : Z) (k a : nat)
    (points : TGeometryList) :
  (Z.abs N <? float_int_bound) = true ->
  Z.of_nat (a + k) <= N ->
  for_each (emit_point [x0; y0; z0] [x1; y1; z1] (Some xd) slope
              (y0 - slope * x0)%float)
    (map Z.of_nat (seq a k))
    (points ++ map (sample_point x0 y0 x1 xd slope) (seq 0 a), Z.of_nat a)
  = Ok (points ++ map (sample_point x0 y0 x1 xd slope) (seq 0 (a + k)),
        Z.of_nat (a + k)).
Proof.
  intros Hb. revert a. induction k as [|k IH]; intros a Hk.
  - rewrite Nat.add_0_r. reflexivity.
  - simpl for_each. unfold emit_point at 1.
    change (py_index [x0; y0; z0] 0) with (Ok x0).
    change (py_index [x1; y1; z1] 0) with (Ok x1).
    simpl bind at 1. simpl read_local. simpl bind at 1.
    rewrite (float_of_int_below N (Z.of_nat a)) by (try exact Hb; lia).
    simpl bind.
    replace (Z.of_nat a + 1) with (Z.of_nat (S a)) by lia.
    replace (a + S k)%nat with (S a + k)%nat by lia.
    rewrite <- (IH (S a)) by lia.
    f_equal. f_equal.
    rewrite seq_S, map_app, app_assoc. reflexivity.
Qed.

(** What [lines_to_points] returns for one line that is not vertical and
    [num_segments = N > 0]: [N] points, the one at index [i] at
    [x = start.x + x_difference * i * direction] with z fixed at 0. The
    factor [direction] is [1] for [start.x > end.x] and [-1] otherwise. *)
Lemma lines_to_points_single (name : string) (x0 y0 z0 x1 y1 z1 : float)
    (N : Z) (segment_length xd slope : float) (units : string) :
  str_in units UNIT_TABLE = true ->
  0 < N ->
  truediv (x1 - x0)%float (PyInt N) = Ok xd ->
  fdiv (y0 - y1)%float (x0 - x1)%float = Ok slope ->
  lines_to_points [(name, [[x0; y0; z0]; [x1; y1; z1]])] (PyInt N)
    segment_length units
  = Ok (map (sample_point x0 y0 x1 xd slope) (seq 0 (Z.to_nat N))).
Proof.
  intros Hu HN Hxd Hslope.
  destruct (unit_factor_recognized units Hu) as [cf [Ecf _]].
  assert (Hb : (Z.abs N <? float_int_bound) = true).
  { unfold truediv in Hxd. apply bind_ok in Hxd. destruct Hxd as [f [Hf _]].
    simpl in Hf. apply float_of_int_ok_inv in Hf. tauto. }
  unfold lines_to_points. simpl for_each. unfold lines_body.
  simpl snd.
  change (py_index [[x0; y0; z0]; [x1; y1; z1]] 0) with (Ok [x0; y0; z0]).
  change (py_index [[x0; y0; z0]; [x1; y1; z1]] 1) with (Ok [x1; y1; z1]).
  simpl bind at 1. rewrite Ecf. simpl bind at 1.
  unfold lines_segmentation. simpl ls_num_segments.
  replace (truthy (PyInt N)) with true
    by (symmetry; simpl; apply negb_true_iff; apply Z.eqb_neq; lia).
  change (py_index [x0; y0; z0] 0) with (Ok x0).
  change (py_index [x0; y0; z0] 1) with (Ok y0).
  change (py_index [x1; y1; z1] 0) with (Ok x1).
  change (py_index [x1; y1; z1] 1) with (Ok y1).
  simpl bind at 1. rewrite Hxd. simpl bind at 1.
  rewrite Hslope. simpl bind at 1. unfold py_range. simpl bind at 1.
  simpl ls_points. simpl ls_point_index.
  pose proof (emit_point_loop x0 y0 z0 x1 y1 z1 xd slope N (Z.to_nat N) 0 [] Hb)
    as Hloop.
  simpl in Hloop. specialize (Hloop ltac:(lia)).
  unfold TGeometryList, TGeometryItem in *. rewrite Hloop. reflexivity.
Qed.

(** C5: on the line from (0,0,0) to (10,10,0) with two segments the second
    point is (-5,-5,0): the samples step away from [end.x]. The sign of
    [x_difference] already carries the direction, and the factor
    [-1] applied when [start.x < end.x] reverses it. A line drawn toward
    smaller x is sampled toward its end. *)
Theorem rising_line_sampled_backwards :
  lines_to_points [rising_line] (PyInt 2) 0%float "um" =
    Ok [ ("POINT:0", [[0; 0; 0]]); ("POINT:1", [[-5; -5; 0]]) ]%float /\
  lines_to_points [falling_line] (PyInt 5) 0%float "um" =
    Ok [ ("POINT:0", [[50000; 0; 0]]); ("POINT:1", [[40000; 0; 0]]);
         ("POINT:2", [[30000; 0; 0]]); ("POINT:3", [[20000; 0; 0]]);
         ("POINT:4", [[10000; 0; 0]]) ]%float.
Proof. split; vm_compute; reflexivity. Qed.

(** ** The segmentation blocks of the three stages *)

(** C3, as stated, fails at [arc_to_lines]: a [num_segments] of 1 or 2 is
    positive and is not used; the default 10 is. *)
Lemma arc_segmentation_ignores_small_counts :
  arc_segmentation 360 20000 1 (PyInt 1) 0 = Ok (PyInt 10, 36%float) /\
  arc_segmentation 360 20000 1 (PyInt 2) 0 = Ok (PyInt 10, 36%float) /\
  PyInt 10 <> PyInt 1 /\ PyInt 10 <> PyInt 2 /\
  exists lines,
    arc_to_lines series_math [half_arc] (PyInt 2) 0%float "um" = Ok lines /\
    List.length lines = 10%nat.
Proof.
  repeat split; try (vm_compute; reflexivity); try discriminate.
  eexists. split; vm_compute; reflexivity.
Qed.

(** The [segment_length] branch of the other two stages is unfinished in
    the source ("TODO get working", "FIXME Segment length implementation"):
    [lines_to_points] leaves a float in [num_segments], which [range]
    refuses, and [ellipse_to_arcs] leaves [num_segments] at 0 and makes no
    arc. *)
Example segment_length_branches_unfinished :
  lines_to_points [rising_line] (PyInt 0) 1%float "um" = Raise TypeError /\
  ellipse_to_arcs series_math [raised_ellipse] (PyInt 0) 1%float "um" []
    = ([], Ok []).
Proof. split; vm_compute; reflexivity. Qed.

(** C3: how each stage settles [num_segments].
    [lines_to_points] and [ellipse_to_arcs] take a non-zero [num_segments]
    as it is; [arc_to_lines] takes it as it is only above 2. Below that,
    [arc_to_lines] with a positive [segment_length] scales the length by the
    unit's factor, turns it into an angle and derives
    [num_segments = int(degree / segment_angle)]. With neither parameter
    (zero for lines and ellipses; at most 2 and not positive for arcs) every
    stage takes 10. *)
Theorem segmentation_policy
    (n : Z) (segment_length cf : float)
    (x0 y0 z0 x1 y1 z1 degree radius major_radius minor_radius : float)
    (points : TGeometryList) (point_index : Z) (x_difference : option float)
    (log : list string) :
  let st := {| ls_points := points; ls_point_index := point_index;
               ls_num_segments := PyInt n;
               ls_segment_length := segment_length;
               ls_x_difference := x_difference |} in
  (n <> 0 ->
   lines_segmentation [x0; y0; z0] [x1; y1; z1] cf st =
     (xd <- truediv (x1 - x0)%float (PyInt n) ;;
      Ok (PyInt n, segment_length, Some xd))) /\
  (n = 0 -> (segment_length =? 0)%float = true ->
   lines_segmentation [x0; y0; z0] [x1; y1; z1] cf st =
     Ok (PyInt 10, segment_length, Some ((x1 - x0) / 10)%float)) /\
  (2 < n ->
   arc_segmentation degree radius cf (PyInt n) segment_length =
     (segment_angle <- truediv degree (PyInt n) ;;
      Ok (PyInt n, segment_angle))) /\
  (n <= 2 -> (0 <? segment_length)%float = true ->
   arc_segmentation degree radius cf (PyInt n) segment_length =
     (q <- fdiv (segment_length * cf)%float (radius * 2 * math_pi)%float ;;
      r <- fdiv degree (q * 360)%float ;;
      k <- int_of_float r ;;
      Ok (PyInt k, (q * 360)%float))) /\
  (n <= 2 -> (0 <? segment_length)%float = false ->
   arc_segmentation degree radius cf (PyInt n) segment_length =
     Ok (PyInt 10, (degree / 10)%float)) /\
  (n <> 0 ->
   ellipse_segmentation major_radius minor_radius cf (PyInt n) segment_length log =
     (log, q <- int_truediv 360 (PyInt n) ;;
           Ok (Sample (PyInt n) (q / 2)%float))) /\
  (n = 0 -> (segment_length =? 0)%float = true ->
   ellipse_segmentation major_radius minor_radius cf (PyInt n) segment_length log =
     (log, Ok (Sample (PyInt 10) 18%float))).
Proof.
  intros st.
  assert (Hnz : n <> 0 -> truthy (PyInt n) = true).
  { intros H. simpl. apply negb_true_iff. apply Z.eqb_neq. exact H. }
  repeat split.
  - intros H. unfold lines_segmentation. subst st. simpl ls_num_segments.
    rewrite (Hnz H). reflexivity.
  - intros H Hs. subst n. unfold lines_segmentation, float_truthy. subst st.
    simpl. rewrite Hs. reflexivity.
  - intros H. unfold arc_segmentation. simpl py_gt.
    replace (2 <? n) with true by (symmetry; apply Z.ltb_lt; exact H).
    reflexivity.
  - intros H Hs. unfold arc_segmentation. simpl py_gt.
    replace (2 <? n) with false by (symmetry; apply Z.ltb_ge; exact H).
    rewrite Hs. reflexivity.
  - intros H Hs. unfold arc_segmentation. simpl py_gt.
    replace (2 <? n) with false by (symmetry; apply Z.ltb_ge; exact H).
    rewrite Hs. reflexivity.
  - intros H. unfold ellipse_segmentation. rewrite (Hnz H).
    unfold lbind, lift, lret.
    destruct (int_truediv 360 (PyInt n)); reflexivity.
  - intros H Hs. subst n. unfold ellipse_segmentation, float_truthy.
    simpl truthy. rewrite Hs. reflexivity.
Qed.

Lemma segmentation_policy_witness :
  lines_segmentation [0; 0; 0]%float [10; 10; 0]%float 1
    {| ls_points := []; ls_point_index := 0; ls_num_segments := PyInt 5;
       ls_segment_length := 0; ls_x_difference := None |}
    = Ok (PyInt 5, 0%float, Some 2%float) /\
  arc_segmentation 360 20000 1 (PyInt 5) 0 = Ok (PyInt 5, 72%float) /\
  arc_segmentation 180 20000 1 (PyInt 0) 0 = Ok (PyInt 10, 18%float) /\
  ellipse_segmentation 4 2 1 (PyInt 0) 0 [] = ([], Ok (Sample (PyInt 10) 18%float)).
Proof.
  pose proof (segmentation_policy 5 0 1 0 0 0 10 10 0 360 20000 4 2 [] 0 None [])
    as H5.
  pose proof (segmentation_policy 0 0 1 0 0 0 10 10 0 180 20000 4 2 [] 0 None [])
    as H0.
  cbv zeta in H5, H0.
  destruct H5 as (L1 & _ & A1 & _).
  destruct H0 as (_ & _ & _ & _ & A3 & _ & E3).
  split; [rewrite L1 by lia; reflexivity|].
  split; [rewrite A1 by lia; reflexivity|].
  split; [rewrite A3; [reflexivity | lia | reflexivity]|].
  rewrite E3; reflexivity.
Defined.

(** ** [arc_to_lines] *)

Lemma py_index_nth {A : Type} (l : list A) (i : nat) (d : A) :
  (i < List.length l)%nat -> py_index l (Z.of_nat i) = Ok (nth i l d).
Proof.
  intros H. unfold py_index.
  replace (Z.of_nat i <? 0) with false by (symmetry; apply Z.ltb_ge; lia).
  replace (Z.of_nat i <? 0) with false by (symmetry; apply Z.ltb_ge; lia).
  replace (Z.of_nat (List.length l) <=? Z.of_nat i) with false
    by (symmetry; apply Z.leb_gt; lia).
  simpl. rewrite Nat2Z.id.
  destruct (nth_error l i) as [a|] eqn:E.
  - rewrite (nth_error_nth l i d E). reflexivity.
  - apply nth_error_None in E. lia.
Qed.

Section ArcProofs.

Variable m : MathModule.
Variables (c0 c1 c2 radius start_angle segment_angle cf : float).

Hypothesis cf_nonzero : (cf =? 0)%float = false.

Lemma arc_point_appends (points : list (list float)) (i : Z) :
  (Z.abs i <? float_int_bound) = true ->
  (exists c s,
     math_cos m (math_radians (sampled_angle start_angle segment_angle i)) = Ok c /\
     math_sin m (math_radians (sampled_angle start_angle segment_angle i)) = Ok s) ->
  exists p, arc_point m [c0; c1; c2] radius start_angle segment_angle cf points i
            = Ok (points ++ [p]).
Proof.
  intros Hi [c [s [Hc Hs]]]. unfold arc_point, float_of_int.
  rewrite Hi. simpl bind. fold (sampled_angle start_angle segment_angle i).
  rewrite Hc, Hs. simpl bind.
  unfold fdiv. rewrite cf_nonzero. simpl. eexists. reflexivity.
Qed.

Lemma arc_points_loop (k a : nat) (acc : list (list float)) :
  (forall i : nat, (a <= i < a + k)%nat ->
     (Z.abs (Z.of_nat i) <? float_int_bound) = true /\
     exists c s,
       math_cos m (math_radians
                     (sampled_angle start_angle segment_angle (Z.of_nat i))) = Ok c /\
       math_sin m (math_radians
                     (sampled_angle start_angle segment_angle (Z.of_nat i))) = Ok s) ->
  exists ps,
    for_each (arc_point m [c0; c1; c2] radius start_angle segment_angle cf)
      (map Z.of_nat (seq a k)) acc = Ok (acc ++ ps) /\
    List.length ps = k.
Proof.
  revert a acc. induction k as [|k IH]; intros a acc H.
  - exists []. simpl. rewrite app_nil_r. split; reflexivity.
  - simpl.
    destruct (H a ltac:(lia)) as [Hb Hm].
    destruct (arc_point_appends acc (Z.of_nat a) Hb Hm) as [p Hp].
    rewrite Hp. simpl.
    destruct (IH (S a) (acc ++ [p])) as [ps [Hps Hlen]].
    { intros i Hi. apply H. lia. }
    exists (p :: ps). rewrite Hps, <- app_assoc. simpl.
    split; [reflexivity | lia].
Qed.

Lemma arc_lines_loop (points : list (list float)) (k a : nat)
    (lines : TGeometryList) (line_index : Z) :
  (a + k < List.length points)%nat ->
  for_each (arc_line cf points) (map Z.of_nat (seq a k)) (lines, line_index) =
  Ok (lines ++ map (fun j => chord cf points (line_index + Z.of_nat j) (a + j))
                   (seq 0 k),
      line_index + Z.of_nat k).
Proof.
  revert a lines line_index. induction k as [|k IH]; intros a lines idx H.
  - simpl. rewrite app_nil_r, Z.add_0_r. reflexivity.
  - simpl for_each. unfold arc_line at 1.
    rewrite (py_index_nth points a []) by lia.
    replace (Z.of_nat a + 1) with (Z.of_nat (S a)) by lia.
    rewrite (py_index_nth points (S a) []) by lia.
    simpl bind. rewrite IH by lia.
    f_equal. f_equal.
    + rewrite <- app_assoc. f_equal. simpl. f_equal.
      * unfold chord. rewrite Z.add_0_r, Nat.add_0_r. reflexivity.
      * rewrite <- seq_shift, map_map. apply map_ext. intros j.
        replace (a + S j)%nat with (S a + j)%nat by lia.
        replace (idx + Z.of_nat (S j)) with (idx + 1 + Z.of_nat j) by lia.
        reflexivity.
    + lia.
Qed.

End ArcProofs.

(** A full circle with [num_segments = N > 2]: the lines returned are the
    [N] chords of [N+1] sampled points, then the closing line. *)
Lemma arc_to_lines_full_circle (m : MathModule) (name : string)
    (c0 c1 c2 radius start_angle end_angle segment_angle segment_length : float)
    (N : Z) (units : string) :
  str_in units UNIT_TABLE = true ->
  2 < N ->
  (end_angle - start_angle =? 360)%float = true ->
  truediv (end_angle - start_angle)%float (PyInt N) = Ok segment_angle ->
  (forall i, 0 <= i <= N ->
     exists c s,
       math_cos m (math_radians (sampled_angle start_angle segment_angle i)) = Ok c /\
       math_sin m (math_radians (sampled_angle start_angle segment_angle i)) = Ok s) ->
  exists cf points,
    unit_factor units = Ok cf /\
    List.length points = S (Z.to_nat N) /\
    arc_to_lines m [(name, [[c0; c1; c2]; [radius; start_angle; end_angle]])]
      (PyInt N) segment_length units
    = Ok (closed_polygon cf points (Z.to_nat N)).
Proof.
  intros Hu HN H360 Hseg Hmath.
  destruct (unit_factor_recognized units Hu) as [cf [Ecf Hcf]].
  assert (Hbound : (Z.abs N <? float_int_bound) = true).
  { unfold truediv in Hseg. apply bind_ok in Hseg.
    destruct Hseg as [fN [HfN _]]. simpl in HfN.
    apply float_of_int_ok_inv in HfN. tauto. }
  set (n := Z.to_nat N).
  assert (HNn : N = Z.of_nat n) by (subst n; lia).
  destruct (arc_points_loop m c0 c1 c2 radius start_angle segment_angle cf Hcf
              (S n) 0 []) as [points [Hpoints Hlen]].
  { intros i Hi. split.
    - apply Z.ltb_lt. apply Z.ltb_lt in Hbound. lia.
    - apply Hmath. lia. }
  simpl app in Hpoints.
  exists cf, points. split; [exact Ecf|]. split; [exact Hlen|].
  unfold arc_to_lines. simpl for_each. unfold arcs_body.
  simpl snd.
  change (py_index [[c0; c1; c2]; [radius; start_angle; end_angle]] 0)
    with (Ok [c0; c1; c2]).
  change (py_index [[c0; c1; c2]; [radius; start_angle; end_angle]] 1)
    with (Ok [radius; start_angle; end_angle]).
  simpl bind at 1.
  change (py_index [radius; start_angle; end_angle] 0) with (Ok radius).
  change (py_index [radius; start_angle; end_angle] 1) with (Ok start_angle).
  change (py_index [radius; start_angle; end_angle] 2) with (Ok end_angle).
  simpl bind at 1. rewrite Ecf. simpl bind at 1.
  unfold arc_segmentation. simpl py_gt.
  replace (2 <? N) with true by (symmetry; apply Z.ltb_lt; exact HN).
  rewrite Hseg. simpl bind at 1. simpl as_num_segments.
  unfold py_add_int, py_range. simpl bind at 1.
  replace (Z.to_nat (N + 1)) with (S n) by (subst n; lia).
  rewrite Hpoints. simpl bind at 1. fold n.
  rewrite (arc_lines_loop cf points n 0 [] 0) by lia.
  simpl bind at 1. unfold arc_closing. rewrite H360.
  simpl py_index_num. rewrite HNn.
  rewrite (py_index_nth points n []) by lia.
  change 0 with (Z.of_nat 0).
  rewrite (py_index_nth points 0 []) by lia.
  reflexivity.
Qed.

Lemma closed_polygon_length (cf : float) (points : list (list float)) (n : nat) :
  List.length (closed_polygon cf points n) = S n.
Proof.
  unfold closed_polygon. rewrite length_app, length_map, length_seq. simpl. lia.
Qed.

Lemma closed_polygon_chord (cf : float) (points : list (list float)) (n i : nat) :
  (i < n)%nat ->
  nth_error (closed_polygon cf points n) i = Some (chord cf points (Z.of_nat i) i).
Proof.
  intros H. unfold closed_polygon.
  rewrite nth_error_app1 by (rewrite length_map, length_seq; exact H).
  rewrite nth_error_map.
  replace (nth_error (seq 0 n) i) with (Some i); [reflexivity|].
  symmetry. rewrite (nth_error_nth' _ 0%nat) by (rewrite length_seq; exact H).
  rewrite seq_nth by exact H. reflexivity.
Qed.

Lemma closed_polygon_closing (cf : float) (points : list (list float)) (n : nat) :
  nth_error (closed_polygon cf points n) n = Some (closing_line cf points n).
Proof.
  unfold closed_polygon.
  rewrite nth_error_app2 by (rewrite length_map, length_seq; lia).
  rewrite length_map, length_seq, Nat.sub_diag. reflexivity.
Qed.

Lemma closed_polygon_at (cf : float) (points : list (list float)) (n i : nat) :
  (i <= n)%nat ->
  exists name q,
    nth_error (closed_polygon cf points n) i
    = Some (name, [scale cf (nth i points []); q]).
Proof.
  intros H. destruct (Nat.eq_dec i n) as [->|Hne].
  - rewrite closed_polygon_closing. unfold closing_line. eauto.
  - rewrite closed_polygon_chord by lia. unfold chord. eauto.
Qed.

(** C7: for a full circle ([end_angle - start_angle == 360]) and
    [num_segments = N > 2], [arc_to_lines] returns exactly [N+1] lines; each
    of the first [N] ends where the next one starts, and the last one, the
    closing line, ends at the start point of the first. It does so whenever
    [N] converts to a float and [math.cos], [math.sin] return at the [N+1]
    sampled angles. *)
Theorem full_circle_closed_polygon (m : MathModule) (name : string)
    (c0 c1 c2 radius start_angle end_angle segment_angle segment_length : float)
    (N : Z) (units : string) :
  str_in units UNIT_TABLE = true ->
  2 < N ->
  (end_angle - start_angle =? 360)%float = true ->
  truediv (end_angle - start_angle)%float (PyInt N) = Ok segment_angle ->
  (forall i, 0 <= i <= N ->
     exists c s,
       math_cos m (math_radians (sampled_angle start_angle segment_angle i)) = Ok c /\
       math_sin m (math_radians (sampled_angle start_angle segment_angle i)) = Ok s) ->
  exists lines,
    arc_to_lines m [(name, [[c0; c1; c2]; [radius; start_angle; end_angle]])]
      (PyInt N) segment_length units = Ok lines /\
    Z.of_nat (List.length lines) = N + 1 /\
    (forall i, (i < Z.to_nat N)%nat ->
       exists a b q,
         nth_error lines i = Some a /\ nth_error lines (S i) = Some b /\
         nth_error (snd a) 1 = Some q /\ nth_error (snd b) 0 = Some q) /\
    (exists first last p,
       nth_error lines 0 = Some first /\
       nth_error lines (Z.to_nat N) = Some last /\
       nth_error (snd first) 0 = Some p /\ nth_error (snd last) 1 = Some p).
Proof.
  intros Hu HN H360 Hseg Hmath.
  destruct (arc_to_lines_full_circle m name c0 c1 c2 radius start_angle end_angle
              segment_angle segment_length N units Hu HN H360 Hseg Hmath)
    as [cf [points [_ [Hlen Hrun]]]].
  set (n := Z.to_nat N) in *.
  exists (closed_polygon cf points n).
  split; [exact Hrun|]. split; [rewrite closed_polygon_length; lia|]. split.
  - intros i Hi.
    destruct (closed_polygon_at cf points n (S i) ltac:(lia)) as [nm [q Hb]].
    exists (chord cf points (Z.of_nat i) i), (nm, [scale cf (nth (S i) points []); q]),
      (scale cf (nth (S i) points [])).
    rewrite closed_polygon_chord by exact Hi.
    rewrite Hb. repeat split; reflexivity.
  - exists (chord cf points (Z.of_nat 0) 0), (closing_line cf points n),
      (scale cf (nth 0 points [])).
    rewrite closed_polygon_chord by lia.
    rewrite closed_polygon_closing. repeat split; reflexivity.
Qed.

Lemma full_circle_closed_polygon_witness :
  exists lines,
    arc_to_lines series_math [circle_arc] (PyInt 4) 0%float "um" = Ok lines /\
    Z.of_nat (List.length lines) = 4 + 1 /\
    (forall i, (i < Z.to_nat 4)%nat ->
       exists a b q,
         nth_error lines i = Some a /\ nth_error lines (S i) = Some b /\
         nth_error (snd a) 1 = Some q /\ nth_error (snd b) 0 = Some q) /\
    (exists first last p,
       nth_error lines 0 = Some first /\
       nth_error lines (Z.to_nat 4) = Some last /\
       nth_error (snd first) 0 = Some p /\ nth_error (snd last) 1 = Some p).
Proof.
  apply (full_circle_closed_polygon series_math "ARC:0" 0 0 0 20000 0 360 90 0
           4 "um").
  - reflexivity.
  - lia.
  - reflexivity.
  - reflexivity.
  - intros i _. eexists. eexists. split; reflexivity.
Defined.

(** C7, as stated, fails for [N = 1]: the count is not above 2, the default
    10 is taken, and 11 lines come back instead of 2. *)
Lemma full_circle_one_segment :
  ~ (exists lines,
       arc_to_lines series_math [circle_arc] (PyInt 1) 0%float "um" = Ok lines /\
       Z.of_nat (List.length lines) = 1 + 1).
Proof.
  intros [lines [H Hlen]]. vm_compute in H. inversion H. subst lines.
  simpl in Hlen. discriminate Hlen.
Qed.

(** ** [ellipse_to_arcs] *)

Lemma lbind_ok {A B : Type} (c : logged A) (k : A -> logged B)
    (log log' : list string) (b : B) :
  lbind c k log = (log', Ok b) ->
  exists a log1, c log = (log1, Ok a) /\ k a log1 = (log', Ok b).
Proof.
  unfold lbind. destruct (c log) as [log1 [a|e]]; intros H.
  - eauto.
  - inversion H.
Qed.

Lemma lift_ok {A : Type} (r : result A) (log log' : list string) (a : A) :
  lift r log = (log', Ok a) -> r = Ok a /\ log' = log.
Proof. unfold lift. intros H. inversion H. split; reflexivity. Qed.

(** A property of the loop state that every pass keeps is kept by the loop. *)
Lemma lfor_each_invariant {S X : Type} (P : S -> Prop) (body : S -> X -> logged S) :
  (forall s x log log' s', P s -> body s x log = (log', Ok s') -> P s') ->
  forall xs s log log' s',
    P s -> lfor_each body xs s log = (log', Ok s') -> P s'.
Proof.
  intros Hbody xs. induction xs as [|x xs IH]; intros s log log' s' Hs H.
  - simpl in H. unfold lret in H. inversion H. subst. exact Hs.
  - simpl in H. apply lbind_ok in H. destruct H as [s1 [log1 [H1 H2]]].
    eapply IH; [|exact H2]. eapply Hbody; eauto.
Qed.

Ltac invert_binds H :=
  repeat (apply bind_ok in H; destruct H as [? [? H]]).

Ltac invert_lbinds H :=
  repeat (apply lbind_ok in H; destruct H as [? [? [? H]]]).

Section EllipseProofs.

Variable m : MathModule.

(** The third coordinate of the centre tuple [build_arc] writes is the
    literal 0. *)
Lemma build_arc_center_z (cf : float) (cx cy : option float)
    (p1x p1y p3x p3y : float) (arc_index : Z) (arc : TGeometryItem) :
  build_arc m cf cx cy p1x p1y p3x p3y arc_index = Ok arc ->
  center_z arc = Some 0%float.
Proof.
  intros H. unfold build_arc in H. invert_binds H.
  inversion H. reflexivity.
Qed.

Lemma ellipse_arc_flat (cf : float) (points : list (list float))
    (acc acc' : TGeometryList * Z * option float * option float)
    (index : Z) (log log' : list string) :
  arcs_flat (fst (fst (fst acc))) ->
  ellipse_arc m cf points acc index log = (log', Ok acc') ->
  arcs_flat (fst (fst (fst acc'))).
Proof.
  destruct acc as [[[arcs arc_index] old_cx] old_cy]. simpl.
  intros Hflat H. unfold ellipse_arc in H. invert_lbinds H.
  match type of H with
  | context [match ?c with (_, _) => _ end] => destruct c as [cx cy]
  end.
  apply lbind_ok in H. destruct H as [arc [log2 [Harc H]]].
  apply lift_ok in Harc. destruct Harc as [Harc _].
  unfold lret in H. inversion H. simpl.
  apply Forall_app. split; [exact Hflat|].
  constructor; [|constructor].
  eapply build_arc_center_z. exact Harc.
Qed.

Lemma ellipse_body_flat (segment_length : float) (units : string)
    (st st' : ellipse_state) (ellipse : TGeometryItem) (log log' : list string) :
  arcs_flat (es_arcs st) ->
  ellipse_body m segment_length units st ellipse log = (log', Ok st') ->
  arcs_flat (es_arcs st').
Proof.
  intros Hflat H. unfold ellipse_body in H. invert_lbinds H.
  match type of H with
  | context [match ?c with Skip => _ | Sample _ _ => _ end] =>
      destruct c as [|num_segments angle]
  end.
  - unfold lret in H. inversion H. subst. exact Hflat.
  - invert_lbinds H.
    match type of H with
    | context [match ?c with (_, _) => _ end] =>
        destruct c as [[[arcs arc_index] cx] cy]
    end.
    unfold lret in H. inversion H. simpl.
    match goal with
    | E : lfor_each _ _ _ _ = (_, Ok (arcs, arc_index, cx, cy)) |- _ =>
        apply (lfor_each_invariant
                 (fun acc : TGeometryList * Z * option float * option float =>
                    arcs_flat (fst (fst (fst acc)))) _
                 (fun s x l l' s' => ellipse_arc_flat _ _ s s' x l l')) in E;
        [exact E | exact Hflat]
    end.
Qed.

End EllipseProofs.

(** C10: every arc that [ellipse_to_arcs] returns has a centre whose third
    coordinate is exactly 0, whatever the z of the ellipse's own centre. *)
Theorem ellipse_to_arcs_center_z (m : MathModule) (given_ellipsis : TGeometryList)
    (num_segments : pynum) (segment_length : float) (units : string)
    (log log' : list string) (arcs : TGeometryList) :
  ellipse_to_arcs m given_ellipsis num_segments segment_length units log
    = (log', Ok arcs) ->
  Forall (fun arc => center_z arc = Some 0%float) arcs.
Proof.
  intros H. unfold ellipse_to_arcs in H.
  apply lbind_ok in H. destruct H as [st [log1 [Hloop H]]].
  unfold lret in H. inversion H. subst.
  apply (lfor_each_invariant (fun st => arcs_flat (es_arcs st)) _
           (fun s x l l' s' => ellipse_body_flat m segment_length units s s' x l l'))
    in Hloop; [exact Hloop | constructor].
Qed.

Lemma ellipse_to_arcs_center_z_witness :
  center_z raised_ellipse = Some 3%float /\
  ellipse_to_arcs series_math [raised_ellipse] (PyInt 2) 0%float "um" []
    = ([], Ok raised_ellipse_arcs) /\
  List.length raised_ellipse_arcs = 2%nat /\
  Forall (fun arc => center_z arc = Some 0%float) raised_ellipse_arcs.
Proof.
  split; [reflexivity|]. split; [vm_compute; reflexivity|].
  split; [reflexivity|].
  apply (ellipse_to_arcs_center_z series_math [raised_ellipse] (PyInt 2) 0%float
           "um" [] [] raised_ellipse_arcs).
  vm_compute. reflexivity.
Defined.

(** A loop whose every pass keeps [P] and adds [c] to a measure adds
    [c] times the number of passes. *)
Lemma lfor_each_steps {S X : Type} (P : S -> Prop) (f : S -> nat) (c : nat)
    (body : S -> X -> logged S) :
  (forall s x log log' s',
     P s -> body s x log = (log', Ok s') -> P s' /\ f s' = (f s + c)%nat) ->
  forall xs s log log' s',
    P s -> lfor_each body xs s log = (log', Ok s') ->
    P s' /\ f s' = (f s + c * List.length xs)%nat.
Proof.
  intros Hbody xs. induction xs as [|x xs IH]; intros s log log' s' Hs H.
  - simpl in H. unfold lret in H. inversion H. subst. split; [exact Hs|].
    simpl. lia.
  - simpl in H. apply lbind_ok in H. destruct H as [s1 [log1 [H1 H2]]].
    destruct (Hbody _ _ _ _ _ Hs H1) as [Hs1 Hf1].
    destruct (IH _ _ _ _ Hs1 H2) as [Hs' Hf'].
    split; [exact Hs'|]. rewrite Hf', Hf1. simpl. lia.
Qed.

Section EllipseCount.

Variable m : MathModule.

Lemma ellipse_arc_appends_one (cf : float) (points : list (list float))
    (acc acc' : TGeometryList * Z * option float * option float)
    (index : Z) (log log' : list string) :
  ellipse_arc m cf points acc index log = (log', Ok acc') ->
  List.length (fst (fst (fst acc'))) = S (List.length (fst (fst (fst acc)))).
Proof.
  destruct acc as [[[arcs arc_index] old_cx] old_cy]. simpl.
  intros H. unfold ellipse_arc in H. invert_lbinds H.
  match type of H with
  | context [match ?c with (_, _) => _ end] => destruct c as [cx cy]
  end.
  apply lbind_ok in H. destruct H as [arc [log2 [_ H]]].
  unfold lret in H. inversion H. simpl.
  rewrite length_app. simpl. lia.
Qed.

Lemma ellipse_body_appends (N : Z) (segment_length : float) (units : string)
    (st st' : ellipse_state) (ellipse : TGeometryItem) (log log' : list string) :
  N <> 0 ->
  es_num_segments st = PyInt N ->
  ellipse_body m segment_length units st ellipse log = (log', Ok st') ->
  es_num_segments st' = PyInt N /\
  List.length (es_arcs st') = (List.length (es_arcs st) + Z.to_nat N)%nat.
Proof.
  intros HN Hst H. unfold ellipse_body in H. invert_lbinds H.
  match goal with
  | E : ellipse_segmentation _ _ _ _ _ _ = _ |- _ => rename E into Hseg
  end.
  rewrite Hst in Hseg. unfold ellipse_segmentation in Hseg.
  replace (truthy (PyInt N)) with true in Hseg
    by (symmetry; simpl; apply negb_true_iff; apply Z.eqb_neq; exact HN).
  apply lbind_ok in Hseg. destruct Hseg as [q [logq [_ Hseg]]].
  unfold lret in Hseg. inversion Hseg. subst. clear Hseg.
  invert_lbinds H.
  match type of H with
  | context [match ?c with (_, _) => _ end] =>
      destruct c as [[[arcs arc_index] cx] cy]
  end.
  unfold lret in H. inversion H. simpl. split; [reflexivity|].
  match goal with
  | E : lift (py_range (PyInt N)) _ = _ |- _ => rename E into Hrange
  end.
  apply lift_ok in Hrange. destruct Hrange as [Hrange _].
  simpl in Hrange. inversion Hrange. subst. clear Hrange.
  match goal with
  | E : lfor_each _ _ _ _ = (_, Ok (arcs, arc_index, cx, cy)) |- _ =>
      rename E into Hloop
  end.
  apply (lfor_each_steps (fun _ => True)
           (fun acc : TGeometryList * Z * option float * option float =>
              List.length (fst (fst (fst acc)))) 1) in Hloop.
  - destruct Hloop as [_ Hloop]. simpl in Hloop.
    rewrite Hloop, length_map, length_seq. lia.
  - intros s x' l l' s' _ Hstep. split; [exact I|].
    rewrite (ellipse_arc_appends_one _ _ _ _ _ _ _ Hstep). lia.
  - exact I.
Qed.

End EllipseCount.

(** No arc is ever left out: whenever [ellipse_to_arcs] returns with a
    [num_segments = N > 0], it returns exactly [N] arcs for each ellipse,
    whatever was logged on the way. *)
Lemma ellipse_to_arcs_count (m : MathModule) (given_ellipsis : TGeometryList)
    (N : Z) (segment_length : float) (units : string)
    (log log' : list string) (arcs : TGeometryList) :
  0 < N ->
  ellipse_to_arcs m given_ellipsis (PyInt N) segment_length units log
    = (log', Ok arcs) ->
  List.length arcs = (Z.to_nat N * List.length given_ellipsis)%nat.
Proof.
  intros HN H. unfold ellipse_to_arcs in H.
  apply lbind_ok in H. destruct H as [st [log1 [Hloop H]]].
  unfold lret in H. inversion H. subst.
  apply (lfor_each_steps (fun st => es_num_segments st = PyInt N)
           (fun st => List.length (es_arcs st)) (Z.to_nat N)) in Hloop.
  - destruct Hloop as [_ Hlen]. simpl in Hlen. exact Hlen.
  - intros s x l l' s' Hs Hstep.
    apply (ellipse_body_appends m N segment_length units s s' x l l');
      [lia | exact Hs | exact Hstep].
  - reflexivity.
Qed.

Lemma fit_center_zero_division (old_cx old_cy : option float)
    (p1x p1y p2x p2y p3x p3y : float) (log : list string) :
  fit_cx p1x p1y p2x p2y p3x p3y = Raise ZeroDivisionError ->
  fit_center old_cx old_cy p1x p1y p2x p2y p3x p3y log
  = (log ++ ["Divide by zero error"], Ok (old_cx, old_cy)).
Proof. intros H. unfold fit_center. rewrite H. reflexivity. Qed.

(** After the warning the code goes on to read [cx]: unassigned, it raises. *)
Lemma build_arc_unbound (m : MathModule) (cf : float) (cy : option float)
    (p1x p1y p3x p3y : float) (arc_index : Z) :
  build_arc m cf None cy p1x p1y p3x p3y arc_index
  = Raise (UnboundLocalError "cx").
Proof. reflexivity. Qed.

(** With one segment the third point of the only triple is the first
    again, and the first divisor of the fit is [2*p1y - 2*p1y]. *)
Lemma fit_cx_same_point (p1x p1y p2x p2y : float) :
  (2 * p1y - 2 * p1y =? 0)%float = true ->
  fit_cx p1x p1y p2x p2y p1x p1y = Raise ZeroDivisionError.
Proof. intros H. unfold fit_cx. rewrite (fdiv_zero _ _ H). reflexivity. Qed.

(** C6: a zero divisor in the fit is logged and the arc is not skipped.
    With one segment the only triple divides by zero and the call ends in
    [UnboundLocalError] for [cx]. With two ellipses cut in two, both triples
    of the second divide by zero: two warnings are logged and two arcs are
    appended all the same, carrying the centre fitted last for the first
    ellipse. *)
Theorem zero_division_arc_not_skipped :
  ellipse_to_arcs series_math [raised_ellipse] (PyInt 1) 0%float "um" []
    = (["Divide by zero error"], Raise (UnboundLocalError "cx")) /\
  exists a0 a1 a2 a3,
    ellipse_to_arcs series_math [flat_ellipse; far_ellipse] (PyInt 2) 0%float "um" []
      = (["Divide by zero error"; "Divide by zero error"], Ok [a0; a1; a2; a3]) /\
    nth_error (snd a2) 0 = nth_error (snd a1) 0 /\
    nth_error (snd a3) 0 = nth_error (snd a1) 0.
Proof.
  split; [vm_compute; reflexivity|].
  do 4 eexists. split; [vm_compute; reflexivity|].
  split; reflexivity.
Qed.

(** ** [convert_to] *)

Lemma convert_to_depth_other (m : MathModule) (d : nat)
    (given_geometry_type return_geometry_type : string)
    (given_geometry : TGeometryList) (num_segments : pynum)
    (min_length : float) (units : string) (log : list string) :
  String.eqb given_geometry_type return_geometry_type = false ->
  String.eqb given_geometry_type "LINE" = false ->
  String.eqb given_geometry_type "ARC" = false ->
  String.eqb given_geometry_type "ELLIPSE" = false ->
  convert_to_depth m (S d) given_geometry_type return_geometry_type
    given_geometry num_segments min_length units log = (log, Ok None).
Proof. intros H0 H1 H2 H3. simpl. rewrite H0, H1, H2, H3. reflexivity. Qed.

(** Past the length of the chain the depth makes no difference: the
    recursion never reaches the interpreter's limit. *)
Lemma convert_to_depth_enough (m : MathModule) (d1 : nat) :
  forall (d2 : nat) (given_geometry_type return_geometry_type : string)
         (given_geometry : TGeometryList) (num_segments : pynum)
         (min_length : float) (units : string) (log : list string),
    (chain_depth given_geometry_type <= d1)%nat ->
    (chain_depth given_geometry_type <= d2)%nat ->
    convert_to_depth m d1 given_geometry_type return_geometry_type
      given_geometry num_segments min_length units log
    = convert_to_depth m d2 given_geometry_type return_geometry_type
        given_geometry num_segments min_length units log.
Proof.
  induction d1 as [|d1 IH]; intros d2 given ret geometry n l u log H1 H2.
  - unfold chain_depth in H1.
    destruct (String.eqb given "LINE"), (String.eqb given "ARC"),
      (String.eqb given "ELLIPSE"); lia.
  - destruct d2 as [|d2].
    + unfold chain_depth in H2.
      destruct (String.eqb given "LINE"), (String.eqb given "ARC"),
        (String.eqb given "ELLIPSE"); lia.
    + unfold chain_depth in H1, H2. simpl.
      destruct (String.eqb given ret); [reflexivity|].
      destruct (String.eqb given "LINE").
      { unfold lbind, lift.
        destruct (lines_to_points geometry n l u); [|reflexivity].
        apply IH; unfold chain_depth; simpl; lia. }
      destruct (String.eqb given "ARC").
      { unfold lbind, lift.
        destruct (arc_to_lines m geometry n l u); [|reflexivity].
        apply IH; unfold chain_depth; simpl; lia. }
      destruct (String.eqb given "ELLIPSE"); [|reflexivity].
      unfold lbind.
      destruct (ellipse_to_arcs m geometry n l u log) as [log1 [arcs|e]];
        [|reflexivity].
      apply IH; unfold chain_depth; simpl; lia.
Qed.

Lemma convert_to_unfold (m : MathModule) (d : nat)
    (given_geometry_type return_geometry_type : string)
    (given_geometry : TGeometryList) (num_segments : pynum)
    (min_length : float) (units : string) (log : list string) :
  (chain_depth given_geometry_type <= d)%nat ->
  convert_to m given_geometry_type return_geometry_type
    given_geometry num_segments min_length units log
  = convert_to_depth m d given_geometry_type return_geometry_type
      given_geometry num_segments min_length units log.
Proof.
  intros H. unfold convert_to. apply convert_to_depth_enough; [|exact H].
  unfold chain_depth, recursion_limit.
  destruct (String.eqb given_geometry_type "LINE"),
    (String.eqb given_geometry_type "ARC"),
    (String.eqb given_geometry_type "ELLIPSE"); lia.
Qed.

Lemma chain_depth_le_4 (kind : string) : (chain_depth kind <= 4)%nat.
Proof.
  unfold chain_depth.
  destruct (String.eqb kind "LINE"), (String.eqb kind "ARC"),
    (String.eqb kind "ELLIPSE"); lia.
Qed.

Ltac split_below H :=
  cbn [str_in existsb] in H;
  repeat match type of H with
         | (_ || _) = false =>
             let H1 := fresh "Hb" in
             apply orb_false_elim in H; destruct H as [H1 H];
             rewrite String.eqb_sym in H1
         end.

Lemma convert_to_depth_line (m : MathModule) (d : nat) (ret : string)
    (geometry : TGeometryList) (n : pynum) (l : float) (u : string)
    (log : list string) :
  String.eqb "LINE" ret = false ->
  convert_to_depth m (S d) "LINE" ret geometry n l u log
  = match lines_to_points geometry n l u with
    | Ok points => convert_to_depth m d "POINT" ret points (PyInt 0) 0%float "um" log
    | Raise e => (log, Raise e)
    end.
Proof.
  intros H. cbn [convert_to_depth]. rewrite H.
  change (String.eqb "LINE" "LINE") with true. cbv iota.
  unfold lbind, lift. destruct (lines_to_points geometry n l u); reflexivity.
Qed.

Lemma convert_to_depth_arc (m : MathModule) (d : nat) (ret : string)
    (geometry : TGeometryList) (n : pynum) (l : float) (u : string)
    (log : list string) :
  String.eqb "ARC" ret = false ->
  convert_to_depth m (S d) "ARC" ret geometry n l u log
  = match arc_to_lines m geometry n l u with
    | Ok lines => convert_to_depth m d "LINE" ret lines (PyInt 0) 0%float "um" log
    | Raise e => (log, Raise e)
    end.
Proof.
  intros H. cbn [convert_to_depth]. rewrite H.
  change (String.eqb "ARC" "LINE") with false.
  change (String.eqb "ARC" "ARC") with true. cbv iota.
  unfold lbind, lift. destruct (arc_to_lines m geometry n l u); reflexivity.
Qed.

Lemma convert_to_depth_ellipse (m : MathModule) (d : nat) (ret : string)
    (geometry : TGeometryList) (n : pynum) (l : float) (u : string)
    (log : list string) :
  String.eqb "ELLIPSE" ret = false ->
  convert_to_depth m (S d) "ELLIPSE" ret geometry n l u log
  = match ellipse_to_arcs m geometry n l u log with
    | (log1, Ok arcs) =>
        convert_to_depth m d "ARC" ret arcs (PyInt 0) 0%float "um" log1
    | (log1, Raise e) => (log1, Raise e)
    end.
Proof.
  intros H. cbn [convert_to_depth]. rewrite H.
  change (String.eqb "ELLIPSE" "LINE") with false.
  change (String.eqb "ELLIPSE" "ARC") with false.
  change (String.eqb "ELLIPSE" "ELLIPSE") with true. cbv iota.
  unfold lbind. destruct (ellipse_to_arcs m geometry n l u log) as [? [?|?]];
    reflexivity.
Qed.

Lemma convert_to_depth_point (m : MathModule) (d : nat) (ret : string)
    (geometry : TGeometryList) (n : pynum) (l : float) (u : string)
    (log : list string) :
  String.eqb "POINT" ret = false ->
  convert_to_depth m (S d) "POINT" ret geometry n l u log = (log, Ok None).
Proof. intros H. apply convert_to_depth_other; [exact H | reflexivity ..]. Qed.

Ltac run_stage H :=
  match type of H with
  | context [lines_to_points ?g ?n ?l ?u] =>
      destruct (lines_to_points g n l u)
  | context [arc_to_lines ?m ?g ?n ?l ?u] =>
      destruct (arc_to_lines m g n l u)
  | context [ellipse_to_arcs ?m ?g ?n ?l ?u ?log] =>
      destruct (ellipse_to_arcs m g n l u log) as [? [?|?]]
  end.

(** C8, as stated, fails: with no path from the source to the target,
    [convert_to] reports nothing; it returns [None]. *)
Lemma convert_to_reports_nothing :
  convert_to series_math "POINT" "LINE" [origin_point] (PyInt 0) 0%float "um" []
    = ([], Ok None) /\
  convert_to series_math "CIRCLE" "LINE" [circle_arc] (PyInt 4) 0%float "um" []
    = ([], Ok None).
Proof. split; vm_compute; reflexivity. Qed.

(** C8: when the target is not the source and not below it on the chain
    ELLIPSE, ARC, LINE, POINT, [convert_to] raises no error of its own and
    returns [None]. From a POINT or unrecognised source it returns [None] at
    once, logging nothing. From LINE, ARC or ELLIPSE it runs the stages down
    the chain, the first with the caller's parameters and the later ones
    with the defaults, and its outcome is theirs: the exception of the first
    stage that raises, and [None] when they all return. In every case a
    returning call returns [None]. *)
Theorem convert_to_unreachable (m : MathModule)
    (given_geometry_type return_geometry_type : string)
    (given_geometry : TGeometryList) (num_segments : pynum)
    (min_length : float) (units : string) (log : list string) :
  reachable given_geometry_type return_geometry_type = false ->
  (String.eqb given_geometry_type "LINE" = false ->
   String.eqb given_geometry_type "ARC" = false ->
   String.eqb given_geometry_type "ELLIPSE" = false ->
   convert_to m given_geometry_type return_geometry_type
     given_geometry num_segments min_length units log = (log, Ok None)) /\
  (given_geometry_type = "LINE" ->
   convert_to m given_geometry_type return_geometry_type
     given_geometry num_segments min_length units log
   = (log,
      match lines_to_points given_geometry num_segments min_length units with
      | Ok _ => Ok None
      | Raise e => Raise e
      end)) /\
  (given_geometry_type = "ARC" ->
   convert_to m given_geometry_type return_geometry_type
     given_geometry num_segments min_length units log
   = (log,
      match arc_to_lines m given_geometry num_segments min_length units with
      | Ok lines =>
          match lines_to_points lines (PyInt 0) 0%float "um" with
          | Ok _ => Ok None
          | Raise e => Raise e
          end
      | Raise e => Raise e
      end)) /\
  (given_geometry_type = "ELLIPSE" ->
   convert_to m given_geometry_type return_geometry_type
     given_geometry num_segments min_length units log
   = (let (log1, r) :=
        ellipse_to_arcs m given_geometry num_segments min_length units log in
      (log1,
       match r with
       | Ok arcs =>
           match arc_to_lines m arcs (PyInt 0) 0%float "um" with
           | Ok lines =>
               match lines_to_points lines (PyInt 0) 0%float "um" with
               | Ok _ => Ok None
               | Raise e => Raise e
               end
           | Raise e => Raise e
           end
       | Raise e => Raise e
       end))) /\
  (forall log' r,
     convert_to m given_geometry_type return_geometry_type
       given_geometry num_segments min_length units log = (log', Ok r) ->
     r = None).
Proof.
  intros Hreach. unfold reachable in Hreach.
  apply orb_false_elim in Hreach. destruct Hreach as [Hne Hbelow].
  split; [|split; [|split; [|split]]].
  - intros H1 H2 H3. rewrite (convert_to_unfold m 1).
    + apply convert_to_depth_other; assumption.
    + unfold chain_depth. rewrite H1, H2, H3. lia.
  - intros ->. change (chain_below "LINE") with ["POINT"] in Hbelow.
    split_below Hbelow.
    rewrite (convert_to_unfold m 4) by apply chain_depth_le_4.
    rewrite (convert_to_depth_line m 3 _ _ _ _ _ _ Hne).
    destruct (lines_to_points _ _ _ _); [|reflexivity].
    apply convert_to_depth_point. exact Hb.
  - intros ->. change (chain_below "ARC") with ["LINE"; "POINT"] in Hbelow.
    split_below Hbelow.
    rewrite (convert_to_unfold m 4) by apply chain_depth_le_4.
    rewrite (convert_to_depth_arc m 3 _ _ _ _ _ _ Hne).
    destruct (arc_to_lines _ _ _ _ _); [|reflexivity].
    rewrite (convert_to_depth_line m 2 _ _ _ _ _ _ Hb).
    destruct (lines_to_points _ _ _ _); [|reflexivity].
    apply convert_to_depth_point. exact Hb0.
  - intros ->.
    change (chain_below "ELLIPSE") with ["ARC"; "LINE"; "POINT"] in Hbelow.
    split_below Hbelow.
    rewrite (convert_to_unfold m 4) by apply chain_depth_le_4.
    rewrite (convert_to_depth_ellipse m 3 _ _ _ _ _ _ Hne).
    destruct (ellipse_to_arcs _ _ _ _ _ _) as [log1 [arcs|e]]; [|reflexivity].
    rewrite (convert_to_depth_arc m 2 _ _ _ _ _ _ Hb).
    destruct (arc_to_lines _ _ _ _ _); [|reflexivity].
    rewrite (convert_to_depth_line m 1 _ _ _ _ _ _ Hb0).
    destruct (lines_to_points _ _ _ _); [|reflexivity].
    apply convert_to_depth_point. exact Hb1.
  - intros log' r H.
    rewrite (convert_to_unfold m 4) in H by apply chain_depth_le_4.
    unfold chain_below in Hbelow.
    destruct (String.eqb given_geometry_type "ELLIPSE") eqn:HE.
    { apply String.eqb_eq in HE. subst given_geometry_type.
      split_below Hbelow.
      rewrite (convert_to_depth_ellipse m 3 _ _ _ _ _ _ Hne) in H.
      run_stage H; [|discriminate H].
      rewrite (convert_to_depth_arc m 2 _ _ _ _ _ _ Hb) in H.
      run_stage H; [|discriminate H].
      rewrite (convert_to_depth_line m 1 _ _ _ _ _ _ Hb0) in H.
      run_stage H; [|discriminate H].
      rewrite (convert_to_depth_point m 0 _ _ _ _ _ _ Hb1) in H.
      congruence. }
    destruct (String.eqb given_geometry_type "ARC") eqn:HA.
    { apply String.eqb_eq in HA. subst given_geometry_type.
      split_below Hbelow.
      rewrite (convert_to_depth_arc m 3 _ _ _ _ _ _ Hne) in H.
      run_stage H; [|discriminate H].
      rewrite (convert_to_depth_line m 2 _ _ _ _ _ _ Hb) in H.
      run_stage H; [|discriminate H].
      rewrite (convert_to_depth_point m 1 _ _ _ _ _ _ Hb0) in H.
      congruence. }
    destruct (String.eqb given_geometry_type "LINE") eqn:HL.
    { apply String.eqb_eq in HL. subst given_geometry_type.
      split_below Hbelow.
      rewrite (convert_to_depth_line m 3 _ _ _ _ _ _ Hne) in H.
      run_stage H; [|discriminate H].
      rewrite (convert_to_depth_point m 2 _ _ _ _ _ _ Hb) in H.
      congruence. }
    rewrite (convert_to_depth_other m 3 _ _ _ _ _ _ _ Hne HL HA HE) in H.
    congruence.
Qed.

Lemma convert_to_unreachable_witness :
  convert_to series_math "POINT" "LINE" [origin_point] (PyInt 0) 0%float "um" []
    = ([], Ok None) /\
  convert_to series_math "LINE" "ARC" [falling_line] (PyInt 4) 0%float "um" []
    = ([], Ok None) /\
  convert_to series_math "LINE" "ARC" [vertical_line] (PyInt 4) 0%float "um" []
    = ([], Raise ZeroDivisionError) /\
  convert_to series_math "ARC" "ELLIPSE" [half_arc] (PyInt 4) 0%float "um" []
    = ([], Ok None) /\
  convert_to series_math "ELLIPSE" "SPLINE" [raised_ellipse] (PyInt 3) 0%float
    "um" [] = ([], Ok None).
Proof.
  split; [|split; [|split; [|split]]].
  - apply (convert_to_unreachable series_math "POINT" "LINE" [origin_point]
             (PyInt 0) 0%float "um" []); reflexivity.
  - destruct (convert_to_unreachable series_math "LINE" "ARC" [falling_line]
                (PyInt 4) 0%float "um" [] eq_refl) as (_ & H & _).
    rewrite (H eq_refl). vm_compute. reflexivity.
  - destruct (convert_to_unreachable series_math "LINE" "ARC" [vertical_line]
                (PyInt 4) 0%float "um" [] eq_refl) as (_ & H & _).
    rewrite (H eq_refl). vm_compute. reflexivity.
  - destruct (convert_to_unreachable series_math "ARC" "ELLIPSE" [half_arc]
                (PyInt 4) 0%float "um" [] eq_refl) as (_ & _ & H & _).
    rewrite (H eq_refl). vm_compute. reflexivity.
  - destruct (convert_to_unreachable series_math "ELLIPSE" "SPLINE"
                [raised_ellipse] (PyInt 3) 0%float "um" [] eq_refl)
      as (_ & _ & _ & H & _).
    rewrite (H eq_refl). vm_compute. reflexivity.
Defined.

(** * Further properties of the resolver and the stages *)

(** ** [get_hifi_geometry]: the rank walk *)

Lemma get_hifi_geometry_chain (allowedtypes : list string) :
  get_hifi_geometry "ELLIPSE" allowedtypes =
    Ok (if str_in "ARC" allowedtypes then Some "ARC"
        else if str_in "LINE" allowedtypes then Some "LINE"
        else if str_in "POINT" allowedtypes then Some "POINT"
        else None) /\
  get_hifi_geometry "ARC" allowedtypes =
    Ok (if str_in "LINE" allowedtypes then Some "LINE"
        else if str_in "POINT" allowedtypes then Some "POINT"
        else None) /\
  get_hifi_geometry "LINE" allowedtypes =
    Ok (if str_in "POINT" allowedtypes then Some "POINT" else None) /\
  get_hifi_geometry "POINT" allowedtypes = Ok None.
Proof.
  unfold get_hifi_geometry. simpl.
  destruct (str_in "ARC" allowedtypes), (str_in "LINE" allowedtypes),
    (str_in "POINT" allowedtypes); repeat split; reflexivity.
Qed.

(** X1: below a kind of the chain the resolver returns the highest-ranked
    allowed kind: for ELLIPSE the first allowed of ARC, LINE, POINT; for ARC
    the first allowed of LINE, POINT; for LINE only POINT; for POINT nothing,
    whatever is allowed. *)
Theorem get_hifi_geometry_rank_walk (allowedtypes : list string) :
  get_hifi_geometry "ELLIPSE" allowedtypes =
    Ok (if str_in "ARC" allowedtypes then Some "ARC"
        else if str_in "LINE" allowedtypes then Some "LINE"
        else if str_in "POINT" allowedtypes then Some "POINT"
        else None) /\
  get_hifi_geometry "ARC" allowedtypes =
    Ok (if str_in "LINE" allowedtypes then Some "LINE"
        else if str_in "POINT" allowedtypes then Some "POINT"
        else None) /\
  get_hifi_geometry "LINE" allowedtypes =
    Ok (if str_in "POINT" allowedtypes then Some "POINT" else None) /\
  get_hifi_geometry "POINT" allowedtypes = Ok None.
Proof. exact (get_hifi_geometry_chain allowedtypes). Qed.

Lemma list_index_absent (x : string) (l : list string) :
  str_in x l = false -> list_index x l = Raise ValueError.
Proof.
  unfold str_in. induction l as [|y l IH]; simpl; intros H; [reflexivity|].
  apply orb_false_elim in H. destruct H as [Hy Hl].
  rewrite String.eqb_sym, Hy. rewrite (IH Hl). reflexivity.
Qed.

Lemma get_hifi_geometry_not_ranked (geometry : string)
    (allowedtypes : list string) :
  str_in geometry geometries = false ->
  get_hifi_geometry geometry allowedtypes = Raise ValueError.
Proof.
  intros H. pose proof (list_index_absent geometry geometries H) as Hi.
  unfold str_in, geometries in H. cbn [existsb] in H.
  repeat match type of H with
         | (_ || _) = false =>
             let H1 := fresh "Hk" in
             apply orb_false_elim in H; destruct H as [H1 H]
         end.
  unfold get_hifi_geometry. rewrite Hk3, Hk4, Hi. reflexivity.
Qed.

(** X2: a kind that is not one of the six ranked names makes the resolver
    raise [ValueError] ([list.index] of a missing element), whatever is
    allowed. The importer passes the DXF type of the entity, so a CIRCLE,
    which it stores as an ARC, is such a kind. *)
Theorem get_hifi_geometry_unknown_kind (geometry : string)
    (allowedtypes : list string) :
  str_in geometry geometries = false ->
  get_hifi_geometry geometry allowedtypes = Raise ValueError.
Proof. exact (get_hifi_geometry_not_ranked geometry allowedtypes). Qed.

Lemma get_hifi_geometry_unknown_kind_witness :
  get_hifi_geometry "CIRCLE" ["ARC"; "LINE"; "POINT"] = Raise ValueError.
Proof.
  apply (get_hifi_geometry_unknown_kind "CIRCLE" ["ARC"; "LINE"; "POINT"]).
  reflexivity.
Defined.

Ltac case_allowed H :=
  repeat match type of H with
         | context [str_in ?k ?a] =>
             let E := fresh "E" in
             destruct (str_in k a) eqn:E; cbn [andb negb] in H
         end.

Lemma get_hifi_geometry_returns_allowed (geometry : string)
    (allowedtypes : list string) (kind : string) :
  get_hifi_geometry geometry allowedtypes = Ok (Some kind) ->
  str_in kind allowedtypes = true /\
  str_in kind geometries = true /\
  kind <> geometry.
Proof.
  intros H.
  destruct (str_in geometry geometries) eqn:Hin.
  - unfold str_in, geometries in Hin. cbn [existsb] in Hin.
    repeat (apply orb_prop in Hin; destruct Hin as [Hin | Hin];
            [apply String.eqb_eq in Hin | ]);
      try discriminate Hin; subst geometry.
    + destruct (get_hifi_geometry_chain allowedtypes) as (_ & _ & _ & E).
      rewrite E in H. discriminate H.
    + destruct (get_hifi_geometry_chain allowedtypes) as (_ & _ & E & _).
      rewrite E in H. case_allowed H; inversion H; subst kind;
        (split; [assumption | split; [reflexivity | discriminate]]).
    + destruct (get_hifi_geometry_chain allowedtypes) as (_ & E & _ & _).
      rewrite E in H. case_allowed H; inversion H; subst kind;
        (split; [assumption | split; [reflexivity | discriminate]]).
    + destruct (get_hifi_geometry_chain allowedtypes) as (E & _ & _ & _).
      rewrite E in H. case_allowed H; inversion H; subst kind;
        (split; [assumption | split; [reflexivity | discriminate]]).
    + rewrite get_hifi_geometry_spline in H.
      case_allowed H; inversion H; subst kind;
        (split; [assumption | split; [reflexivity | discriminate]]).
    + rewrite get_hifi_geometry_lwpolyline in H.
      case_allowed H; inversion H; subst kind;
        (split; [assumption | split; [reflexivity | discriminate]]).
  - rewrite (get_hifi_geometry_not_ranked geometry allowedtypes Hin) in H.
    discriminate H.
Qed.

(** X3: whatever the resolver returns is an allowed kind, one of the six
    ranked names, and never the source kind itself. *)
Theorem get_hifi_geometry_sound (geometry : string) (allowedtypes : list string)
    (kind : string) :
  get_hifi_geometry geometry allowedtypes = Ok (Some kind) ->
  str_in kind allowedtypes = true /\
  str_in kind geometries = true /\
  kind <> geometry.
Proof. exact (get_hifi_geometry_returns_allowed geometry allowedtypes kind). Qed.

Lemma get_hifi_geometry_sound_witness :
  str_in "LINE" ["POINT"; "LINE"] = true /\
  str_in "LINE" geometries = true /\
  "LINE" <> "ARC".
Proof.
  apply (get_hifi_geometry_sound "ARC" ["POINT"; "LINE"] "LINE"). reflexivity.
Defined.

(** ** Units *)

(** X4: the unit lookup shared by the stages. A unit of [UNIT_TABLE] always
    has a factor, and the factor is positive, so no division by it can
    raise; any other string raises the invalid-units exception. The factor
    of ['um'] is 1, and the table of factors has one entry more than the
    table of units (entry 0, unitless, has no name). *)
Theorem unit_factor_table (units : string) :
  (str_in units UNIT_TABLE = true ->
   exists cf, unit_factor units = Ok cf /\ (0 <? cf)%float = true /\
              (cf =? 0)%float = false) /\
  (str_in units UNIT_TABLE = false ->
   unit_factor units = Raise (InvalidUnits units)) /\
  unit_factor "um" = Ok 1%float /\
  List.length CONVERSION_FACTORS = S (List.length UNIT_TABLE).
Proof.
  split; [|split; [apply unit_factor_unknown | split; reflexivity]].
  intros H. unfold str_in, UNIT_TABLE in H. simpl in H.
  split_unit H; try discriminate H;
    subst units; eexists; repeat split; vm_compute; reflexivity.
Qed.

Lemma unit_factor_table_witness :
  (exists cf, unit_factor "mm" = Ok cf /\ (0 <? cf)%float = true /\
              (cf =? 0)%float = false) /\
  unit_factor "microns" = Raise (InvalidUnits "microns").
Proof.
  destruct (unit_factor_table "mm") as [Hmm _].
  destruct (unit_factor_table "microns") as [_ [Hbad _]].
  split; [apply Hmm; reflexivity | apply Hbad; reflexivity].
Defined.

Lemma py_index_first {A : Type} (a : A) (l : list A) :
  py_index (a :: l) 0 = Ok a.
Proof. apply (py_index_nth (a :: l) 0 a). simpl. lia. Qed.

Lemma py_index_second {A : Type} (a b : A) (l : list A) :
  py_index (a :: b :: l) 1 = Ok b.
Proof. apply (py_index_nth (a :: b :: l) 1 a). simpl. lia. Qed.

Lemma py_index_third {A : Type} (a b c : A) (l : list A) :
  py_index (a :: b :: c :: l) 2 = Ok c.
Proof. apply (py_index_nth (a :: b :: c :: l) 2 a). simpl. lia. Qed.

(** X5: the stages check the unit inside their loop, once per item. With
    an unrecognised unit and a first item of the right shape each stage raises
    the invalid-units exception and returns nothing; with an empty list the
    unit is never looked at and the empty list comes back. *)
Theorem stages_check_units_per_item (m : MathModule) (units : string)
    (num_segments : pynum) (segment_length : float) (log : list string)
    (name : string) (p q c : list float) (r s e a ratio : float)
    (more : list (list float)) (ms ms' : list float) (rest : TGeometryList) :
  (lines_to_points [] num_segments segment_length units = Ok [] /\
   arc_to_lines m [] num_segments segment_length units = Ok [] /\
   ellipse_to_arcs m [] num_segments segment_length units log = (log, Ok [])) /\
  (str_in units UNIT_TABLE = false ->
   lines_to_points ((name, p :: q :: more) :: rest)
     num_segments segment_length units = Raise (InvalidUnits units) /\
   arc_to_lines m ((name, c :: (r :: s :: e :: ms) :: more) :: rest)
     num_segments segment_length units = Raise (InvalidUnits units) /\
   ellipse_to_arcs m ((name, c :: (a :: ms) :: (ratio :: ms') :: more) :: rest)
     num_segments segment_length units log = (log, Raise (InvalidUnits units))).
Proof.
  split; [repeat split; reflexivity|].
  intros H. pose proof (unit_factor_unknown units H) as Hu.
  repeat split.
  - unfold lines_to_points. cbn [for_each]. unfold lines_body. cbn [snd].
    rewrite py_index_first, py_index_second.
    cbn [bind]. rewrite Hu. reflexivity.
  - unfold arc_to_lines. cbn [for_each]. unfold arcs_body. cbn [snd].
    rewrite py_index_first, py_index_second. cbn [bind].
    rewrite py_index_first, py_index_second, py_index_third.
    cbn [bind]. rewrite Hu. reflexivity.
  - unfold ellipse_to_arcs. cbn [lfor_each]. unfold ellipse_body. cbn [snd].
    rewrite py_index_first, py_index_second, py_index_third.
    unfold lbind, lift. cbv beta iota. rewrite !py_index_first.
    cbv beta iota. rewrite Hu. reflexivity.
Qed.

Lemma stages_check_units_per_item_witness :
  lines_to_points [rising_line] (PyInt 2) 0%float "furlong"
    = Raise (InvalidUnits "furlong") /\
  arc_to_lines series_math [circle_arc] (PyInt 4) 0%float "furlong"
    = Raise (InvalidUnits "furlong") /\
  ellipse_to_arcs series_math [raised_ellipse] (PyInt 2) 0%float "furlong" []
    = ([], Raise (InvalidUnits "furlong")).
Proof.
  destruct (stages_check_units_per_item series_math "furlong" (PyInt 2) 0%float []
              "LINE:0" [0; 0; 0]%float [10; 10; 0]%float [0; 0; 0]%float
              20000 0 360 4 0.5 [] [] [] []) as [_ H].
  destruct (H eq_refl) as (Hl & _ & _).
  destruct (stages_check_units_per_item series_math "furlong" (PyInt 4) 0%float []
              "ARC:0" [0; 0; 0]%float [0; 0; 0]%float [0; 0; 0]%float
              20000 0 360 4 0.5 [] [] [] []) as [_ H'].
  destruct (H' eq_refl) as (_ & Ha & _).
  destruct (stages_check_units_per_item series_math "furlong" (PyInt 2) 0%float []
              "ELLIPSE:0" [0; 0; 0]%float [0; 0; 0]%float [1; 2; 3]%float
              20000 0 360 4 0.5 [] [0; 0]%float [] []) as [_ H''].
  destruct (H'' eq_refl) as (_ & _ & He).
  split; [exact Hl|]. split; [exact Ha | exact He].
Defined.

(** ** What the stages return: names, shapes and counts *)

Lemma for_each_steps {S X : Type} (P : S -> Prop) (f : S -> nat) (c : nat)
    (body : S -> X -> result S) :
  (forall s x s', P s -> body s x = Ok s' -> P s' /\ f s' = (f s + c)%nat) ->
  forall xs s s',
    P s -> for_each body xs s = Ok s' ->
    P s' /\ f s' = (f s + c * List.length xs)%nat.
Proof.
  intros Hbody xs. induction xs as [|x xs IH]; intros s s' Hs H.
  - simpl in H. inversion H. subst. split; [exact Hs|]. simpl. lia.
  - simpl in H. apply bind_ok in H. destruct H as [s1 [H1 H2]].
    destruct (Hbody _ _ _ Hs H1) as [Hs1 Hf1].
    destruct (IH _ _ Hs1 H2) as [Hs' Hf'].
    split; [exact Hs'|]. rewrite Hf', Hf1. simpl. lia.
Qed.

Lemma well_numbered_nil (tag : string) (shape : list (list float) -> Prop) :
  well_numbered tag shape [].
Proof. intros i item H. destruct i; discriminate H. Qed.

Lemma well_numbered_snoc (tag : string) (shape : list (list float) -> Prop)
    (items : TGeometryList) (v : list (list float)) :
  well_numbered tag shape items -> shape v ->
  well_numbered tag shape
    (items ++ [(item_name tag (Z.of_nat (List.length items)), v)]).
Proof.
  intros Hw Hv i item H.
  destruct (Nat.lt_ge_cases i (List.length items)) as [Hlt | Hge].
  - rewrite nth_error_app1 in H by exact Hlt. apply Hw. exact H.
  - rewrite nth_error_app2 in H by exact Hge.
    destruct (i - List.length items)%nat as [|k] eqn:E.
    + simpl in H. inversion H. subst item. simpl.
      replace i with (List.length items) by lia. split; [reflexivity | exact Hv].
    + simpl in H. destruct k; discriminate H.
Qed.

Lemma emit_point_step (start_point end_point : list float)
    (x_difference : option float) (slope y_intercept : float)
    (acc acc' : TGeometryList * Z) (index : Z) :
  numbered_acc "POINT" point_shape acc ->
  emit_point start_point end_point x_difference slope y_intercept acc index
    = Ok acc' ->
  numbered_acc "POINT" point_shape acc' /\
  List.length (fst acc') = (List.length (fst acc) + 1)%nat.
Proof.
  destruct acc as [points point_index]. intros [Hw Hi] H. simpl in Hw, Hi.
  unfold emit_point in H. invert_binds H. inversion H. subst acc'.
  unfold numbered_acc. cbn [fst snd].
  split; [split|].
  - rewrite Hi. apply well_numbered_snoc; [exact Hw|].
    unfold point_shape. eauto.
  - rewrite length_app. simpl. lia.
  - rewrite length_app. reflexivity.
Qed.

Lemma effective_segments_truthy (n : Z) :
  truthy (PyInt (effective_segments n)) = true.
Proof.
  unfold effective_segments. destruct (n =? 0) eqn:E; simpl.
  - reflexivity.
  - rewrite E. reflexivity.
Qed.

(** One pass over a line: [effective_segments] more points, and the count
    the next pass works with. *)
Lemma lines_body_step (units : string) (n : Z) (st st' : lines_state)
    (line : TGeometryItem) :
  ls_num_segments st = PyInt n ->
  numbered_acc "POINT" point_shape (ls_points st, ls_point_index st) ->
  lines_body units st line = Ok st' ->
  ls_num_segments st' = PyInt (effective_segments n) /\
  numbered_acc "POINT" point_shape (ls_points st', ls_point_index st') /\
  List.length (ls_points st')
  = (List.length (ls_points st) + Z.to_nat (effective_segments n))%nat.
Proof.
  intros Hn Hacc H. unfold lines_body in H.
  apply bind_ok in H. destruct H as [start_point [_ H]].
  apply bind_ok in H. destruct H as [end_point [_ H]].
  apply bind_ok in H. destruct H as [cf [_ H]].
  apply bind_ok in H. destruct H as [seg [Hseg H]].
  destruct seg as [[num_segments segment_length] x_difference].
  assert (Hnum : num_segments = PyInt (effective_segments n) \/
                 exists f, num_segments = PyFloat f).
  { unfold lines_segmentation in Hseg. rewrite Hn in Hseg.
    unfold effective_segments. simpl truthy in Hseg.
    destruct (n =? 0) eqn:E; simpl negb in Hseg; cbv iota in Hseg.
    - destruct (float_truthy (ls_segment_length st)).
      + invert_binds Hseg. inversion Hseg. right. eauto.
      + invert_binds Hseg. inversion Hseg. left. reflexivity.
    - invert_binds Hseg. inversion Hseg. left. reflexivity. }
  invert_binds H.
  destruct Hnum as [Hnum | [f Hnum]]; subst num_segments;
    match goal with
    | E : py_range _ = Ok ?l |- _ =>
        unfold py_range in E; inversion E; try subst l
    end.
  match goal with
  | E : for_each _ _ _ = Ok _ |- _ => rename E into Hloop
  end.
  apply (for_each_steps (numbered_acc "POINT" point_shape)
           (fun acc => List.length (fst acc)) 1) in Hloop.
  - destruct Hloop as [Hacc' Hlen]. cbn [fst] in Hlen.
    rewrite length_map, length_seq in Hlen.
    inversion H. cbn [ls_points ls_point_index ls_num_segments].
    split; [reflexivity|]. split.
    + destruct Hacc' as [Hw Hi]. split; assumption.
    + rewrite Hlen. lia.
  - intros s x' s' Hs Hstep. cbv beta.
    exact (emit_point_step _ _ _ _ _ _ _ _ Hs Hstep).
  - exact Hacc.
Qed.

Lemma effective_segments_idem (n : Z) :
  effective_segments (effective_segments n) = effective_segments n.
Proof.
  unfold effective_segments. destruct (n =? 0) eqn:E; [reflexivity|].
  rewrite E. reflexivity.
Qed.

(** X6: whenever [lines_to_points] returns for an int [num_segments = n],
    it returns [effective_segments n] points for every line ([n] itself, 10
    when [n] is 0, none when [n] is negative), named POINT:0, POINT:1, ...
    in order across all lines, each one tuple [(x, y, 0.0)]. *)
Theorem lines_to_points_numbered (given_lines : TGeometryList) (n : Z)
    (segment_length : float) (units : string) (points : TGeometryList) :
  lines_to_points given_lines (PyInt n) segment_length units = Ok points ->
  well_numbered "POINT" point_shape points /\
  List.length points
  = (Z.to_nat (effective_segments n) * List.length given_lines)%nat.
Proof.
  intros H. unfold lines_to_points in H.
  apply bind_ok in H. destruct H as [st [Hloop H]]. inversion H. subst points.
  destruct given_lines as [|line rest].
  - simpl in Hloop. inversion Hloop. simpl.
    split; [apply well_numbered_nil | lia].
  - simpl in Hloop. apply bind_ok in Hloop. destruct Hloop as [st1 [H1 Hrest]].
    apply (lines_body_step units n) in H1;
      [ | reflexivity | split; [apply well_numbered_nil | reflexivity] ].
    destruct H1 as (Hn1 & Hacc1 & Hlen1). simpl in Hlen1.
    apply (for_each_steps
             (fun st => ls_num_segments st = PyInt (effective_segments n) /\
                        numbered_acc "POINT" point_shape
                          (ls_points st, ls_point_index st))
             (fun st => List.length (ls_points st))
             (Z.to_nat (effective_segments n))) in Hrest.
    + destruct Hrest as [[_ [Hw _]] Hlen]. split; [exact Hw|].
      rewrite Hlen, Hlen1. simpl. lia.
    + intros s x s' [Hs Hacc] Hstep.
      apply (lines_body_step units (effective_segments n)) in Hstep;
        [ | exact Hs | exact Hacc ].
      rewrite effective_segments_idem in Hstep.
      destruct Hstep as (Hn' & Hacc' & Hlen').
      split; [split; assumption | exact Hlen'].
    + split; assumption.
Qed.

Lemma lines_to_points_numbered_witness :
  exists points,
    lines_to_points [falling_line; rising_line] (PyInt 0) 0%float "um" = Ok points /\
    well_numbered "POINT" point_shape points /\
    List.length points = 20%nat.
Proof.
  eexists. split; [vm_compute; reflexivity|].
  apply (lines_to_points_numbered [falling_line; rising_line] 0 0%float "um").
  vm_compute. reflexivity.
Defined.

Lemma py_index_in {A : Type} (l : list A) (i : Z) (a : A) :
  py_index l i = Ok a -> In a l.
Proof.
  unfold py_index.
  destruct ((_ <? 0) || (_ <=? _)); [discriminate|].
  destruct (nth_error l _) eqn:E; intros H; inversion H. subst.
  eapply nth_error_In. exact E.
Qed.

Lemma scale_length (cf : float) (p : list float) :
  List.length (scale cf p) = List.length p.
Proof. unfold scale. apply length_map. Qed.

Section ArcShape.

Variable m : MathModule.

Lemma arc_point_step (center : list float) (radius start_angle segment_angle cf : float)
    (points points' : list (list float)) (index : Z) :
  Forall (fun p => List.length p = 3%nat) points ->
  arc_point m center radius start_angle segment_angle cf points index = Ok points' ->
  Forall (fun p => List.length p = 3%nat) points'.
Proof.
  intros Hp H. unfold arc_point in H. invert_binds H. inversion H.
  apply Forall_app. split; [exact Hp|]. constructor; [reflexivity | constructor].
Qed.

Lemma for_each_invariant {S X : Type} (P : S -> Prop) (body : S -> X -> result S) :
  (forall s x s', P s -> body s x = Ok s' -> P s') ->
  forall xs s s', P s -> for_each body xs s = Ok s' -> P s'.
Proof.
  intros Hbody xs s s' Hs H.
  apply (for_each_steps P (fun _ => 0%nat) 0) in H; [tauto | | exact Hs].
  intros s0 x s0' Hs0 H0. split; [eapply Hbody; eauto | reflexivity].
Qed.

Lemma arc_line_step (cf : float) (points : list (list float))
    (acc acc' : TGeometryList * Z) (index : Z) :
  Forall (fun p => List.length p = 3%nat) points ->
  numbered_acc "LINE" line_shape acc ->
  arc_line cf points acc index = Ok acc' ->
  numbered_acc "LINE" line_shape acc'.
Proof.
  destruct acc as [lines line_index]. intros Hp [Hw Hi] H. simpl in Hw, Hi.
  unfold arc_line in H.
  apply bind_ok in H. destruct H as [p [Hp1 H]].
  apply bind_ok in H. destruct H as [q [Hq1 H]].
  inversion H. subst acc'. split; simpl.
  - rewrite Hi. apply well_numbered_snoc; [exact Hw|].
    exists (scale cf p), (scale cf q). rewrite !scale_length.
    rewrite Forall_forall in Hp.
    split; [reflexivity|].
    split; apply Hp; eapply py_index_in; eauto.
  - rewrite length_app. simpl. lia.
Qed.

Lemma arc_closing_step (cf start_angle end_angle : float) (num_segments : pynum)
    (points : list (list float)) (acc acc' : TGeometryList * Z) :
  Forall (fun p => List.length p = 3%nat) points ->
  numbered_acc "LINE" line_shape acc ->
  arc_closing cf start_angle end_angle num_segments points acc = Ok acc' ->
  numbered_acc "LINE" line_shape acc'.
Proof.
  destruct acc as [lines line_index]. intros Hp [Hw Hi] H. simpl in Hw, Hi.
  unfold arc_closing in H.
  destruct (end_angle - start_angle =? 360)%float.
  - apply bind_ok in H. destruct H as [p [Hp1 H]].
    apply bind_ok in H. destruct H as [q [Hq1 H]].
    inversion H. subst acc'. split; simpl.
    + rewrite Hi. apply well_numbered_snoc; [exact Hw|].
      exists (scale cf p), (scale cf q). rewrite !scale_length.
      rewrite Forall_forall in Hp.
      split; [reflexivity|]. split; apply Hp.
      * destruct num_segments; [|discriminate Hp1].
        eapply py_index_in; eauto.
      * eapply py_index_in; eauto.
    + rewrite length_app. simpl. lia.
  - inversion H. subst acc'. split; assumption.
Qed.

Lemma arcs_body_step (segment_length : float) (units : string)
    (st st' : arcs_state) (arc : TGeometryItem) :
  numbered_acc "LINE" line_shape (as_lines st, as_line_index st) ->
  arcs_body m segment_length units st arc = Ok st' ->
  numbered_acc "LINE" line_shape (as_lines st', as_line_index st').
Proof.
  intros Hacc H. unfold arcs_body in H.
  repeat (apply bind_ok in H; destruct H as [? [? H]];
          try match type of H with
              | context [match ?c with (_, _) => _ end] =>
                  destruct c as [num_segments segment_angle]
              end).
  match goal with
  | E : for_each (arc_point _ _ _ _ _ _) _ [] = Ok ?ps |- _ =>
      rename E into Hsample;
      assert (Hpts : Forall (fun p => List.length p = 3%nat) ps)
  end.
  { apply (for_each_invariant (fun ps => Forall (fun p => List.length p = 3%nat) ps)
             _ (fun s i s' => arc_point_step _ _ _ _ _ s s' i)) in Hsample;
      [exact Hsample | constructor]. }
  match goal with
  | E : for_each (arc_line _ _) _ _ = Ok _ |- _ => rename E into Hchords
  end.
  apply (for_each_invariant (numbered_acc "LINE" line_shape)
           _ (fun s i s' => arc_line_step _ _ s s' i Hpts)) in Hchords;
    [ | exact Hacc ].
  match goal with
  | E : arc_closing _ _ _ _ _ _ = Ok _ |- _ => rename E into Hclose
  end.
  apply (arc_closing_step _ _ _ _ _ _ _ Hpts Hchords) in Hclose.
  inversion H. cbn [as_lines as_line_index].
  destruct Hclose as [Hw Hi]. split; assumption.
Qed.

End ArcShape.

(** X7: whenever [arc_to_lines] returns, in any of its three modes, the
    lines are named LINE:0, LINE:1, ... in order across all arcs, and each
    is two end points of three coordinates. *)
Theorem arc_to_lines_numbered (m : MathModule) (given_arcs : TGeometryList)
    (num_segments : pynum) (segment_length : float) (units : string)
    (lines : TGeometryList) :
  arc_to_lines m given_arcs num_segments segment_length units = Ok lines ->
  well_numbered "LINE" line_shape lines.
Proof.
  intros H. unfold arc_to_lines in H.
  apply bind_ok in H. destruct H as [st [Hloop H]]. inversion H. subst lines.
  apply (for_each_invariant
           (fun st => numbered_acc "LINE" line_shape (as_lines st, as_line_index st))
           _ (fun s a s' => arcs_body_step m segment_length units s s' a))
    in Hloop.
  - destruct Hloop as [Hw _]. exact Hw.
  - split; [apply well_numbered_nil | reflexivity].
Qed.

Lemma arc_to_lines_numbered_witness :
  exists lines,
    arc_to_lines series_math [half_arc; circle_arc] (PyInt 0) 10000%float "um"
      = Ok lines /\
    List.length lines = 13%nat /\
    well_numbered "LINE" line_shape lines.
Proof.
  eexists. split; [vm_compute; reflexivity|]. split; [reflexivity|].
  apply (arc_to_lines_numbered series_math [half_arc; circle_arc] (PyInt 0)
           10000%float "um").
  vm_compute. reflexivity.
Defined.

Section EllipseShape.

Variable m : MathModule.

Lemma build_arc_shape (cf : float) (cx cy : option float)
    (p1x p1y p3x p3y : float) (arc_index : Z) (arc : TGeometryItem) :
  build_arc m cf cx cy p1x p1y p3x p3y arc_index = Ok arc ->
  fst arc = item_name "ARC" arc_index /\ arc_shape (snd arc).
Proof.
  intros H. unfold build_arc in H. invert_binds H. inversion H.
  split; [reflexivity|]. unfold arc_shape. cbn [snd]. eauto 10.
Qed.

Lemma ellipse_arc_step (cf : float) (points : list (list float))
    (acc acc' : TGeometryList * Z * option float * option float)
    (index : Z) (log log' : list string) :
  numbered_acc "ARC" arc_shape (fst (fst acc)) ->
  ellipse_arc m cf points acc index log = (log', Ok acc') ->
  numbered_acc "ARC" arc_shape (fst (fst acc')) /\
  List.length (fst (fst (fst acc'))) = (List.length (fst (fst (fst acc))) + 1)%nat.
Proof.
  destruct acc as [[[arcs arc_index] old_cx] old_cy]. cbn [fst].
  intros [Hw Hi] H. cbn [fst snd] in Hw, Hi.
  unfold ellipse_arc in H. invert_lbinds H.
  match type of H with
  | context [match ?c with (_, _) => _ end] => destruct c as [cx cy]
  end.
  apply lbind_ok in H. destruct H as [arc [log2 [Harc H]]].
  apply lift_ok in Harc. destruct Harc as [Harc _].
  apply build_arc_shape in Harc. destruct Harc as [Hname Hshape].
  unfold lret in H. inversion H. unfold numbered_acc. cbn [fst snd].
  split; [split|].
  - destruct arc as [name payload]. cbn [fst snd] in Hname, Hshape.
    subst name. rewrite Hi. apply well_numbered_snoc; assumption.
  - rewrite length_app. simpl. lia.
  - rewrite length_app. reflexivity.
Qed.

Lemma ellipse_segmentation_plan (major_radius minor_radius cf : float) (n : Z)
    (segment_length : float) (log log' : list string) (plan : ellipse_plan) :
  ellipse_segmentation major_radius minor_radius cf (PyInt n) segment_length log
    = (log', Ok plan) ->
  (plan = Skip /\ ellipse_segments n segment_length = 0 /\ n = 0) \/
  exists angle, plan = Sample (PyInt (ellipse_segments n segment_length)) angle.
Proof.
  intros H. unfold ellipse_segmentation in H. unfold ellipse_segments.
  cbn [truthy] in H.
  destruct (n =? 0) eqn:E; cbn [negb] in H; cbv iota in H.
  - apply Z.eqb_eq in E. subst n.
    destruct (float_truthy segment_length); cbv iota in H.
    + invert_lbinds H.
      match type of H with
      | context [if ?c then _ else _] => destruct c
      end.
      * invert_lbinds H. unfold lret in H. inversion H.
        left. repeat split; reflexivity.
      * invert_lbinds H. unfold lret in H. inversion H.
        right. eexists. reflexivity.
    + invert_lbinds H. unfold lret in H. inversion H.
      right. eexists. reflexivity.
  - invert_lbinds H. unfold lret in H. inversion H.
    right. eexists. reflexivity.
Qed.

Lemma ellipse_segments_idem (n : Z) (segment_length : float) :
  ellipse_segments (ellipse_segments n segment_length) segment_length
  = ellipse_segments n segment_length.
Proof.
  unfold ellipse_segments. destruct (n =? 0) eqn:E.
  - destruct (float_truthy segment_length); reflexivity.
  - rewrite E. reflexivity.
Qed.

Lemma ellipse_body_step (n : Z) (segment_length : float) (units : string)
    (st st' : ellipse_state) (ellipse : TGeometryItem) (log log' : list string) :
  es_num_segments st = PyInt n ->
  numbered_acc "ARC" arc_shape (es_arcs st, es_arc_index st) ->
  ellipse_body m segment_length units st ellipse log = (log', Ok st') ->
  es_num_segments st' = PyInt (ellipse_segments n segment_length) /\
  numbered_acc "ARC" arc_shape (es_arcs st', es_arc_index st') /\
  List.length (es_arcs st')
  = (List.length (es_arcs st)
     + Z.to_nat (ellipse_segments n segment_length))%nat.
Proof.
  intros Hn Hacc H. unfold ellipse_body in H. invert_lbinds H.
  match goal with
  | E : ellipse_segmentation _ _ _ _ _ _ = _ |- _ =>
      rewrite Hn in E; apply ellipse_segmentation_plan in E;
      destruct E as [(Hplan & Hzero & Hn0) | [angle Hplan]]
  end.
  - subst. unfold lret in H. inversion H. subst st'.
    rewrite Hzero, Hn. split; [reflexivity|]. split; [exact Hacc|].
    simpl. lia.
  - rewrite Hplan in H. invert_lbinds H.
    match type of H with
    | context [match ?c with (_, _) => _ end] =>
        destruct c as [[[arcs arc_index] cx] cy]
    end.
    unfold lret in H. inversion H. cbn [es_arcs es_arc_index es_num_segments].
    split; [reflexivity|].
    match goal with
    | E : lift (py_range (PyInt _)) _ = (_, Ok ?l) |- _ =>
        apply lift_ok in E; destruct E as [E _]; unfold py_range in E;
        inversion E; try subst l
    end.
    match goal with
    | E : lfor_each (ellipse_arc _ _ _) _ _ _ = _ |- _ => rename E into Hloop
    end.
    apply (lfor_each_steps
             (fun acc : TGeometryList * Z * option float * option float =>
                numbered_acc "ARC" arc_shape (fst (fst acc)))
             (fun acc => List.length (fst (fst (fst acc)))) 1) in Hloop.
    + destruct Hloop as [Hacc' Hlen]. cbn [fst] in Hacc', Hlen.
      rewrite length_map, length_seq in Hlen.
      split; [exact Hacc' | rewrite Hlen; lia].
    + intros s x' l l' s' Hs Hstep. cbv beta.
      exact (ellipse_arc_step _ _ _ _ _ _ _ Hs Hstep).
    + exact Hacc.
Qed.

End EllipseShape.

(** X8: whenever [ellipse_to_arcs] returns for an int [num_segments = n],
    the arcs are named ARC:0, ARC:1, ... in order across all ellipses, each
    a centre [(x, y, 0)] and a tuple [(radius, start, end)], and there are
    [n] of them for every ellipse; with [n = 0] there are 10 per ellipse
    when no [segment_length] is given, and none at all when one is: the
    [segment_length] mode produces no arc. *)
Theorem ellipse_to_arcs_numbered (m : MathModule) (given_ellipsis : TGeometryList)
    (n : Z) (segment_length : float) (units : string)
    (log log' : list string) (arcs : TGeometryList) :
  ellipse_to_arcs m given_ellipsis (PyInt n) segment_length units log
    = (log', Ok arcs) ->
  well_numbered "ARC" arc_shape arcs /\
  List.length arcs
  = (Z.to_nat (ellipse_segments n segment_length)
     * List.length given_ellipsis)%nat.
Proof.
  intros H. unfold ellipse_to_arcs in H.
  apply lbind_ok in H. destruct H as [st [log1 [Hloop H]]].
  unfold lret in H. inversion H. subst arcs.
  destruct given_ellipsis as [|ellipse rest].
  - simpl in Hloop. unfold lret in Hloop. inversion Hloop. simpl.
    split; [apply well_numbered_nil | lia].
  - simpl in Hloop. apply lbind_ok in Hloop.
    destruct Hloop as [st1 [log2 [Hfirst Hrest]]].
    apply (ellipse_body_step m n) in Hfirst;
      [ | reflexivity | split; [apply well_numbered_nil | reflexivity] ].
    destruct Hfirst as (Hn1 & Hacc1 & Hlen1). simpl in Hlen1.
    apply (lfor_each_steps
             (fun st => es_num_segments st
                        = PyInt (ellipse_segments n segment_length) /\
                        numbered_acc "ARC" arc_shape
                          (es_arcs st, es_arc_index st))
             (fun st => List.length (es_arcs st))
             (Z.to_nat (ellipse_segments n segment_length))) in Hrest.
    + destruct Hrest as [[_ [Hw _]] Hlen]. split; [exact Hw|].
      rewrite Hlen, Hlen1. simpl. lia.
    + intros s x l l' s' [Hs Hacc] Hstep.
      apply (ellipse_body_step m (ellipse_segments n segment_length)) in Hstep;
        [ | exact Hs | exact Hacc ].
      rewrite ellipse_segments_idem in Hstep.
      destruct Hstep as (Hn' & Hacc' & Hlen').
      split; [split; assumption | exact Hlen'].
    + split; assumption.
Qed.

Lemma ellipse_to_arcs_numbered_witness :
  exists arcs,
    ellipse_to_arcs series_math [raised_ellipse; flat_ellipse] (PyInt 3) 0%float
      "um" [] = ([], Ok arcs) /\
    well_numbered "ARC" arc_shape arcs /\
    List.length arcs = 6%nat.
Proof.
  eexists. split; [vm_compute; reflexivity|].
  apply (ellipse_to_arcs_numbered series_math [raised_ellipse; flat_ellipse] 3
           0%float "um" [] []).
  vm_compute. reflexivity.
Defined.

(** ** [lines_to_points]: inputs that never give points *)

Lemma for_each_raises {S X : Type} (body : S -> X -> result S) (x : X)
    (xs : list X) :
  In x xs -> (forall s, exists e, body s x = Raise e) ->
  forall s, exists e, for_each body xs s = Raise e.
Proof.
  intros Hin Hx. induction xs as [|y ys IH]; [destruct Hin|].
  intros s. simpl. destruct (body s y) as [s'|e] eqn:E.
  - simpl. destruct Hin as [Hy | Hys].
    + subst y. destruct (Hx s) as [e He]. rewrite He in E. discriminate E.
    + apply IH. exact Hys.
  - simpl. eauto.
Qed.

Lemma lines_body_vertical (units : string) (st : lines_state) (name : string)
    (x0 y0 z0 x1 y1 z1 : float) :
  (x0 - x1 =? 0)%float = true ->
  exists e, lines_body units st (name, [[x0; y0; z0]; [x1; y1; z1]]) = Raise e.
Proof.
  intros Hx.
  destruct (lines_body units st (name, [[x0; y0; z0]; [x1; y1; z1]]))
    as [st'|e] eqn:E; [exfalso | eauto].
  unfold lines_body in E. cbn [snd] in E.
  rewrite py_index_first, py_index_second in E. cbn [bind] in E.
  apply bind_ok in E. destruct E as [cf [_ E]].
  apply bind_ok in E. destruct E as [[[ns sl] xd] [_ E]].
  repeat (progress (rewrite ?py_index_first, ?py_index_second in E;
                    cbn [bind] in E)).
  rewrite (fdiv_zero _ _ Hx) in E. discriminate E.
Qed.

(** X9: a batch that contains a vertical line (the divisor
    [start.x - end.x] of the slope is zero) never gives points: the call
    raises, whatever the other lines, the segmentation parameters and the
    unit. *)
Theorem vertical_line_poisons_batch (given_lines : TGeometryList)
    (name : string) (x0 y0 z0 x1 y1 z1 : float)
    (num_segments : pynum) (segment_length : float) (units : string) :
  (x0 - x1 =? 0)%float = true ->
  In (name, [[x0; y0; z0]; [x1; y1; z1]]) given_lines ->
  exists e,
    lines_to_points given_lines num_segments segment_length units = Raise e.
Proof.
  intros Hx Hin. unfold lines_to_points.
  destruct (for_each_raises (lines_body units) _ given_lines Hin
              (fun s => lines_body_vertical units s name x0 y0 z0 x1 y1 z1 Hx)
              {| ls_points := []; ls_point_index := 0;
                 ls_num_segments := num_segments;
                 ls_segment_length := segment_length;
                 ls_x_difference := None |}) as [e He].
  rewrite He. simpl. eauto.
Qed.

Lemma vertical_line_poisons_batch_witness :
  exists e,
    lines_to_points [falling_line; rising_line; vertical_line] (PyInt 4) 0%float
      "mm" = Raise e.
Proof.
  apply (vertical_line_poisons_batch [falling_line; rising_line; vertical_line]
           "LINE:0" 0 0 0 0 10 0 (PyInt 4) 0%float "mm").
  - reflexivity.
  - right. right. left. reflexivity.
Defined.

Lemma lines_body_segment_length (units : string) (st : lines_state)
    (line : TGeometryItem) :
  ls_num_segments st = PyInt 0 ->
  float_truthy (ls_segment_length st) = true ->
  exists e, lines_body units st line = Raise e.
Proof.
  intros Hn Hs.
  destruct (lines_body units st line) as [st'|e] eqn:E; [exfalso | eauto].
  unfold lines_body in E.
  apply bind_ok in E. destruct E as [start_point [_ E]].
  apply bind_ok in E. destruct E as [end_point [_ E]].
  apply bind_ok in E. destruct E as [cf [_ E]].
  apply bind_ok in E. destruct E as [[[ns sl] xd] [Hseg E]].
  unfold lines_segmentation in Hseg. rewrite Hn, Hs in Hseg.
  cbn [truthy Z.eqb negb] in Hseg.
  invert_binds Hseg. inversion Hseg. subst ns.
  invert_binds E.
  match goal with
  | R : py_range (PyFloat _) = Ok _ |- _ => discriminate R
  end.
Qed.

(** X10: without [num_segments], a non-zero [segment_length] never gives
    points from a non-empty list: the branch leaves a float in
    [num_segments], and the call raises at the first line at the latest. *)
Theorem lines_to_points_segment_length_raises (line : TGeometryItem)
    (rest : TGeometryList) (segment_length : float) (units : string) :
  float_truthy segment_length = true ->
  exists e,
    lines_to_points (line :: rest) (PyInt 0) segment_length units = Raise e.
Proof.
  intros Hs. unfold lines_to_points. cbn [for_each].
  destruct (lines_body_segment_length units
              {| ls_points := []; ls_point_index := 0;
                 ls_num_segments := PyInt 0;
                 ls_segment_length := segment_length;
                 ls_x_difference := None |} line eq_refl Hs) as [e He].
  rewrite He. simpl. eauto.
Qed.

Lemma lines_to_points_segment_length_raises_witness :
  exists e,
    lines_to_points [falling_line] (PyInt 0) 1000%float "um" = Raise e.
Proof.
  apply (lines_to_points_segment_length_raises falling_line [] 1000%float "um").
  reflexivity.
Defined.

(** ** [convert_to]: the chain and the resolver *)

Lemma convert_to_depth_same (m : MathModule) (d : nat) (kind : string)
    (geometry : TGeometryList) (n : pynum) (l : float) (u : string)
    (log : list string) :
  convert_to_depth m (S d) kind kind geometry n l u log
  = (log, Ok (Some geometry)).
Proof. cbn [convert_to_depth]. rewrite String.eqb_refl. reflexivity. Qed.

(** The six conversions of the chain, stage by stage. *)
Lemma convert_to_chain_form (m : MathModule) (g : TGeometryList) (n : pynum)
    (l : float) (u : string) (log : list string) :
  let to_points (lines : TGeometryList) :=
    match lines_to_points lines (PyInt 0) 0%float "um" with
    | Ok points => Ok (Some points)
    | Raise e => Raise e
    end in
  let to_lines (k : TGeometryList -> result (option TGeometryList))
      (arcs : TGeometryList) :=
    match arc_to_lines m arcs (PyInt 0) 0%float "um" with
    | Ok lines => k lines
    | Raise e => Raise e
    end in
  convert_to m "LINE" "POINT" g n l u log =
    (log, match lines_to_points g n l u with
          | Ok points => Ok (Some points)
          | Raise e => Raise e
          end) /\
  convert_to m "ARC" "LINE" g n l u log =
    (log, match arc_to_lines m g n l u with
          | Ok lines => Ok (Some lines)
          | Raise e => Raise e
          end) /\
  convert_to m "ARC" "POINT" g n l u log =
    (log, match arc_to_lines m g n l u with
          | Ok lines => to_points lines
          | Raise e => Raise e
          end) /\
  convert_to m "ELLIPSE" "ARC" g n l u log =
    (let (log1, r) := ellipse_to_arcs m g n l u log in
     (log1, match r with
            | Ok arcs => Ok (Some arcs)
            | Raise e => Raise e
            end)) /\
  convert_to m "ELLIPSE" "LINE" g n l u log =
    (let (log1, r) := ellipse_to_arcs m g n l u log in
     (log1, match r with
            | Ok arcs => to_lines (fun lines => Ok (Some lines)) arcs
            | Raise e => Raise e
            end)) /\
  convert_to m "ELLIPSE" "POINT" g n l u log =
    (let (log1, r) := ellipse_to_arcs m g n l u log in
     (log1, match r with
            | Ok arcs => to_lines to_points arcs
            | Raise e => Raise e
            end)).
Proof.
  intros to_points to_lines. subst to_points to_lines.
  repeat split; rewrite (convert_to_unfold m 4) by apply chain_depth_le_4.
  - rewrite convert_to_depth_line by reflexivity.
    destruct (lines_to_points g n l u); [apply convert_to_depth_same | reflexivity].
  - rewrite convert_to_depth_arc by reflexivity.
    destruct (arc_to_lines m g n l u); [apply convert_to_depth_same | reflexivity].
  - rewrite convert_to_depth_arc by reflexivity.
    destruct (arc_to_lines m g n l u); [|reflexivity].
    rewrite convert_to_depth_line by reflexivity.
    destruct (lines_to_points _ _ _ _); [apply convert_to_depth_same | reflexivity].
  - rewrite convert_to_depth_ellipse by reflexivity.
    destruct (ellipse_to_arcs m g n l u log) as [log1 [arcs|e]];
      [apply convert_to_depth_same | reflexivity].
  - rewrite convert_to_depth_ellipse by reflexivity.
    destruct (ellipse_to_arcs m g n l u log) as [log1 [arcs|e]]; [|reflexivity].
    rewrite convert_to_depth_arc by reflexivity.
    destruct (arc_to_lines _ _ _ _ _); [apply convert_to_depth_same | reflexivity].
  - rewrite convert_to_depth_ellipse by reflexivity.
    destruct (ellipse_to_arcs m g n l u log) as [log1 [arcs|e]]; [|reflexivity].
    rewrite convert_to_depth_arc by reflexivity.
    destruct (arc_to_lines _ _ _ _ _); [|reflexivity].
    rewrite convert_to_depth_line by reflexivity.
    destruct (lines_to_points _ _ _ _); [apply convert_to_depth_same | reflexivity].
Qed.

(** X11: a conversion over several steps gives the caller's
    [num_segments], [min_length] and [units] to its first stage only: every
    later stage runs with the defaults (no count, no length, ['um']), that
    is with 10 segments. An arc cut into [n] lines and on into points is
    [lines_to_points] with defaults of [arc_to_lines] with [n]; an ellipse
    likewise through [ellipse_to_arcs], [arc_to_lines], [lines_to_points]; an
    exception of any stage ends the conversion. *)
Theorem convert_to_later_stages_use_defaults (m : MathModule)
    (g : TGeometryList) (n : pynum) (l : float) (u : string)
    (log : list string) :
  convert_to m "ARC" "POINT" g n l u log =
    (log, match arc_to_lines m g n l u with
          | Ok lines =>
              match lines_to_points lines (PyInt 0) 0%float "um" with
              | Ok points => Ok (Some points)
              | Raise e => Raise e
              end
          | Raise e => Raise e
          end) /\
  convert_to m "ELLIPSE" "LINE" g n l u log =
    (let (log1, r) := ellipse_to_arcs m g n l u log in
     (log1, match r with
            | Ok arcs =>
                match arc_to_lines m arcs (PyInt 0) 0%float "um" with
                | Ok lines => Ok (Some lines)
                | Raise e => Raise e
                end
            | Raise e => Raise e
            end)) /\
  convert_to m "ELLIPSE" "POINT" g n l u log =
    (let (log1, r) := ellipse_to_arcs m g n l u log in
     (log1, match r with
            | Ok arcs =>
                match arc_to_lines m arcs (PyInt 0) 0%float "um" with
                | Ok lines =>
                    match lines_to_points lines (PyInt 0) 0%float "um" with
                    | Ok points => Ok (Some points)
                    | Raise e => Raise e
                    end
                | Raise e => Raise e
                end
            | Raise e => Raise e
            end)).
Proof.
  pose proof (convert_to_chain_form m g n l u log) as H. cbv zeta in H.
  destruct H as (_ & _ & H1 & _ & H2 & H3).
  split; [exact H1|]. split; [exact H2 | exact H3].
Qed.

Lemma convert_to_chain_some (m : MathModule) (source target : string)
    (g : TGeometryList) (n : pynum) (l : float) (u : string)
    (log log' : list string) (r : option TGeometryList) :
  In (source, target)
     [("LINE", "POINT"); ("ARC", "LINE"); ("ARC", "POINT");
      ("ELLIPSE", "ARC"); ("ELLIPSE", "LINE"); ("ELLIPSE", "POINT")] ->
  convert_to m source target g n l u log = (log', Ok r) ->
  exists converted, r = Some converted.
Proof.
  intros Hin H.
  pose proof (convert_to_chain_form m g n l u log) as F. cbv zeta in F.
  destruct F as (F1 & F2 & F3 & F4 & F5 & F6).
  cbn [In] in Hin.
  repeat (destruct Hin as [Hin | Hin]; [inversion Hin; subst source target|]);
    [ rewrite F1 in H | rewrite F2 in H | rewrite F3 in H
    | rewrite F4 in H | rewrite F5 in H | rewrite F6 in H | contradiction ];
    try (destruct (ellipse_to_arcs m g n l u log) as [log1 [arcs|e]];
         [|discriminate H]);
    repeat match type of H with
           | context [match ?c with Ok _ => _ | Raise _ => _ end] =>
               destruct c; [|discriminate H]
           end;
    inversion H; eexists; reflexivity.
Qed.

(** X12: the resolver and [convert_to] compose on the chain. For a LINE, ARC
    or ELLIPSE source, the kind the resolver returns is one [convert_to]
    reaches from that source, and is not the source; so whenever the
    conversion to it returns, it returns a geometry list, never [None]. *)
Theorem resolved_kind_is_convertible (m : MathModule)
    (source : string) (allowedtypes : list string) (target : string)
    (g : TGeometryList) (n : pynum) (l : float) (u : string)
    (log : list string) :
  In source ["LINE"; "ARC"; "ELLIPSE"] ->
  get_hifi_geometry source allowedtypes = Ok (Some target) ->
  reachable source target = true /\
  source <> target /\
  forall log' r,
    convert_to m source target g n l u log = (log', Ok r) ->
    exists converted, r = Some converted.
Proof.
  intros Hsrc H.
  assert (Hpair : In (source, target)
     [("LINE", "POINT"); ("ARC", "LINE"); ("ARC", "POINT");
      ("ELLIPSE", "ARC"); ("ELLIPSE", "LINE"); ("ELLIPSE", "POINT")]).
  { destruct (get_hifi_geometry_chain allowedtypes) as (EE & EA & EL & _).
    cbn [In] in Hsrc.
    destruct Hsrc as [Hs | [Hs | [Hs | []]]]; subst source.
    - rewrite EL in H. case_allowed H; inversion H. cbn [In]. tauto.
    - rewrite EA in H. case_allowed H; inversion H; cbn [In]; tauto.
    - rewrite EE in H. case_allowed H; inversion H; cbn [In]; tauto. }
  split; [|split].
  - cbn [In] in Hpair.
    repeat (destruct Hpair as [Hp | Hpair];
            [inversion Hp; reflexivity|]). contradiction.
  - cbn [In] in Hpair.
    repeat (destruct Hpair as [Hp | Hpair];
            [inversion Hp; discriminate|]). contradiction.
  - intros log' r Hc.
    exact (convert_to_chain_some m source target g n l u log log' r Hpair Hc).
Qed.

Lemma resolved_kind_is_convertible_witness :
  reachable "ELLIPSE" "LINE" = true /\
  "ELLIPSE" <> "LINE" /\
  forall log' r,
    convert_to series_math "ELLIPSE" "LINE" [flat_ellipse] (PyInt 4) 0%float
      "mm" [] = (log', Ok r) ->
    exists converted, r = Some converted.
Proof.
  apply (resolved_kind_is_convertible series_math "ELLIPSE"
           ["POINT"; "LINE"; "SPLINE"] "LINE").
  - cbn [In]. tauto.
  - reflexivity.
Defined.

Lemma convert_to_no_stage (m : MathModule) (source target : string)
    (g : TGeometryList) (n : pynum) (l : float) (u : string)
    (log : list string) :
  In source ["SPLINE"; "LWPOLYLINE"] ->
  source <> target ->
  convert_to m source target g n l u log = (log, Ok None).
Proof.
  intros Hsrc Hne. apply String.eqb_neq in Hne.
  cbn [In] in Hsrc.
  destruct Hsrc as [Hs | [Hs | []]]; subst source;
    (rewrite (convert_to_unfold m 1) by (vm_compute; lia));
    apply convert_to_depth_other; (exact Hne || reflexivity).
Qed.

(** X13: for a SPLINE or LWPOLYLINE source the resolver and [convert_to] do
    not compose. Whatever kind the resolver returns for such a source,
    [convert_to] runs no stage, logs nothing and returns [None] in place of
    a geometry list. *)
Theorem spline_polyline_never_converted (m : MathModule)
    (source : string) (allowedtypes : list string) (target : string)
    (g : TGeometryList) (n : pynum) (l : float) (u : string)
    (log : list string) :
  In source ["SPLINE"; "LWPOLYLINE"] ->
  get_hifi_geometry source allowedtypes = Ok (Some target) ->
  convert_to m source target g n l u log = (log, Ok None).
Proof.
  intros Hsrc H.
  apply convert_to_no_stage; [exact Hsrc|].
  destruct (get_hifi_geometry_returns_allowed source allowedtypes target H)
    as (_ & _ & Hne).
  intros E. apply Hne. symmetry. exact E.
Qed.

Lemma spline_polyline_never_converted_witness :
  convert_to series_math "SPLINE" "LINE" [rising_line] (PyInt 4) 0%float
    "mm" [] = ([], Ok None).
Proof.
  apply (spline_polyline_never_converted series_math "SPLINE"
           ["POINT"; "LINE"] "LINE").
  - cbn [In]. tauto.
  - reflexivity.
Defined.

(** ** [arc_to_lines]: the count settled at the first arc *)

Lemma py_index_nth_error {A : Type} (l : list A) (i : nat) (a : A) :
  py_index l (Z.of_nat i) = Ok a -> nth_error l i = Some a.
Proof.
  unfold py_index.
  replace (Z.of_nat i <? 0) with false by (symmetry; apply Z.ltb_ge; lia).
  destruct ((_ <? 0) || (_ <=? _)); [discriminate|].
  rewrite Nat2Z.id. destruct (nth_error l i); intros H; inversion H.
  reflexivity.
Qed.

Lemma arc_segmentation_carried (degree radius cf : float) (k : Z)
    (segment_length : float) (num_segments : pynum) (segment_angle : float) :
  2 < k ->
  arc_segmentation degree radius cf (PyInt k) segment_length
    = Ok (num_segments, segment_angle) ->
  num_segments = PyInt k.
Proof.
  intros Hk H. unfold arc_segmentation in H. cbn [py_gt] in H.
  replace (2 <? k) with true in H by (symmetry; apply Z.ltb_lt; exact Hk).
  apply bind_ok in H. destruct H as [a [_ H]]. inversion H. reflexivity.
Qed.

Section ArcCount.

Variable m : MathModule.

Lemma arc_line_count (cf : float) (points : list (list float))
    (acc acc' : TGeometryList * Z) (index : Z) :
  arc_line cf points acc index = Ok acc' ->
  List.length (fst acc') = (List.length (fst acc) + 1)%nat.
Proof.
  destruct acc as [lines line_index]. intros H. unfold arc_line in H.
  apply bind_ok in H. destruct H as [p [_ H]].
  apply bind_ok in H. destruct H as [q [_ H]].
  inversion H. cbn [fst]. rewrite length_app. reflexivity.
Qed.

Lemma arcs_body_count (segment_length : float) (units : string)
    (st st' : arcs_state) (arc : TGeometryItem) :
  arcs_body m segment_length units st arc = Ok st' ->
  exists center radius start_angle end_angle more more' cf k segment_angle,
    snd arc = center :: (radius :: start_angle :: end_angle :: more) :: more' /\
    unit_factor units = Ok cf /\
    arc_segmentation (end_angle - start_angle)%float radius cf
      (as_num_segments st) segment_length = Ok (PyInt k, segment_angle) /\
    as_num_segments st' = PyInt k /\
    List.length (as_lines st')
    = (List.length (as_lines st) + Z.to_nat k
       + (if closes arc then 1 else 0))%nat.
Proof.
  intros H. unfold arcs_body in H.
  apply bind_ok in H. destruct H as [center [Hcenter H]].
  apply bind_ok in H. destruct H as [v1 [Hv1 H]].
  apply bind_ok in H. destruct H as [radius [Hradius H]].
  apply bind_ok in H. destruct H as [start_angle [Hstart H]].
  apply bind_ok in H. destruct H as [end_angle [Hend H]].
  apply bind_ok in H. destruct H as [cf [Hcf H]].
  apply bind_ok in H. destruct H as [[num_segments segment_angle] [Hseg H]].
  apply bind_ok in H. destruct H as [stop [_ H]].
  apply bind_ok in H. destruct H as [indices [_ H]].
  apply bind_ok in H. destruct H as [points [_ H]].
  apply bind_ok in H. destruct H as [indices' [Hrange H]].
  apply bind_ok in H. destruct H as [acc [Hchords H]].
  apply bind_ok in H. destruct H as [acc' [Hclose H]].
  apply (py_index_nth_error _ 0) in Hcenter.
  apply (py_index_nth_error _ 1) in Hv1.
  apply (py_index_nth_error _ 0) in Hradius.
  apply (py_index_nth_error _ 1) in Hstart.
  apply (py_index_nth_error _ 2) in Hend.
  destruct (snd arc) as [|c [|v more']] eqn:Hvalues; try discriminate.
  cbn [nth_error] in Hcenter, Hv1. inversion Hcenter. inversion Hv1.
  subst c v.
  destruct v1 as [|r [|s [|e more]]]; try discriminate.
  cbn [nth_error] in Hradius, Hstart, Hend.
  inversion Hradius. inversion Hstart. inversion Hend. subst r s e.
  destruct num_segments as [k|f]; [|discriminate Hrange].
  exists center, radius, start_angle, end_angle, more, more', cf, k,
    segment_angle.
  split; [reflexivity|]. split; [exact Hcf|]. split; [exact Hseg|].
  inversion H. cbn [as_lines as_num_segments]. split; [reflexivity|].
  cbn [py_range] in Hrange. inversion Hrange. subst indices'.
  apply (for_each_steps (fun _ => True)
           (fun a : TGeometryList * Z => List.length (fst a)) 1) in Hchords;
    [ | intros s0 x s0' _ H0; split; [exact I | eapply arc_line_count; exact H0]
      | exact I ].
  destruct Hchords as [_ Hchords]. cbn [fst] in Hchords.
  rewrite length_map, length_seq in Hchords.
  unfold closes. rewrite Hvalues.
  unfold arc_closing in Hclose. destruct acc as [lines line_index].
  cbn [fst] in Hchords.
  destruct (end_angle - start_angle =? 360)%float.
  - apply bind_ok in Hclose. destruct Hclose as [p [_ Hclose]].
    apply bind_ok in Hclose. destruct Hclose as [q [_ Hclose]].
    inversion Hclose. cbn [fst]. rewrite length_app, Hchords. simpl. lia.
  - inversion Hclose. subst acc'. cbn [fst]. rewrite Hchords. lia.
Qed.

Lemma arcs_loop_count (segment_length : float) (units : string) (k : Z) :
  2 < k ->
  forall (arcs : TGeometryList) (st st' : arcs_state),
    as_num_segments st = PyInt k ->
    for_each (arcs_body m segment_length units) arcs st = Ok st' ->
    List.length (as_lines st')
    = (List.length (as_lines st) + Z.to_nat k * List.length arcs
       + closing_lines arcs)%nat.
Proof.
  intros Hk arcs. induction arcs as [|arc arcs IH]; intros st st' Hn H.
  - simpl in H. inversion H. unfold closing_lines. simpl. lia.
  - cbn [for_each] in H. apply bind_ok in H. destruct H as [st1 [H1 H]].
    destruct (arcs_body_count _ _ _ _ _ H1)
      as (c & r & s & e & more & more' & cf & k1 & a & _ & _ & Hseg & Hn1 & Hlen).
    rewrite Hn in Hseg.
    apply (arc_segmentation_carried _ _ _ _ _ _ _ Hk) in Hseg.
    inversion Hseg. subst k1.
    rewrite (IH st1 st' Hn1 H), Hlen.
    unfold closing_lines. cbn [filter List.length].
    destruct (closes arc); cbn [List.length]; lia.
Qed.

End ArcCount.

(** X14: [arc_to_lines] settles [num_segments] once for the batch. When the
    block that settles it gives a count [k] above 2 at the first arc (the
    caller's count, the default 10, or the count derived from
    [segment_length] and the first arc's radius), every later arc is cut
    into [k] lines too, whatever its own radius and whatever
    [segment_length] is: a returning call gives [k] lines per arc and one
    closing line per full circle. *)
Theorem arc_to_lines_count_settled_once (m : MathModule)
    (name : string) (center : list float) (radius start_angle end_angle : float)
    (rest : TGeometryList) (num_segments : pynum) (segment_length : float)
    (units : string) (cf : float) (k : Z) (segment_angle : float)
    (lines : TGeometryList) :
  unit_factor units = Ok cf ->
  arc_segmentation (end_angle - start_angle)%float radius cf num_segments
    segment_length = Ok (PyInt k, segment_angle) ->
  2 < k ->
  arc_to_lines m ((name, [center; [radius; start_angle; end_angle]]) :: rest)
    num_segments segment_length units = Ok lines ->
  List.length lines
  = (Z.to_nat k * (1 + List.length rest)
     + closing_lines ((name, [center; [radius; start_angle; end_angle]]) :: rest))%nat.
Proof.
  intros Hcf Hseg Hk H. unfold arc_to_lines in H.
  apply bind_ok in H. destruct H as [st [Hloop H]]. inversion H. subst lines.
  cbn [for_each] in Hloop. apply bind_ok in Hloop.
  destruct Hloop as [st1 [H1 Hloop]].
  destruct (arcs_body_count m _ _ _ _ _ H1)
    as (c & r & s & e & more & more' & cf' & k1 & a & Hv & Hcf' & Hseg' & Hn1 & Hlen).
  cbn [snd] in Hv. inversion Hv. subst c r s e more more'.
  rewrite Hcf in Hcf'. inversion Hcf'. subst cf'.
  cbn [as_num_segments] in Hseg'. rewrite Hseg in Hseg'.
  inversion Hseg'. subst k1.
  rewrite (arcs_loop_count m segment_length units k Hk rest st1 st Hn1 Hloop).
  rewrite Hlen. cbn [as_lines List.length].
  unfold closing_lines. cbn [filter].
  destruct (closes _); cbn [List.length]; lia.
Qed.

Lemma arc_to_lines_count_settled_once_witness :
  exists lines,
    arc_to_lines series_math [half_arc; circle_arc] (PyInt 0) 10000%float "um"
      = Ok lines /\
    List.length lines
    = (Z.to_nat 6 * (1 + 1) + closing_lines [half_arc; circle_arc])%nat.
Proof.
  eexists. split; [vm_compute; reflexivity|].
  eapply (arc_to_lines_count_settled_once series_math "ARC:0" _ _ _ _
            [circle_arc] (PyInt 0) 10000%float "um" 1%float 6).
  - reflexivity.
  - vm_compute. reflexivity.
  - lia.
  - vm_compute. reflexivity.
Defined.

(** ** What the stages read *)

Lemma py_index_firstn {A : Type} (l : list A) (k i : nat) :
  (i < k)%nat -> py_index (firstn k l) (Z.of_nat i) = py_index l (Z.of_nat i).
Proof.
  intros Hi. unfold py_index.
  replace (Z.of_nat i <? 0) with false by (symmetry; apply Z.ltb_ge; lia).
  rewrite Nat2Z.id, length_firstn, nth_error_firstn.
  replace (i <? k)%nat with true by (symmetry; apply Nat.ltb_lt; exact Hi).
  destruct (Nat.le_gt_cases (List.length l) i) as [Hlen | Hlen].
  - replace (Z.of_nat (Nat.min k (List.length l)) <=? Z.of_nat i) with true
      by (symmetry; apply Z.leb_le; lia).
    replace (Z.of_nat (List.length l) <=? Z.of_nat i) with true
      by (symmetry; apply Z.leb_le; lia).
    rewrite !orb_true_r. reflexivity.
  - replace (Z.of_nat (Nat.min k (List.length l)) <=? Z.of_nat i) with false
      by (symmetry; apply Z.leb_gt; lia).
    replace (Z.of_nat (List.length l) <=? Z.of_nat i) with false
      by (symmetry; apply Z.leb_gt; lia).
    reflexivity.
Qed.

Lemma py_index_map {A B : Type} (f : A -> B) (l : list A) (i : Z) :
  py_index (map f l) i = (a <- py_index l i ;; Ok (f a)).
Proof.
  unfold py_index. rewrite length_map, nth_error_map.
  destruct ((_ <? 0) || (_ <=? _)); [reflexivity|].
  destruct (nth_error l _); reflexivity.
Qed.

Lemma for_each_ext {S X : Type} (f g : S -> X -> result S) :
  (forall s x, f s x = g s x) ->
  forall xs s, for_each f xs s = for_each g xs s.
Proof.
  intros H xs. induction xs as [|x xs IH]; intros s; [reflexivity|].
  cbn [for_each]. rewrite H. destruct (g s x); [apply IH | reflexivity].
Qed.

Lemma lines_segmentation_planar (start_point end_point : list float)
    (cf : float) (st : lines_state) :
  lines_segmentation (firstn 2 start_point) (firstn 2 end_point) cf st
  = lines_segmentation start_point end_point cf st.
Proof.
  unfold lines_segmentation.
  rewrite !(py_index_firstn _ 2 0), !(py_index_firstn _ 2 1) by lia.
  reflexivity.
Qed.

Lemma emit_point_planar (start_point end_point : list float)
    (x_difference : option float) (slope y_intercept : float)
    (acc : TGeometryList * Z) (index : Z) :
  emit_point (firstn 2 start_point) (firstn 2 end_point) x_difference slope
    y_intercept acc index
  = emit_point start_point end_point x_difference slope y_intercept acc index.
Proof.
  unfold emit_point. destruct acc as [points point_index].
  rewrite !(py_index_firstn _ 2 0) by lia. reflexivity.
Qed.

Lemma lines_body_planar (units : string) (st : lines_state)
    (line : TGeometryItem) :
  lines_body units st (plan_view line) = lines_body units st line.
Proof.
  unfold lines_body, plan_view. cbn [snd].
  rewrite !py_index_map.
  rewrite (py_index_firstn _ 2 0), (py_index_firstn _ 2 1) by lia.
  change (Z.of_nat 0) with 0. change (Z.of_nat 1) with 1.
  destruct (py_index (snd line) 0) as [start_point|e]; [|reflexivity].
  cbn [bind].
  destruct (py_index (snd line) 1) as [end_point|e]; [|reflexivity].
  cbn [bind].
  destruct (unit_factor units) as [cf|e]; [|reflexivity]. cbn [bind].
  rewrite lines_segmentation_planar.
  destruct (lines_segmentation start_point end_point cf st)
    as [[[num_segments segment_length] x_difference]|e]; [|reflexivity].
  cbn [bind].
  rewrite !(py_index_firstn _ 2 0), !(py_index_firstn _ 2 1) by lia.
  change (Z.of_nat 0) with 0. change (Z.of_nat 1) with 1.
  destruct (py_index start_point 1) as [s1|e]; [|reflexivity]. cbn [bind].
  destruct (py_index end_point 1) as [e1|e]; [|reflexivity]. cbn [bind].
  destruct (py_index start_point 0) as [s0|e]; [|reflexivity]. cbn [bind].
  destruct (py_index end_point 0) as [e0|e]; [|reflexivity]. cbn [bind].
  destruct (fdiv _ _) as [slope|e]; [|reflexivity]. cbn [bind].
  destruct (py_range num_segments) as [indices|e]; [|reflexivity]. cbn [bind].
  rewrite (for_each_ext _ _
             (emit_point_planar start_point end_point x_difference slope
                (s1 - slope * s0)%float)).
  reflexivity.
Qed.

(** X15: [lines_to_points] works in the plane. Of each line it reads x and
    y of the two end points and nothing else: a batch and its plan view
    (names emptied, z coordinates and any further entries dropped) give the
    same result, points or exception. *)
Theorem lines_to_points_planar (given_lines : TGeometryList)
    (num_segments : pynum) (segment_length : float) (units : string) :
  lines_to_points (map plan_view given_lines) num_segments segment_length units
  = lines_to_points given_lines num_segments segment_length units.
Proof.
  unfold lines_to_points. f_equal.
  generalize ({| ls_points := []; ls_point_index := 0;
                 ls_num_segments := num_segments;
                 ls_segment_length := segment_length;
                 ls_x_difference := None |}).
  induction given_lines as [|line rest IH]; intros st; [reflexivity|].
  cbn [map for_each]. rewrite lines_body_planar.
  destruct (lines_body units st line) as [st1|e]; [|reflexivity].
  cbn [bind]. apply IH.
Qed.

(** ** [ellipse_to_arcs]: what the unit changes *)

Lemma fdiv_ok_inv (a b c : float) : fdiv a b = Ok c -> c = (a / b)%float.
Proof.
  unfold fdiv. destruct (b =? 0)%float; intros H; inversion H. reflexivity.
Qed.

Lemma fdiv_nonzero (a b : float) :
  (b =? 0)%float = false -> fdiv a b = Ok (a / b)%float.
Proof. intros H. unfold fdiv. rewrite H. reflexivity. Qed.

Lemma unit_factor_nonzero (units : string) (cf : float) :
  unit_factor units = Ok cf -> (cf =? 0)%float = false.
Proof.
  intros H. destruct (str_in units UNIT_TABLE) eqn:E.
  - destruct (unit_factor_recognized units E) as [cf' [H' Hnz]].
    rewrite H in H'. inversion H'. exact Hnz.
  - rewrite (unit_factor_unknown units E) in H. discriminate H.
Qed.

Lemma lbind_run {A B : Type} (c : logged A) (k : A -> logged B)
    (log log1 : list string) (a : A) :
  c log = (log1, Ok a) -> lbind c k log = k a log1.
Proof. intros H. unfold lbind. rewrite H. reflexivity. Qed.

(** A pass that one loop can make, the other can make too, with the same
    log, keeping the two states related. *)
Lemma lfor_each_simulation {S1 S2 X : Type} (R : S1 -> S2 -> Prop)
    (f1 : S1 -> X -> logged S1) (f2 : S2 -> X -> logged S2) :
  (forall s1 s2 x log log' s1',
     R s1 s2 -> f1 s1 x log = (log', Ok s1') ->
     exists s2', f2 s2 x log = (log', Ok s2') /\ R s1' s2') ->
  forall xs s1 s2 log log' s1',
    R s1 s2 -> lfor_each f1 xs s1 log = (log', Ok s1') ->
    exists s2', lfor_each f2 xs s2 log = (log', Ok s2') /\ R s1' s2'.
Proof.
  intros Hstep xs. induction xs as [|x xs IH]; intros s1 s2 log log' s1' HR H.
  - cbn [lfor_each] in H |- *. unfold lret in H |- *. inversion H. subst.
    exists s2. split; [reflexivity | exact HR].
  - cbn [lfor_each] in H |- *.
    apply lbind_ok in H. destruct H as [t1 [log1 [H1 H]]].
    destruct (Hstep _ _ _ _ _ _ HR H1) as [t2 [H2 HR']].
    rewrite (lbind_run _ _ _ _ _ H2).
    exact (IH _ _ _ _ _ HR' H).
Qed.

Lemma ellipse_segmentation_units_free (major_radius minor_radius cf1 cf2 : float)
    (num_segments : pynum) (segment_length : float) :
  counted_mode num_segments segment_length ->
  ellipse_segmentation major_radius minor_radius cf1 num_segments segment_length
  = ellipse_segmentation major_radius minor_radius cf2 num_segments segment_length.
Proof.
  intros H. unfold counted_mode in H. unfold ellipse_segmentation.
  destruct (truthy num_segments); [reflexivity|].
  destruct H as [H | H]; [discriminate H|]. rewrite H. reflexivity.
Qed.

Lemma ellipse_segmentation_counted (major_radius minor_radius cf : float)
    (num_segments : pynum) (segment_length : float) (log log' : list string)
    (plan : ellipse_plan) :
  counted_mode num_segments segment_length ->
  ellipse_segmentation major_radius minor_radius cf num_segments segment_length
    log = (log', Ok plan) ->
  exists n angle, plan = Sample n angle /\ truthy n = true.
Proof.
  intros Hmode H. unfold counted_mode in Hmode.
  unfold ellipse_segmentation in H.
  destruct (truthy num_segments) eqn:Hn.
  - invert_lbinds H. unfold lret in H. inversion H. eauto.
  - destruct Hmode as [Hmode | Hmode]; [discriminate Hmode|].
    rewrite Hmode in H. invert_lbinds H. unfold lret in H. inversion H.
    eexists. eexists. split; reflexivity.
Qed.

Section EllipseUnits.

Variable m : MathModule.
Variables (units1 units2 : string) (cf1 cf2 : float).

Hypothesis factor1 : unit_factor units1 = Ok cf1.
Hypothesis factor2 : unit_factor units2 = Ok cf2.

Lemma build_arc_rescaled (cx cy : option float) (p1x p1y p3x p3y : float)
    (arc_index : Z) (a1 : TGeometryItem) :
  build_arc m cf1 cx cy p1x p1y p3x p3y arc_index = Ok a1 ->
  exists a2,
    build_arc m cf2 cx cy p1x p1y p3x p3y arc_index = Ok a2 /\
    rescaled cf1 cf2 a1 a2.
Proof.
  pose proof (unit_factor_nonzero _ _ factor2) as nz2.
  intros H. unfold build_arc in H |- *.
  do 7 (apply bind_ok in H;
        let E := fresh "E" in
        destruct H as [? [E H]]; rewrite E; cbn [bind]).
  do 3 (apply bind_ok in H;
        let E := fresh "E" in
        destruct H as [? [E H]]; apply fdiv_ok_inv in E;
        rewrite (fdiv_nonzero _ _ nz2); cbn [bind]).
  inversion H. subst.
  eexists. split; [reflexivity|].
  unfold rescaled. do 6 eexists. split; reflexivity.
Qed.

Lemma ellipse_arc_rescaled (points : list (list float))
    (acc1 acc2 acc1' : TGeometryList * Z * option float * option float)
    (index : Z) (log log' : list string) :
  Forall2 (rescaled cf1 cf2) (fst (fst (fst acc1))) (fst (fst (fst acc2))) /\
  snd (fst (fst acc1)) = snd (fst (fst acc2)) /\
  snd (fst acc1) = snd (fst acc2) /\ snd acc1 = snd acc2 ->
  ellipse_arc m cf1 points acc1 index log = (log', Ok acc1') ->
  exists acc2',
    ellipse_arc m cf2 points acc2 index log = (log', Ok acc2') /\
    (Forall2 (rescaled cf1 cf2) (fst (fst (fst acc1'))) (fst (fst (fst acc2'))) /\
     snd (fst (fst acc1')) = snd (fst (fst acc2')) /\
     snd (fst acc1') = snd (fst acc2') /\ snd acc1' = snd acc2').
Proof.
  destruct acc1 as [[[arcs1 arc_index] old_cx] old_cy].
  destruct acc2 as [[[arcs2 arc_index2] old_cx2] old_cy2].
  cbn [fst snd]. intros (HF & <- & <- & <-) H.
  unfold ellipse_arc in H |- *.
  repeat (apply lbind_ok in H;
          let E := fresh "E" in
          destruct H as [? [? [E H]]];
          rewrite (lbind_run _ _ _ _ _ E); cbv beta).
  match type of H with
  | context [match ?c with (_, _) => _ end] => destruct c as [cx cy]
  end.
  apply lbind_ok in H. destruct H as [a1 [log2 [Harc H]]].
  apply lift_ok in Harc. destruct Harc as [Harc ->].
  destruct (build_arc_rescaled _ _ _ _ _ _ _ _ Harc) as [a2 [Harc2 Hres]].
  rewrite (lbind_run _ _ _ _ a2 (f_equal (fun r => (_, r)) Harc2)).
  unfold lret in H |- *. inversion H. subst.
  eexists. split; [reflexivity|]. cbn [fst snd].
  split; [|repeat split].
  apply Forall2_app; [exact HF | constructor; [exact Hres | constructor]].
Qed.

Lemma ellipse_body_rescaled (segment_length : float)
    (st1 st2 st1' : ellipse_state) (ellipse : TGeometryItem)
    (log log' : list string) :
  (Forall2 (rescaled cf1 cf2) (es_arcs st1) (es_arcs st2) /\
   es_arc_index st1 = es_arc_index st2 /\
   es_num_segments st1 = es_num_segments st2 /\
   es_cx st1 = es_cx st2 /\ es_cy st1 = es_cy st2) /\
  counted_mode (es_num_segments st1) segment_length ->
  ellipse_body m segment_length units1 st1 ellipse log = (log', Ok st1') ->
  exists st2',
    ellipse_body m segment_length units2 st2 ellipse log = (log', Ok st2') /\
    ((Forall2 (rescaled cf1 cf2) (es_arcs st1') (es_arcs st2') /\
      es_arc_index st1' = es_arc_index st2' /\
      es_num_segments st1' = es_num_segments st2' /\
      es_cx st1' = es_cx st2' /\ es_cy st1' = es_cy st2') /\
     counted_mode (es_num_segments st1') segment_length).
Proof.
  destruct st1 as [arcs1 arc_index n cx cy].
  destruct st2 as [arcs2 arc_index2 n2 cx2 cy2].
  cbn [es_arcs es_arc_index es_num_segments es_cx es_cy].
  intros [(HF & <- & <- & <- & <-) Hmode] H.
  unfold ellipse_body in H |- *.
  cbn [es_arcs es_arc_index es_num_segments es_cx es_cy] in H |- *.
  repeat (apply lbind_ok in H;
          let E := fresh "E" in
          destruct H as [? [? [E H]]];
          rewrite (lbind_run _ _ _ _ _ E); cbv beta).
  apply lbind_ok in H. destruct H as [cf [log1 [Hcf H]]].
  apply lift_ok in Hcf. destruct Hcf as [Hcf ->].
  rewrite factor1 in Hcf. inversion Hcf. subst cf.
  rewrite (lbind_run _ _ _ _ cf2 (f_equal (fun r => (_, r)) factor2)).
  apply lbind_ok in H. destruct H as [plan [log2 [Hplan H]]].
  rewrite (ellipse_segmentation_units_free _ _ cf1 cf2 _ _ Hmode) in Hplan.
  rewrite (lbind_run _ _ _ _ _ Hplan).
  destruct (ellipse_segmentation_counted _ _ _ _ _ _ _ _ Hmode Hplan)
    as [n' [angle [-> Hn']]].
  do 4 (apply lbind_ok in H;
          let E := fresh "E" in
          destruct H as [? [? [E H]]];
          rewrite (lbind_run _ _ _ _ _ E); cbv beta).
  apply lbind_ok in H. destruct H as [acc1' [log3 [Hloop H]]].
  destruct (lfor_each_simulation
              (fun a1 a2 : TGeometryList * Z * option float * option float =>
                 Forall2 (rescaled cf1 cf2) (fst (fst (fst a1)))
                   (fst (fst (fst a2))) /\
                 snd (fst (fst a1)) = snd (fst (fst a2)) /\
                 snd (fst a1) = snd (fst a2) /\ snd a1 = snd a2)
              _ _
              (fun s1 s2 x l l' s1' => ellipse_arc_rescaled _ s1 s2 s1' x l l')
              _ (arcs1, arc_index, cx, cy) (arcs2, arc_index, cx, cy) _ _ _
              (conj HF (conj eq_refl (conj eq_refl eq_refl))) Hloop)
    as [acc2' [Hloop2 HR]].
  rewrite (lbind_run _ _ _ _ _ Hloop2).
  destruct acc1' as [[[arcs1' i1] cx1'] cy1'].
  destruct acc2' as [[[arcs2' i2] cx2'] cy2'].
  cbn [fst snd] in HR. destruct HR as (HF' & <- & <- & <-).
  unfold lret in H |- *. inversion H. subst.
  eexists. split; [reflexivity|].
  cbn [es_arcs es_arc_index es_num_segments es_cx es_cy].
  split; [repeat split; exact HF' | left; exact Hn'].
Qed.

End EllipseUnits.

(** X16: in the modes that work from a count, the unit changes nothing in
    [ellipse_to_arcs] but the scale of what it returns. If the call returns
    in one unit of the table, it returns in any other with the same log, the
    same number of arcs, the same names and the same angles: only the centre
    and the radius of each arc are divided by the other unit's factor. *)
Theorem ellipse_to_arcs_units_rescale (m : MathModule)
    (given_ellipsis : TGeometryList) (num_segments : pynum)
    (segment_length : float) (units1 units2 : string) (cf1 cf2 : float)
    (log log' : list string) (arcs1 : TGeometryList) :
  unit_factor units1 = Ok cf1 ->
  unit_factor units2 = Ok cf2 ->
  counted_mode num_segments segment_length ->
  ellipse_to_arcs m given_ellipsis num_segments segment_length units1 log
    = (log', Ok arcs1) ->
  exists arcs2,
    ellipse_to_arcs m given_ellipsis num_segments segment_length units2 log
      = (log', Ok arcs2) /\
    Forall2 (rescaled cf1 cf2) arcs1 arcs2.
Proof.
  intros Hu1 Hu2 Hmode H. unfold ellipse_to_arcs in H |- *.
  apply lbind_ok in H. destruct H as [st1 [log1 [Hloop H]]].
  destruct (lfor_each_simulation
              (fun s1 s2 : ellipse_state =>
                 (Forall2 (rescaled cf1 cf2) (es_arcs s1) (es_arcs s2) /\
                  es_arc_index s1 = es_arc_index s2 /\
                  es_num_segments s1 = es_num_segments s2 /\
                  es_cx s1 = es_cx s2 /\ es_cy s1 = es_cy s2) /\
                 counted_mode (es_num_segments s1) segment_length)
              _ _
              (fun s1 s2 x l l' s1' =>
                 ellipse_body_rescaled m units1 units2 cf1 cf2 Hu1 Hu2
                   segment_length s1 s2 s1' x l l')
              _
              {| es_arcs := []; es_arc_index := 0;
                 es_num_segments := num_segments;
                 es_cx := None; es_cy := None |}
              {| es_arcs := []; es_arc_index := 0;
                 es_num_segments := num_segments;
                 es_cx := None; es_cy := None |} _ _ _
              (conj (conj (Forall2_nil _)
                       (conj eq_refl (conj eq_refl (conj eq_refl eq_refl))))
                    Hmode) Hloop)
    as [st2 [Hloop2 [(HF & _) _]]].
  rewrite (lbind_run _ _ _ _ _ Hloop2).
  unfold lret in H |- *. inversion H. subst.
  exists (es_arcs st2). split; [reflexivity | exact HF].
Qed.

Lemma ellipse_to_arcs_units_rescale_witness :
  exists log' arcs1,
    ellipse_to_arcs series_math [raised_ellipse; flat_ellipse] (PyInt 3)
      0%float "mm" [] = (log', Ok arcs1) /\
    exists arcs2,
      ellipse_to_arcs series_math [raised_ellipse; flat_ellipse] (PyInt 3)
        0%float "um" [] = (log', Ok arcs2) /\
      Forall2 (rescaled 1000 1) arcs1 arcs2.
Proof.
  eexists. eexists. split; [vm_compute; reflexivity|].
  apply (ellipse_to_arcs_units_rescale series_math
           [raised_ellipse; flat_ellipse] (PyInt 3) 0%float "mm" "um"
           1000%float 1%float []).
  - reflexivity.
  - reflexivity.
  - left. reflexivity.
  - vm_compute. reflexivity.
Defined.

(** ** [ellipse_to_arcs]: what it reads of an ellipse *)

Lemma lbind_lift_ok {A B : Type} (a : A) (k : A -> logged B) :
  lbind (lift (Ok a)) k = k a.
Proof. reflexivity. Qed.

Lemma ellipse_body_axis (m : MathModule) (segment_length : float)
    (units : string) (st : ellipse_state) (ellipse : TGeometryItem) :
  ellipse_body m segment_length units st (axis_view ellipse)
  = ellipse_body m segment_length units st ellipse.
Proof.
  unfold ellipse_body, axis_view. cbn [snd].
  destruct (snd ellipse) as [|center [|major_axis [|ratio more]]];
    try reflexivity.
  rewrite !py_index_first, !py_index_second, !py_index_third.
  rewrite !lbind_lift_ok. cbv beta.
  rewrite !(py_index_firstn _ 1 0) by lia. change (Z.of_nat 0) with 0.
  destruct (py_index major_axis 0) as [major_radius|e]; [|reflexivity].
  rewrite !lbind_lift_ok. cbv beta.
  rewrite !(py_index_firstn _ 1 0) by lia.
  reflexivity.
Qed.

(** X17: of the major axis of an ellipse, which the importer stores as an
    end point [(x, y, z)], [ellipse_to_arcs] reads the x coordinate alone:
    a batch and its axis view (names emptied, y and z of the major axis
    dropped) give the same arcs, log and exceptions. An ellipse whose major
    axis is turned away from the x axis is converted as one lying along
    it. *)
Theorem ellipse_to_arcs_reads_major_x (m : MathModule)
    (given_ellipsis : TGeometryList) (num_segments : pynum)
    (segment_length : float) (units : string) (log : list string) :
  ellipse_to_arcs m (map axis_view given_ellipsis) num_segments segment_length
    units log
  = ellipse_to_arcs m given_ellipsis num_segments segment_length units log.
Proof.
  unfold ellipse_to_arcs, lbind.
  assert (Hloop : forall st l,
            lfor_each (ellipse_body m segment_length units)
              (map axis_view given_ellipsis) st l
            = lfor_each (ellipse_body m segment_length units)
                given_ellipsis st l).
  { induction given_ellipsis as [|ellipse rest IH]; intros st l; [reflexivity|].
    cbn [map lfor_each]. unfold lbind. rewrite ellipse_body_axis.
    destruct (ellipse_body m segment_length units st ellipse l)
      as [l1 [st1|e]]; [apply IH | reflexivity]. }
  rewrite Hloop. reflexivity.
Qed.

(** ** [arc_to_lines]: the lines of one arc join up *)

Section ArcForm.

Variable m : MathModule.



End ArcForm.






(** ** [import_file]: which piece of the file name decides *)

Lemma py_split_no_sep (sep : ascii) (s : string) :
  has_char sep s = false -> py_split sep s = [s].
Proof.
  induction s as [|c s IH]; intros H; [reflexivity|].
  cbn [has_char] in H. apply orb_false_elim in H. destruct H as [Hc Hs].
  cbn [py_split]. rewrite Hc, (IH Hs). reflexivity.
Qed.

Lemma py_split_at_sep (sep : ascii) (a b : string) :
  has_char sep a = false ->
  py_split sep (a ++ String sep b)%string = a :: py_split sep b.
Proof.
  induction a as [|c a IH]; intros H.
  - cbn [String.append py_split]. rewrite Ascii.eqb_refl. reflexivity.
  - cbn [has_char] in H. apply orb_false_elim in H. destruct H as [Hc Ha].
    cbn [String.append py_split]. rewrite Hc, (IH Ha). reflexivity.
Qed.

Lemma append_empty (s : string) : (s ++ EmptyString)%string = s.
Proof.
  induction s as [|c s IH]; [reflexivity|].
  cbn [String.append]. rewrite IH. reflexivity.
Qed.

Lemma py_split_first (sep : ascii) (a tail : string) :
  has_char sep a = false ->
  tail = EmptyString \/ (exists rest, tail = String sep rest) ->
  exists more, py_split sep (a ++ tail)%string = a :: more.
Proof.
  intros Ha [-> | [rest ->]].
  - exists []. rewrite append_empty. apply py_split_no_sep. exact Ha.
  - eexists. apply py_split_at_sep. exact Ha.
Qed.

Section ImportFileProofs.

Variable R : Type.
Variable import_dxf_file :
  string -> list string -> bool -> pynum -> float -> string -> R.
Variable import_csv_file :
  string -> list string -> string -> bool -> bool -> pynum -> float -> string -> R.
Variable import_txt_file : string -> string -> R.

Lemma import_file_of_pieces (filename first piece : string)
    (more : list string) (file_type : string) (allowedtypes : list string)
    (units : string) (header convert : bool) (num_segments : pynum)
    (segment_length : float) (segment_units : string) :
  py_split "."%char filename = first :: piece :: more ->
  py_upper piece = Some file_type ->
  import_file R import_dxf_file import_csv_file import_txt_file filename
    allowedtypes units header convert num_segments segment_length segment_units
  = Some (Ok
      (if String.eqb file_type "DXF" then
         Imported (import_dxf_file filename allowedtypes convert
                     num_segments segment_length segment_units)
       else if String.eqb file_type "CSV" then
         Imported (import_csv_file filename allowedtypes units header
                     convert num_segments segment_length segment_units)
       else if String.eqb file_type "TXT" then
         Imported (import_txt_file filename units)
       else FiletypeUnknown)).
Proof.
  intros Hsplit Hupper. unfold import_file.
  rewrite Hsplit, py_index_second, Hupper. reflexivity.
Qed.

End ImportFileProofs.

(** X19: a file name without a dot makes [import_file] raise [IndexError]
    (from [split('.')[1]]), not the exception for an unknown file type. *)
Theorem import_file_needs_dot (R : Type)
    (import_dxf_file :
       string -> list string -> bool -> pynum -> float -> string -> R)
    (import_csv_file :
       string -> list string -> string -> bool -> bool -> pynum -> float ->
       string -> R)
    (import_txt_file : string -> string -> R)
    (filename : string) (allowedtypes : list string) (units : string)
    (header convert : bool) (num_segments : pynum) (segment_length : float)
    (segment_units : string) :
  has_char "."%char filename = false ->
  import_file R import_dxf_file import_csv_file import_txt_file filename
    allowedtypes units header convert num_segments segment_length segment_units
  = Some (Raise IndexError).
Proof.
  intros H. unfold import_file. rewrite (py_split_no_sep _ _ H). reflexivity.
Qed.

Lemma import_file_needs_dot_witness :
  import_file unit (fun _ _ _ _ _ _ => tt) (fun _ _ _ _ _ _ _ _ => tt)
    (fun _ _ => tt) "drawing" [] "um" true false (PyInt 0) 0%float "um"
  = Some (Raise IndexError).
Proof.
  apply (import_file_needs_dot unit (fun _ _ _ _ _ _ => tt)
           (fun _ _ _ _ _ _ _ _ => tt) (fun _ _ => tt) "drawing").
  reflexivity.
Defined.

(** X20: the file type is the second piece of the whole file name cut at
    its dots, in upper case. For a name [stem.ext] or [stem.ext.more] with
    no dot in [stem] and [ext], the importer is chosen by [ext] whatever
    its case, and whatever follows a second dot is not looked at:
    [scan.Csv.dxf] goes to the CSV importer. *)
Theorem import_file_second_piece (R : Type)
    (import_dxf_file :
       string -> list string -> bool -> pynum -> float -> string -> R)
    (import_csv_file :
       string -> list string -> string -> bool -> bool -> pynum -> float ->
       string -> R)
    (import_txt_file : string -> string -> R)
    (stem ext tail file_type : string) (allowedtypes : list string)
    (units : string) (header convert : bool) (num_segments : pynum)
    (segment_length : float) (segment_units : string) :
  has_char "."%char stem = false ->
  has_char "."%char ext = false ->
  tail = EmptyString \/ (exists rest, tail = String "."%char rest) ->
  py_upper ext = Some file_type ->
  let filename := (stem ++ String "."%char (ext ++ tail))%string in
  import_file R import_dxf_file import_csv_file import_txt_file filename
    allowedtypes units header convert num_segments segment_length segment_units
  = Some (Ok
      (if String.eqb file_type "DXF" then
         Imported (import_dxf_file filename allowedtypes convert
                     num_segments segment_length segment_units)
       else if String.eqb file_type "CSV" then
         Imported (import_csv_file filename allowedtypes units header
                     convert num_segments segment_length segment_units)
       else if String.eqb file_type "TXT" then
         Imported (import_txt_file filename units)
       else FiletypeUnknown)).
Proof.
  intros Hstem Hext Htail Hupper filename.
  destruct (py_split_first "."%char ext tail Hext Htail) as [more Hmore].
  apply (import_file_of_pieces R import_dxf_file import_csv_file
           import_txt_file filename stem ext more file_type);
    [|exact Hupper].
  unfold filename. rewrite (py_split_at_sep _ _ _ Hstem), Hmore. reflexivity.
Qed.

Lemma import_file_second_piece_witness :
  import_file (string * string) (fun f _ _ _ _ _ => ("dxf", f))
    (fun f _ _ _ _ _ _ _ => ("csv", f)) (fun f _ => ("txt", f))
    "scan.Csv.dxf" [] "um" true false (PyInt 0) 0%float "um"
  = Some (Ok (Imported ("csv", "scan.Csv.dxf"))).
Proof.
  apply (import_file_second_piece (string * string)
           (fun f _ _ _ _ _ => ("dxf", f))
           (fun f _ _ _ _ _ _ _ => ("csv", f)) (fun f _ => ("txt", f))
           "scan" "Csv" ".dxf" "CSV").
  - reflexivity.
  - reflexivity.
  - right. eexists. reflexivity.
  - reflexivity.
Defined.

(** X21: a path that starts with a dot never reaches an importer. For
    [../rest] the second piece is empty and the call raises
    [Exception('Filetype Unknown')]; for [./rest] the second piece starts
    with the slash, and the only outcome is that same exception, whatever
    the extension at the end. *)
Theorem import_file_relative_path (R : Type)
    (import_dxf_file :
       string -> list string -> bool -> pynum -> float -> string -> R)
    (import_csv_file :
       string -> list string -> string -> bool -> bool -> pynum -> float ->
       string -> R)
    (import_txt_file : string -> string -> R)
    (rest : string) (allowedtypes : list string)
    (units : string) (header convert : bool) (num_segments : pynum)
    (segment_length : float) (segment_units : string) :
  import_file R import_dxf_file import_csv_file import_txt_file
    ("../" ++ rest)%string
    allowedtypes units header convert num_segments segment_length segment_units
  = Some (Ok FiletypeUnknown) /\
  forall outcome,
    import_file R import_dxf_file import_csv_file import_txt_file
      ("./" ++ rest)%string
      allowedtypes units header convert num_segments segment_length
      segment_units = Some outcome ->
    outcome = Ok FiletypeUnknown.
Proof.
  split.
  - unfold import_file. cbn [String.append py_split].
    change (Ascii.eqb "."%char "."%char) with true. cbv iota.
    rewrite py_index_second. reflexivity.
  - intros outcome H. unfold import_file in H.
    cbn [String.append py_split] in H.
    change (Ascii.eqb "."%char "."%char) with true in H.
    change (Ascii.eqb "/"%char "."%char) with false in H. cbv iota in H.
    destruct (py_split "."%char rest) as [|piece more].
    + rewrite py_index_second in H. cbn in H. inversion H. reflexivity.
    + rewrite py_index_second in H. cbn [py_upper] in H.
      change (N_of_ascii "/"%char <? 128)%N with true in H. cbv iota in H.
      destruct (py_upper piece) as [upper|]; [|discriminate H].
      inversion H. reflexivity.
Qed.

Lemma import_file_relative_path_witness :
  import_file unit (fun _ _ _ _ _ _ => tt) (fun _ _ _ _ _ _ _ _ => tt)
    (fun _ _ => tt) "../scans/part.dxf" [] "um" true false (PyInt 0) 0%float "um"
  = Some (Ok FiletypeUnknown) /\
  exists outcome,
    import_file unit (fun _ _ _ _ _ _ => tt) (fun _ _ _ _ _ _ _ _ => tt)
      (fun _ _ => tt) "./part.dxf" [] "um" true false (PyInt 0) 0%float "um"
    = Some outcome /\
    outcome = Ok FiletypeUnknown.
Proof.
  split.
  - apply (import_file_relative_path unit (fun _ _ _ _ _ _ => tt)
             (fun _ _ _ _ _ _ _ _ => tt) (fun _ _ => tt) "scans/part.dxf").
  - eexists. split; [vm_compute; reflexivity|].
    apply (proj2 (import_file_relative_path unit (fun _ _ _ _ _ _ => tt)
                    (fun _ _ _ _ _ _ _ _ => tt) (fun _ _ => tt) "part.dxf"
                    [] "um" true false (PyInt 0) 0%float "um")).
    vm_compute. reflexivity.
Defined.

(** ** [within_a_percent]: what the tests accept *)

Lemma sub_nan_r (x : float) : (x - nan)%float = nan.
Proof.
  apply Prim2SF_inj. rewrite sub_spec.
  replace (Prim2SF nan) with S754_nan by reflexivity.
  unfold SF64sub, SFsub. destruct (Prim2SF x); reflexivity.
Qed.

Lemma sub_nan_l (x : float) : (nan - x)%float = nan.
Proof.
  apply Prim2SF_inj. rewrite sub_spec.
  replace (Prim2SF nan) with S754_nan by reflexivity.
  reflexivity.
Qed.

Lemma div_nan_l (x : float) : (nan / x)%float = nan.
Proof.
  apply Prim2SF_inj. rewrite div_spec.
  replace (Prim2SF nan) with S754_nan by reflexivity.
  reflexivity.
Qed.

Lemma within_a_percent_nan (x : float) :
  within_a_percent nan x = true /\ within_a_percent x nan = true.
Proof.
  unfold within_a_percent.
  rewrite !sub_nan_l, !sub_nan_r, !div_nan_l.
  change (PRECISION <? abs nan)%float with false.
  change (nan =? 0)%float with false.
  rewrite !andb_false_r. split; reflexivity.
Qed.

(** X22: the comparison the tests check results with accepts NaN. A NaN on
    either side is "within a percent" of every float, so a coordinate that
    came out as NaN passes every check made with [within_a_percent]. *)
Theorem within_a_percent_accepts_nan (x : float) :
  within_a_percent nan x = true /\ within_a_percent x nan = true.
Proof. exact (within_a_percent_nan x). Qed.

Lemma py_index_app_l {A : Type} (l extra : list A) (i : nat) :
  (i < List.length l)%nat ->
  py_index (l ++ extra) (Z.of_nat i) = py_index l (Z.of_nat i).
Proof.
  intros H. destruct l as [|d l']; [simpl in H; lia|].
  rewrite (py_index_nth (d :: l') i d) by exact H.
  rewrite (py_index_nth ((d :: l') ++ extra) i d)
    by (rewrite length_app; lia).
  rewrite app_nth1 by exact H. reflexivity.
Qed.

Lemma within_a_percent_loop_prefix (tuple1 tuple2 extra : list float)
    (k a : nat) :
  (a + k <= List.length tuple2)%nat ->
  within_a_percent_loop tuple1 (tuple2 ++ extra) (map Z.of_nat (seq a k))
  = within_a_percent_loop tuple1 tuple2 (map Z.of_nat (seq a k)).
Proof.
  revert a. induction k as [|k IH]; intros a H; [reflexivity|].
  cbn [seq map within_a_percent_loop].
  rewrite py_index_app_l by lia. rewrite IH by lia. reflexivity.
Qed.

Lemma within_a_percent_loop_nan (tuple1 tuple2 : list float) (k a : nat) :
  (a + k <= List.length tuple1)%nat ->
  (a + k <= List.length tuple2)%nat ->
  (forall i, (i < List.length tuple1)%nat -> nth i tuple1 nan = nan) ->
  within_a_percent_loop tuple1 tuple2 (map Z.of_nat (seq a k)) = Ok true.
Proof.
  revert a. induction k as [|k IH]; intros a H1 H2 Hnan; [reflexivity|].
  cbn [seq map within_a_percent_loop].
  rewrite (py_index_nth tuple1 a nan) by lia.
  rewrite (py_index_nth tuple2 a nan) by lia.
  cbn [bind]. rewrite Hnan by lia.
  destruct (within_a_percent_nan (nth a tuple2 nan)) as [-> _].
  cbn [negb]. apply IH; [lia | lia | exact Hnan].
Qed.

(** X23: [within_a_percent_tuple] looks at as many entries as [tuple1] has
    and at no more: whatever [tuple2] holds beyond them changes nothing,
    so a result without z agrees with an expected point of any z; and a
    [tuple1] whose entries are all NaN agrees with every [tuple2] that is
    as long. *)
Theorem within_a_percent_tuple_prefix (tuple1 tuple2 extra : list float) :
  (List.length tuple1 <= List.length tuple2)%nat ->
  within_a_percent_tuple tuple1 (tuple2 ++ extra)
  = within_a_percent_tuple tuple1 tuple2 /\
  ((forall i, (i < List.length tuple1)%nat -> nth i tuple1 nan = nan) ->
   within_a_percent_tuple tuple1 tuple2 = Ok true).
Proof.
  intros H. unfold within_a_percent_tuple. split.
  - apply within_a_percent_loop_prefix. lia.
  - intros Hnan. apply within_a_percent_loop_nan; [lia | lia | exact Hnan].
Qed.

Lemma within_a_percent_tuple_prefix_witness :
  within_a_percent_tuple [25000; 0]%float ([25000; 0] ++ [777])%float
  = within_a_percent_tuple [25000; 0]%float [25000; 0]%float /\
  within_a_percent_tuple [nan; nan] [25000; 0]%float = Ok true.
Proof.
  split.
  - refine (proj1 (within_a_percent_tuple_prefix [25000; 0]%float
                     [25000; 0]%float [777]%float _)).
    simpl. lia.
  - refine (proj2 (within_a_percent_tuple_prefix [nan; nan] [25000; 0]%float
                     [] _) _).
    + simpl. lia.
    + intros i Hi. destruct i as [|[|i]]; [reflexivity | reflexivity|].
      simpl in Hi. lia.
Defined.
